(** * Platform pass-through emulator: emulators/pt/platform.c

    A shallow embedding of the pass-through emulator of Xvisor.  The C file
    talks to the host through calls into other subsystems (heap, device tree,
    host IRQs, IOMMU, device registry, guest address space).  Every such call
    is recorded, with its arguments and its result, in a trace; the results
    themselves are supplied by a [Host], so that any call can be made to fail.
    Resources (routed lines, installed handlers, live heap blocks, ...) are
    read off the trace by replaying it. *)

From Stdlib Require Import ZArith String List Lia Bool.
From stdpp Require Import base list gmap strings.
Local Open Scope Z_scope.

(** ** Machine integers and constants *)

(** Conversion to [u32] (assignment of an [int] or a wider value). *)
Definition to_u32 (z : Z) : Z := z mod 2 ^ 32.

(** [sizeof(u32)] *)
Definition sizeof_u32 : Z := 4.

(** [sizeof(s->name)], from [char name[64]]. *)
Definition sizeof_name : nat := 64.

(** Modelled from the spec: the error kinds of vmm_error.h, which is not part
    of this source file (Failure, InvalidConfig, Overflow, OutOfMemory).
    Only [VMM_OK = 0] and the fact that the others are not 0 matter below. *)
Definition VMM_OK : Z := 0.
Definition VMM_EFAIL : Z := -1.
Definition VMM_EINVALID : Z := -5.
Definition VMM_EOVERFLOW : Z := -6.
Definition VMM_ENOMEM : Z := -7.

(** Modelled from the spec: the result of a host IRQ handler. *)
Inductive vmm_irq_return_t := VMM_IRQ_NONE | VMM_IRQ_HANDLED.

(** Modelled from the spec: the disposition a notifier callback returns
    (vmm_notifier.h is not part of this source file). *)
Inductive notify_t := NOTIFY_DONE | NOTIFY_OK | NOTIFY_BAD.

(** ** Data model *)

(** A [struct vmm_guest *]: the address identifies the guest. *)
Record vmm_guest := { guest_addr : nat; guest_name : string }.

(** A guest region, seen through the accessor macros the emulator uses. *)
Record vmm_region := {
  reg_flags : Z;
  VMM_REGION_GPHYS_START : Z;
  VMM_REGION_GPHYS_END : Z;
  VMM_REGION_HPHYS_START : Z
}.

Record vmm_device := { dev_addr : nat; iommu_group : option nat }.

Record vmm_devtree_node := { node_addr : nat; node_name : string }.

Record vmm_guest_aspace_event := { edata_guest : vmm_guest }.

(** A heap array of [u32]: its address and its cells. *)
Record u32_array := { arr_ptr : nat; arr_data : list Z }.

Inductive notifier_fn := platform_pt_guest_aspace_notification_fn.

Record vmm_notifier_block := {
  notifier_call : option notifier_fn;
  priority : Z
}.

(** [struct platform_pt_state]; [self] is the address of the structure (the
    pointer [s]), a field that is [NULL] is [None]. *)
Record platform_pt_state := {
  self : nat;
  name : string;
  guest : option vmm_guest;
  irq_count : Z;
  host_irqs : option u32_array;
  host_type_irqs : option u32_array;
  guest_irqs : option u32_array;
  dev : option vmm_device;
  dom : option nat;
  nb : vmm_notifier_block
}.

Record vmm_emudev := { node : vmm_devtree_node; priv : option platform_pt_state }.

(** The structure as [vmm_zalloc] returns it: every field zero. *)
Definition zeroed_state (p : nat) : platform_pt_state :=
  {| self := p; name := ""; guest := None; irq_count := 0;
     host_irqs := None; host_type_irqs := None; guest_irqs := None;
     dev := None; dom := None;
     nb := {| notifier_call := None; priority := 0 |} |}.

Definition set_name (v : string) (s : platform_pt_state) :=
  {| self := self s; name := v; guest := guest s; irq_count := irq_count s;
     host_irqs := host_irqs s; host_type_irqs := host_type_irqs s;
     guest_irqs := guest_irqs s; dev := dev s; dom := dom s; nb := nb s |}.
Definition set_guest (v : option vmm_guest) (s : platform_pt_state) :=
  {| self := self s; name := name s; guest := v; irq_count := irq_count s;
     host_irqs := host_irqs s; host_type_irqs := host_type_irqs s;
     guest_irqs := guest_irqs s; dev := dev s; dom := dom s; nb := nb s |}.
Definition set_irq_count (v : Z) (s : platform_pt_state) :=
  {| self := self s; name := name s; guest := guest s; irq_count := v;
     host_irqs := host_irqs s; host_type_irqs := host_type_irqs s;
     guest_irqs := guest_irqs s; dev := dev s; dom := dom s; nb := nb s |}.
Definition set_host_irqs (v : option u32_array) (s : platform_pt_state) :=
  {| self := self s; name := name s; guest := guest s; irq_count := irq_count s;
     host_irqs := v; host_type_irqs := host_type_irqs s;
     guest_irqs := guest_irqs s; dev := dev s; dom := dom s; nb := nb s |}.
Definition set_host_type_irqs (v : option u32_array) (s : platform_pt_state) :=
  {| self := self s; name := name s; guest := guest s; irq_count := irq_count s;
     host_irqs := host_irqs s; host_type_irqs := v;
     guest_irqs := guest_irqs s; dev := dev s; dom := dom s; nb := nb s |}.
Definition set_guest_irqs (v : option u32_array) (s : platform_pt_state) :=
  {| self := self s; name := name s; guest := guest s; irq_count := irq_count s;
     host_irqs := host_irqs s; host_type_irqs := host_type_irqs s;
     guest_irqs := v; dev := dev s; dom := dom s; nb := nb s |}.
Definition set_dev (v : option vmm_device) (s : platform_pt_state) :=
  {| self := self s; name := name s; guest := guest s; irq_count := irq_count s;
     host_irqs := host_irqs s; host_type_irqs := host_type_irqs s;
     guest_irqs := guest_irqs s; dev := v; dom := dom s; nb := nb s |}.
Definition set_dom (v : option nat) (s : platform_pt_state) :=
  {| self := self s; name := name s; guest := guest s; irq_count := irq_count s;
     host_irqs := host_irqs s; host_type_irqs := host_type_irqs s;
     guest_irqs := guest_irqs s; dev := dev s; dom := v; nb := nb s |}.
Definition set_nb (v : vmm_notifier_block) (s : platform_pt_state) :=
  {| self := self s; name := name s; guest := guest s; irq_count := irq_count s;
     host_irqs := host_irqs s; host_type_irqs := host_type_irqs s;
     guest_irqs := guest_irqs s; dev := dev s; dom := dom s; nb := v |}.

(** [a[i]] and [a[i] = v].  Indexing a [NULL] array does not happen in the
    code (every loop is bounded by [irq_count], and the arrays exist as soon
    as it is not 0); it reads 0 here. *)
Definition arr_get (a : option u32_array) (i : nat) : Z :=
  match a with
  | Some a => arr_data a !!! i
  | None => 0
  end.

Definition arr_set (a : option u32_array) (i : nat) (v : Z) : option u32_array :=
  match a with
  | Some a => Some {| arr_ptr := arr_ptr a; arr_data := <[i:=v]> (arr_data a) |}
  | None => None
  end.

(** ** Strings of fixed capacity *)

(** Modelled from the spec: [strlcpy] and [strlcat] of the string library,
    which is not part of this source file.  Both write at most [size - 1]
    characters and the terminator, and return the length of the string they
    tried to build.  The functions return the new content of [dest] with that
    length. *)
Definition strlcpy (dest src : string) (size : nat) : string * nat :=
  (match size with
   | O => dest
   | S n => substring 0 n src
   end, String.length src).

Definition strlcat (dest src : string) (size : nat) : string * nat :=
  let dsize := String.length dest in
  let len := String.length src in
  if (size <=? dsize)%nat then (dest, (size + len)%nat)
  else (dest +:+ substring 0 (size - dsize - 1) src, (dsize + len)%nat).

(** ** Calls into the host, and their trace *)

Inductive event :=
| EvZalloc (size : Z) (res : option nat)
| EvFree (p : nat)
| EvAttrlen (nd : vmm_devtree_node) (attr : string) (res : Z)
| EvReadU32 (nd : vmm_devtree_node) (attr : string) (index : Z) (rc val : Z)
| EvReadString (nd : vmm_devtree_node) (attr : string) (res : option string)
| EvSetType (hirq type rc : Z)
| EvMarkRouted (hirq rc : Z)
| EvUnmarkRouted (hirq : Z)
| EvRegister (hirq : Z) (nm : string) (d : nat) (rc : Z)
| EvUnregister (hirq : Z) (d : nat)
| EvFindDevice (nm : string) (res : option vmm_device)
| EvRefDevice (d : nat)
| EvDrefDevice (d : nat)
| EvDomainAlloc (group : option nat) (type : Z) (res : option nat)
| EvDomainFree (dm : nat)
| EvSetFaultHandler (dm : nat) (d : nat)
| EvIommuMap (dm : option nat) (iova hphys len prot : Z)
| EvIterateRegion (g : option vmm_guest) (flags : Z)
| EvRegisterClient (d : nat) (rc : Z)
| EvUnregisterClient (d : nat)
| EvEmulateIrq (g : option vmm_guest) (girq level rc : Z)
| EvMapHost2GuestIrq (g : option vmm_guest) (girq hirq : Z)
| EvPrintf (fmt : string) (g : option vmm_guest) (girq : Z)
| EvLerror (flags iova : Z)
| EvGuestHalt (g : option vmm_guest).

(** The host: the constants of headers that are not part of this source
    file, and the result of every call whose result the emulator looks at.
    A result may depend on everything that happened before (the trace). *)
Class Host := {
  VMM_GUEST_ASPACE_EVENT_INIT : Z;
  VMM_REGION_REAL : Z;
  VMM_REGION_MEMORY : Z;
  VMM_REGION_ISRAM : Z;
  VMM_REGION_ISHOSTRAM : Z;
  VMM_IOMMU_READ : Z;
  VMM_IOMMU_WRITE : Z;
  VMM_IOMMU_DOMAIN_UNMANAGED : Z;
  VMM_DEVTREE_INTERRUPTS_ATTR_NAME : string;
  sizeof_platform_pt_state : Z;
  (** width of [physical_addr_t] *)
  physical_addr_bits : Z;
  host_zalloc : list event -> Z -> option nat;
  host_attrlen : list event -> vmm_devtree_node -> string -> Z;
  host_read_u32_atindex : list event -> vmm_devtree_node -> string -> Z -> Z * Z;
  host_read_string : list event -> vmm_devtree_node -> string -> option string;
  host_irq_set_type : list event -> Z -> Z -> Z;
  host_irq_mark_routed : list event -> Z -> Z;
  host_irq_register : list event -> Z -> string -> nat -> Z;
  host_find_device_by_name : list event -> string -> option vmm_device;
  host_iommu_domain_alloc : list event -> option nat -> Z -> option nat;
  host_register_client : list event -> nat -> Z;
  host_emulate_irq : list event -> option vmm_guest -> Z -> Z -> Z;
  host_guest_regions : list event -> option vmm_guest -> list vmm_region
}.

(** A computation that calls the host: it extends the trace. *)
Definition M (A : Type) : Type := list event -> A * list event.

Definition ret {A} (a : A) : M A := fun tr => (a, tr).

Definition bind {A B} (m : M A) (k : A -> M B) : M B :=
  fun tr => let (a, tr1) := m tr in k a tr1.

Notation "x <- m ;; k" := (bind m (fun x => k))
  (at level 100, m at level 99, right associativity).
Notation "m ;; k" := (bind m (fun _ => k))
  (at level 100, right associativity).

(** A call whose result the host chooses, and a call without a result. *)
Definition call {A} (res : list event -> A) (ev : A -> event) : M A :=
  fun tr => let a := res tr in (a, tr ++ [ev a]).

Definition emit (e : event) : M unit := fun tr => (tt, tr ++ [e]).

(** [for (i = from; i < from + n; i++) body(i)] *)
Fixpoint for_range (n : nat) (i : nat) (body : nat -> M unit) : M unit :=
  match n with
  | O => ret tt
  | S n' => body i ;; for_range n' (S i) body
  end.

(** The events a computation adds to the trace. *)
Definition events_of {A} (m : M A) (tr : list event) : list event :=
  drop (length tr) (snd (m tr)).

(** [if (rc)] *)
Definition is_err (rc : Z) : bool := negb (rc =? 0).

Section Emulator.
Context `{Host}.

(** ** The host calls the emulator makes *)

Definition vmm_zalloc (size : Z) : M (option nat) :=
  call (fun tr => host_zalloc tr size) (EvZalloc size).

Definition vmm_free (p : nat) : M unit := emit (EvFree p).

Definition vmm_devtree_attrlen (nd : vmm_devtree_node) (attr : string) : M Z :=
  call (fun tr => host_attrlen tr nd attr) (EvAttrlen nd attr).

(** Returns the error code and the new content of the cell [*out]: the value
    read, as a [u32], when the read succeeds, and the old content when not. *)
Definition vmm_devtree_read_u32_atindex (nd : vmm_devtree_node) (attr : string)
    (out : Z) (index : Z) : M (Z * Z) :=
  r <- call (fun tr => host_read_u32_atindex tr nd attr index)
            (fun r => EvReadU32 nd attr index (fst r) (snd r)) ;;
  ret (fst r, if is_err (fst r) then out else to_u32 (snd r)).

Definition vmm_devtree_read_string (nd : vmm_devtree_node) (attr : string)
    : M (option string) :=
  call (fun tr => host_read_string tr nd attr) (EvReadString nd attr).

Definition vmm_host_irq_set_type (hirq type : Z) : M Z :=
  call (fun tr => host_irq_set_type tr hirq type) (EvSetType hirq type).

Definition vmm_host_irq_mark_routed (hirq : Z) : M Z :=
  call (fun tr => host_irq_mark_routed tr hirq) (EvMarkRouted hirq).

Definition vmm_host_irq_unmark_routed (hirq : Z) : M unit :=
  emit (EvUnmarkRouted hirq).

Definition vmm_host_irq_register (hirq : Z) (nm : string) (d : nat) : M Z :=
  call (fun tr => host_irq_register tr hirq nm d) (EvRegister hirq nm d).

Definition vmm_host_irq_unregister (hirq : Z) (d : nat) : M unit :=
  emit (EvUnregister hirq d).

Definition vmm_devdrv_bus_find_device_by_name (nm : string) : M (option vmm_device) :=
  call (fun tr => host_find_device_by_name tr nm) (EvFindDevice nm).

Definition vmm_devdrv_ref_device (d : vmm_device) : M unit :=
  emit (EvRefDevice (dev_addr d)).

Definition vmm_devdrv_dref_device (d : vmm_device) : M unit :=
  emit (EvDrefDevice (dev_addr d)).

Definition vmm_iommu_domain_alloc (group : option nat) (type : Z) : M (option nat) :=
  call (fun tr => host_iommu_domain_alloc tr group type) (EvDomainAlloc group type).

Definition vmm_iommu_domain_free (dm : nat) : M unit := emit (EvDomainFree dm).

Definition vmm_iommu_set_fault_handler (dm : nat) (d : nat) : M unit :=
  emit (EvSetFaultHandler dm d).

Definition vmm_iommu_map (dm : option nat) (iova hphys len prot : Z) : M unit :=
  emit (EvIommuMap dm iova hphys len prot).

Definition vmm_guest_aspace_register_client (d : nat) : M Z :=
  call (fun tr => host_register_client tr d) (EvRegisterClient d).

Definition vmm_guest_aspace_unregister_client (d : nat) : M unit :=
  emit (EvUnregisterClient d).

Definition vmm_devemu_emulate_irq (g : option vmm_guest) (girq level : Z) : M Z :=
  call (fun tr => host_emulate_irq tr g girq level) (EvEmulateIrq g girq level).

Definition vmm_devemu_map_host2guest_irq (g : option vmm_guest) (girq hirq : Z) : M unit :=
  emit (EvMapHost2GuestIrq g girq hirq).

Definition vmm_printf (fmt : string) (g : option vmm_guest) (girq : Z) : M unit :=
  emit (EvPrintf fmt g girq).

Definition vmm_manager_guest_halt (g : option vmm_guest) : M unit :=
  emit (EvGuestHalt g).

Fixpoint for_each {A} (l : list A) (f : A -> M unit) : M unit :=
  match l with
  | [] => ret tt
  | x :: l' => f x ;; for_each l' f
  end.

(** Modelled from the spec: [vmm_guest_iterate_region], which is not part of
    this source file, calls [func] on every region of the guest that carries
    all the flags asked for. *)
Definition region_has_flags (flags : Z) (r : vmm_region) : bool :=
  Z.land (reg_flags r) flags =? flags.

Definition vmm_guest_iterate_region (g : option vmm_guest) (flags : Z)
    (func : option vmm_guest -> vmm_region -> M unit) : M unit :=
  fun tr =>
    (emit (EvIterateRegion g flags) ;;
     for_each (filter (fun r => region_has_flags flags r) (host_guest_regions tr g))
              (func g)) tr.

(** Subtraction of two [physical_addr_t]. *)
Definition paddr_sub (a b : Z) : Z := (a - b) mod 2 ^ physical_addr_bits.

(** Comparison of two guest pointers. *)
Definition guest_ptr_eqb (a b : option vmm_guest) : bool :=
  match a, b with
  | Some x, Some y => (guest_addr x =? guest_addr y)%nat
  | None, None => true
  | _, _ => false
  end.

(** ** platform_pt_routed_irq *)

(** The search loop of the handler, from index [i] with [n] entries left;
    it yields [found] and [guest_irq]. *)
Fixpoint find_guest_irq (s : platform_pt_state) (host_irq : Z) (n i : nat) : bool * Z :=
  match n with
  | O => (false, 0)
  | S n' =>
      if arr_get (host_irqs s) i =? host_irq
      then (true, arr_get (guest_irqs s) i)
      else find_guest_irq s host_irq n' (S i)
  end.

Definition platform_pt_routed_irq (irq : Z) (s : platform_pt_state)
    : M vmm_irq_return_t :=
  let host_irq := to_u32 irq in
  let '(found, guest_irq) :=
    find_guest_irq s host_irq (Z.to_nat (irq_count s)) 0 in
  if negb found then ret VMM_IRQ_HANDLED
  else
    rc <- vmm_devemu_emulate_irq (guest s) guest_irq 0 ;;
    (if is_err rc
     then vmm_printf "%s: Emulate Guest=%s irq=%d level=0 failed" (guest s) guest_irq
     else ret tt) ;;
    rc <- vmm_devemu_emulate_irq (guest s) guest_irq 1 ;;
    (if is_err rc
     then vmm_printf "%s: Emulate Guest=%s irq=%d level=1 failed" (guest s) guest_irq
     else ret tt) ;;
    ret VMM_IRQ_HANDLED.

(** ** platform_pt_reset, platform_pt_fault *)

Definition platform_pt_reset (edev : vmm_emudev) : M Z := ret VMM_OK.

Definition platform_pt_fault (iova flags : Z) (s : platform_pt_state) : M Z :=
  emit (EvLerror flags iova) ;;
  vmm_manager_guest_halt (guest s) ;;
  ret 0.

(** ** platform_pt_iter, platform_pt_guest_aspace_notification *)

Definition platform_pt_iter (s : platform_pt_state) (g : option vmm_guest)
    (reg : vmm_region) : M unit :=
  vmm_iommu_map (dom s)
    (VMM_REGION_GPHYS_START reg)
    (VMM_REGION_HPHYS_START reg)
    (paddr_sub (VMM_REGION_GPHYS_END reg) (VMM_REGION_GPHYS_START reg))
    (Z.lor VMM_IOMMU_READ VMM_IOMMU_WRITE).

Definition aspace_region_flags : Z :=
  Z.lor (Z.lor (Z.lor VMM_REGION_REAL VMM_REGION_MEMORY) VMM_REGION_ISRAM)
        VMM_REGION_ISHOSTRAM.

Definition platform_pt_guest_aspace_notification (s : platform_pt_state)
    (evt : Z) (edata : vmm_guest_aspace_event) : M notify_t :=
  if negb (evt =? VMM_GUEST_ASPACE_EVENT_INIT) then ret NOTIFY_DONE
  else if negb (guest_ptr_eqb (guest s) (Some (edata_guest edata))) then ret NOTIFY_DONE
  else
    for_range (Z.to_nat (irq_count s)) 0 (fun i =>
      vmm_devemu_map_host2guest_irq (guest s)
        (arr_get (guest_irqs s) i) (arr_get (host_irqs s) i)) ;;
    (match dom s with
     | Some _ =>
         vmm_guest_iterate_region (guest s) aspace_region_flags (platform_pt_iter s)
     | None => ret tt
     end) ;;
    ret NOTIFY_OK.

(** ** platform_pt_remove *)

(** [if (a) vmm_free(a);] *)
Definition free_array (a : option u32_array) : M unit :=
  match a with
  | Some a => vmm_free (arr_ptr a)
  | None => ret tt
  end.

(** The loop shared by the probe's rollback and by remove: unregister and
    unmark the host lines of indices [0, n). *)
Definition unregister_irqs (s : platform_pt_state) (n : nat) : M unit :=
  for_range n 0 (fun i =>
    vmm_host_irq_unregister (arr_get (host_irqs s) i) (self s) ;;
    vmm_host_irq_unmark_routed (arr_get (host_irqs s) i)).

Definition platform_pt_remove (edev : vmm_emudev) : M (Z * vmm_emudev) :=
  match priv edev with
  | None => ret (VMM_EFAIL, edev)
  | Some s =>
      vmm_guest_aspace_unregister_client (self s) ;;
      (match dom s with
       | Some dm => vmm_iommu_domain_free dm
       | None => ret tt
       end) ;;
      (match dev s with
       | Some d => vmm_devdrv_dref_device d
       | None => ret tt
       end) ;;
      unregister_irqs s (Z.to_nat (irq_count s)) ;;
      free_array (guest_irqs s) ;;
      free_array (host_type_irqs s) ;;
      free_array (host_irqs s) ;;
      vmm_free (self s) ;;
      ret (VMM_OK, {| node := node edev; priv := None |})
  end.

(** ** platform_pt_probe *)

(** The labels at the end of the probe.  Each one runs its own statements
    and falls through to the next. *)
Definition platform_pt_probe_fail (edev : vmm_emudev) (rc : Z)
    : M (Z * vmm_emudev) :=
  ret (rc, edev).

Definition platform_pt_probe_freestate_fail (s : platform_pt_state)
    (edev : vmm_emudev) (rc : Z) : M (Z * vmm_emudev) :=
  vmm_free (self s) ;;
  platform_pt_probe_fail edev rc.

Definition platform_pt_probe_freehirqs_fail (s : platform_pt_state)
    (edev : vmm_emudev) (rc : Z) : M (Z * vmm_emudev) :=
  free_array (host_irqs s) ;;
  platform_pt_probe_freestate_fail s edev rc.

Definition platform_pt_probe_freehtirqs_fail (s : platform_pt_state)
    (edev : vmm_emudev) (rc : Z) : M (Z * vmm_emudev) :=
  free_array (host_type_irqs s) ;;
  platform_pt_probe_freehirqs_fail s edev rc.

Definition platform_pt_probe_cleanupirqs_fail (s : platform_pt_state)
    (irq_reg_count : nat) (edev : vmm_emudev) (rc : Z) : M (Z * vmm_emudev) :=
  unregister_irqs s irq_reg_count ;;
  free_array (guest_irqs s) ;;
  platform_pt_probe_freehtirqs_fail s edev rc.

Definition platform_pt_probe_dref_dev_fail (s : platform_pt_state)
    (irq_reg_count : nat) (edev : vmm_emudev) (rc : Z) : M (Z * vmm_emudev) :=
  (match dev s with
   | Some d => vmm_devdrv_dref_device d
   | None => ret tt
   end) ;;
  platform_pt_probe_cleanupirqs_fail s irq_reg_count edev rc.

Definition platform_pt_probe_free_dom_fail (s : platform_pt_state)
    (irq_reg_count : nat) (edev : vmm_emudev) (rc : Z) : M (Z * vmm_emudev) :=
  (match dom s with
   | Some dm => vmm_iommu_domain_free dm
   | None => ret tt
   end) ;;
  platform_pt_probe_dref_dev_fail s irq_reg_count edev rc.

(** Lines 228-247 of the loop body: the three reads of index [i].  The result
    is [Some rc] when a read failed (the code jumps to
    [platform_pt_probe_cleanupirqs_fail] with that [rc]). *)
Definition probe_read_irq (nd : vmm_devtree_node) (i : nat) (s : platform_pt_state)
    : M (option Z * platform_pt_state) :=
  r <- vmm_devtree_read_u32_atindex nd "host-interrupts"
         (arr_get (host_irqs s) i) (to_u32 (Z.of_nat i * 2)) ;;
  let s := set_host_irqs (arr_set (host_irqs s) i (snd r)) s in
  if is_err (fst r) then ret (Some (fst r), s)
  else
    r <- vmm_devtree_read_u32_atindex nd "host-interrupts"
           (arr_get (host_type_irqs s) i) (to_u32 (Z.of_nat i * 2 + 1)) ;;
    let s := set_host_type_irqs (arr_set (host_type_irqs s) i (snd r)) s in
    if is_err (fst r) then ret (Some (fst r), s)
    else
      r <- vmm_devtree_read_u32_atindex nd VMM_DEVTREE_INTERRUPTS_ATTR_NAME
             (arr_get (guest_irqs s) i) (Z.of_nat i) ;;
      let s := set_guest_irqs (arr_set (guest_irqs s) i (snd r)) s in
      if is_err (fst r) then ret (Some (fst r), s)
      else ret (None, s).

(** Lines 249-265 of the loop body: type-set, routed claim and handler
    install of index [i]; [Some rc] when one of them failed. *)
Definition probe_register_irq (i : nat) (s : platform_pt_state) : M (option Z) :=
  rc <- vmm_host_irq_set_type (arr_get (host_irqs s) i) (arr_get (host_type_irqs s) i) ;;
  if is_err rc then ret (Some rc)
  else
    rc <- vmm_host_irq_mark_routed (arr_get (host_irqs s) i) ;;
    if is_err rc then ret (Some rc)
    else
      rc <- vmm_host_irq_register (arr_get (host_irqs s) i) (name s) (self s) ;;
      if is_err rc then
        vmm_host_irq_unmark_routed (arr_get (host_irqs s) i) ;;
        ret (Some rc)
      else ret None.

Definition probe_irq_body (nd : vmm_devtree_node) (i : nat) (s : platform_pt_state)
    : M (option Z * platform_pt_state) :=
  r <- probe_read_irq nd i s ;;
  match fst r with
  | Some rc => ret (Some rc, snd r)
  | None =>
      e <- probe_register_irq i (snd r) ;;
      ret (e, snd r)
  end.

(** The loop of lines 227-268, with [n] iterations left at index [i]; it
    yields the error of the jump out of the loop if there was one, the
    structure, and [irq_reg_count]. *)
Fixpoint probe_irq_loop (nd : vmm_devtree_node) (n i : nat) (s : platform_pt_state)
    (irq_reg_count : nat) : M (option Z * platform_pt_state * nat) :=
  match n with
  | O => ret (None, s, irq_reg_count)
  | S n' =>
      r <- probe_irq_body nd i s ;;
      match fst r with
      | Some rc => ret (Some rc, snd r, irq_reg_count)
      | None => probe_irq_loop nd n' (S i) (snd r) (S irq_reg_count)
      end
  end.

(** Lines 301-310: subscription and attachment. *)
Definition probe_subscribe (s : platform_pt_state) (irq_reg_count : nat)
    (edev : vmm_emudev) : M (Z * vmm_emudev) :=
  let s := set_nb {| notifier_call := Some platform_pt_guest_aspace_notification_fn;
                     priority := 0 |} s in
  rc <- vmm_guest_aspace_register_client (self s) ;;
  if is_err rc then platform_pt_probe_free_dom_fail s irq_reg_count edev rc
  else ret (VMM_OK, {| node := node edev; priv := Some s |}).

(** Lines 270-299: the optional IOMMU device. *)
Definition probe_iommu (s : platform_pt_state) (irq_reg_count : nat)
    (edev : vmm_emudev) : M (Z * vmm_emudev) :=
  iommu_device <- vmm_devtree_read_string (node edev) "iommu-device" ;;
  match iommu_device with
  | Some nm =>
      d <- vmm_devdrv_bus_find_device_by_name nm ;;
      let s := set_dev d s in
      match d with
      | None => platform_pt_probe_cleanupirqs_fail s irq_reg_count edev VMM_EINVALID
      | Some dv =>
          match iommu_group dv with
          | None =>
              platform_pt_probe_cleanupirqs_fail s irq_reg_count edev VMM_EINVALID
          | Some _ =>
              vmm_devdrv_ref_device dv ;;
              dm <- vmm_iommu_domain_alloc (iommu_group dv) VMM_IOMMU_DOMAIN_UNMANAGED ;;
              let s := set_dom dm s in
              match dm with
              | None => platform_pt_probe_dref_dev_fail s irq_reg_count edev VMM_EFAIL
              | Some dmv =>
                  vmm_iommu_set_fault_handler dmv (self s) ;;
                  probe_subscribe s irq_reg_count edev
              end
          end
      end
  | None => probe_subscribe s irq_reg_count edev
  end.

(** Lines 227-268 and what follows them. *)
Definition probe_irqs (s : platform_pt_state) (edev : vmm_emudev)
    : M (Z * vmm_emudev) :=
  r <- probe_irq_loop (node edev) (Z.to_nat (irq_count s)) 0 s 0 ;;
  let '(e, s, irq_reg_count) := r in
  match e with
  | Some rc => platform_pt_probe_cleanupirqs_fail s irq_reg_count edev rc
  | None => probe_iommu s irq_reg_count edev
  end.

(** Lines 207-225: the three arrays, when [irq_count] is not 0. *)
Definition zeroed_array (p : nat) (n : Z) : u32_array :=
  {| arr_ptr := p; arr_data := replicate (Z.to_nat n) 0 |}.

Definition probe_arrays (s : platform_pt_state) (edev : vmm_emudev)
    : M (Z * vmm_emudev) :=
  if negb (irq_count s =? 0) then
    p <- vmm_zalloc (sizeof_u32 * irq_count s) ;;
    let s := set_host_irqs (option_map (fun p => zeroed_array p (irq_count s)) p) s in
    match p with
    | None => platform_pt_probe_freestate_fail s edev VMM_ENOMEM
    | Some _ =>
        p <- vmm_zalloc (sizeof_u32 * irq_count s) ;;
        let s :=
          set_host_type_irqs (option_map (fun p => zeroed_array p (irq_count s)) p) s in
        match p with
        | None => platform_pt_probe_freehirqs_fail s edev VMM_ENOMEM
        | Some _ =>
            p <- vmm_zalloc (sizeof_u32 * irq_count s) ;;
            let s :=
              set_guest_irqs (option_map (fun p => zeroed_array p (irq_count s)) p) s in
            match p with
            | None => platform_pt_probe_freehtirqs_fail s edev VMM_ENOMEM
            | Some _ => probe_irqs s edev
            end
        end
    end
  else probe_irqs s edev.

(** Lines 192-198: the name; the bytes of [s->name] and the value the last
    [strlcat] returns. *)
Definition probe_name (g : vmm_guest) (edev : vmm_emudev) (s : platform_pt_state)
    : string * nat :=
  let n1 := fst (strlcpy (name s) (guest_name g) sizeof_name) in
  let n2 := fst (strlcat n1 "/" sizeof_name) in
  strlcat n2 (node_name (node edev)) sizeof_name.

Definition platform_pt_probe (g : vmm_guest) (edev : vmm_emudev)
    : M (Z * vmm_emudev) :=
  p <- vmm_zalloc sizeof_platform_pt_state ;;
  match p with
  | None => platform_pt_probe_fail edev VMM_ENOMEM
  | Some p =>
      let s := zeroed_state p in
      let nm := probe_name g edev s in
      let s := set_name (fst nm) s in
      if (sizeof_name <=? snd nm)%nat
      then platform_pt_probe_freestate_fail s edev VMM_EOVERFLOW
      else
        let s := set_guest (Some g) s in
        n <- vmm_devtree_attrlen (node edev) "host-interrupts" ;;
        let s := set_irq_count (to_u32 n) s in
        let s := set_irq_count (irq_count s / (sizeof_u32 * 2)) s in
        let s := set_guest_irqs None s in
        let s := set_host_irqs None s in
        let s := set_host_type_irqs None s in
        probe_arrays s edev
  end.

End Emulator.

(** ** Observations on a trace *)

(** The guest-level emulate calls of a trace: guest, guest line, level. *)
Definition emulate_calls (tr : list event) : list (option vmm_guest * Z * Z) :=
  omap (fun e => match e with
                 | EvEmulateIrq g girq level _ => Some (g, girq, level)
                 | _ => None
                 end) tr.

(** The host-to-guest routing registrations of a trace. *)
Definition routing_calls (tr : list event) : list (option vmm_guest * Z * Z) :=
  omap (fun e => match e with
                 | EvMapHost2GuestIrq g girq hirq => Some (g, girq, hirq)
                 | _ => None
                 end) tr.

(** The IOMMU map calls of a trace: domain, iova, hostPhys, length, permission. *)
Definition iommu_map_calls (tr : list event) : list (option nat * Z * Z * Z * Z) :=
  omap (fun e => match e with
                 | EvIommuMap dm iova hphys len prot => Some (dm, iova, hphys, len, prot)
                 | _ => None
                 end) tr.

(** The events of [if (a) vmm_free(a);]. *)
Definition free_events (a : option u32_array) : list event :=
  match a with
  | Some a => [EvFree (arr_ptr a)]
  | None => []
  end.

(** Unregistering and unmarking the host lines of indices [0, n), in order. *)
Definition unregister_events (s : platform_pt_state) (n : nat) : list event :=
  flat_map (fun i => [EvUnregister (arr_get (host_irqs s) i) (self s);
                      EvUnmarkRouted (arr_get (host_irqs s) i)]) (seq 0 n).

(** The full teardown of an instance, in the order [platform_pt_remove] makes it. *)
Definition teardown_events (s : platform_pt_state) : list event :=
  [EvUnregisterClient (self s)]
  ++ match dom s with Some dm => [EvDomainFree dm] | None => [] end
  ++ match dev s with Some d => [EvDrefDevice (dev_addr d)] | None => [] end
  ++ unregister_events s (Z.to_nat (irq_count s))
  ++ free_events (guest_irqs s)
  ++ free_events (host_type_irqs s)
  ++ free_events (host_irqs s)
  ++ [EvFree (self s)].

(** ** Resources, replayed from a trace *)

(** Modelled from the spec: the host-IRQ subsystem, which is not part of this
    source file.  A line is routed from a successful mark to the next unmark;
    a handler, keyed by line and context, is installed from a successful
    register to the next unregister; a successful type-set changes the
    trigger type of the line. *)
Definition routed_step (r : gset Z) (e : event) : gset Z :=
  match e with
  | EvMarkRouted h rc => if is_err rc then r else {[h]} ∪ r
  | EvUnmarkRouted h => r ∖ {[h]}
  | _ => r
  end.

Definition routed_lines (tr : list event) : gset Z := foldl routed_step ∅ tr.

Definition handler_step (r : gset (Z * nat)) (e : event) : gset (Z * nat) :=
  match e with
  | EvRegister h _ d rc => if is_err rc then r else {[(h, d)]} ∪ r
  | EvUnregister h d => r ∖ {[(h, d)]}
  | _ => r
  end.

Definition irq_handlers (tr : list event) : gset (Z * nat) := foldl handler_step ∅ tr.

Definition type_step (m : gmap Z Z) (e : event) : gmap Z Z :=
  match e with
  | EvSetType h t rc => if is_err rc then m else <[h:=t]> m
  | _ => m
  end.

Definition line_types (tr : list event) : gmap Z Z := foldl type_step ∅ tr.

(** Modelled from the spec: the heap, the IOMMU subsystem, the device
    registry and the event subsystem, none of them part of this source file.
    A block is live from the allocation that returned it to its free, a domain
    likewise; a device's reference count goes up with each acquire and down
    with each release; a client is subscribed from a successful registration
    to its removal. *)
Definition heap_step (r : gset nat) (e : event) : gset nat :=
  match e with
  | EvZalloc _ (Some p) => {[p]} ∪ r
  | EvFree p => r ∖ {[p]}
  | _ => r
  end.

Definition live_blocks (tr : list event) : gset nat := foldl heap_step ∅ tr.

Definition domain_step (r : gset nat) (e : event) : gset nat :=
  match e with
  | EvDomainAlloc _ _ (Some dm) => {[dm]} ∪ r
  | EvDomainFree dm => r ∖ {[dm]}
  | _ => r
  end.

Definition live_domains (tr : list event) : gset nat := foldl domain_step ∅ tr.

Definition ref_step (d : nat) (c : Z) (e : event) : Z :=
  match e with
  | EvRefDevice d' => if (d' =? d)%nat then c + 1 else c
  | EvDrefDevice d' => if (d' =? d)%nat then c - 1 else c
  | _ => c
  end.

Definition device_refs (tr : list event) (d : nat) : Z := foldl (ref_step d) 0 tr.

Definition client_step (r : gset nat) (e : event) : gset nat :=
  match e with
  | EvRegisterClient d rc => if is_err rc then r else {[d]} ∪ r
  | EvUnregisterClient d => r ∖ {[d]}
  | _ => r
  end.

Definition aspace_clients (tr : list event) : gset nat := foldl client_step ∅ tr.

Section Observations.
Context `{Host}.

(** A region flagged real, memory, RAM-backed and host-RAM-backed. *)
Definition region_qualifies (r : vmm_region) : bool :=
  region_has_flags VMM_REGION_REAL r && region_has_flags VMM_REGION_MEMORY r
  && region_has_flags VMM_REGION_ISRAM r && region_has_flags VMM_REGION_ISHOSTRAM r.

(** The bounds of a region are addresses, the start not after the end. *)
Definition region_in_range (r : vmm_region) : Prop :=
  0 <= VMM_REGION_GPHYS_START r /\
  VMM_REGION_GPHYS_START r <= VMM_REGION_GPHYS_END r /\
  VMM_REGION_GPHYS_END r < 2 ^ physical_addr_bits.

(** The routing registrations of a matching aspace-init event. *)
Definition routing_events (s : platform_pt_state) : list event :=
  map (fun i => EvMapHost2GuestIrq (guest s) (arr_get (guest_irqs s) i)
                                   (arr_get (host_irqs s) i))
      (seq 0 (Z.to_nat (irq_count s))).

End Observations.

(** ** The shape of a probe *)

(** The events of the labels from [platform_pt_probe_cleanupirqs_fail] on,
    with [k] lines registered. *)
Definition cleanup_events (s : platform_pt_state) (k : nat) : list event :=
  unregister_events s k
  ++ free_events (guest_irqs s)
  ++ free_events (host_type_irqs s)
  ++ free_events (host_irqs s)
  ++ [EvFree (self s)].

(** The error of a failed registration step (type-set, routed claim or
    handler install), and of a failed read of the configuration. *)
Definition irq_step_failure (e : event) : option Z :=
  match e with
  | EvSetType _ _ rc | EvMarkRouted _ rc | EvRegister _ _ _ rc =>
      if is_err rc then Some rc else None
  | _ => None
  end.

Definition read_failure (e : event) : option Z :=
  match e with
  | EvReadU32 _ _ _ rc _ => if is_err rc then Some rc else None
  | _ => None
  end.

(** The host line a registration step is about. *)
Definition step_line (e : event) : option Z :=
  match e with
  | EvSetType h _ _ | EvMarkRouted h _ | EvRegister h _ _ _ => Some h
  | _ => None
  end.

Definition is_read (e : event) : bool :=
  match e with
  | EvReadU32 _ _ _ _ _ => true
  | _ => false
  end.

Definition is_irq_step (e : event) : bool :=
  match e with
  | EvSetType _ _ _ | EvMarkRouted _ _ | EvRegister _ _ _ _ => true
  | _ => false
  end.

(** The events the loop of the probe can make. *)
Definition is_loop_event (e : event) : bool :=
  match e with
  | EvReadU32 _ _ _ _ _ | EvSetType _ _ _ | EvMarkRouted _ _
  | EvRegister _ _ _ _ | EvUnmarkRouted _ => true
  | _ => false
  end.

(** The handlers installed with success, and the handlers removed, in order. *)
Definition registered_ok (tr : list event) : list (Z * nat) :=
  omap (fun e => match e with
                 | EvRegister h _ d rc => if is_err rc then None else Some (h, d)
                 | _ => None
                 end) tr.

Definition unregistered (tr : list event) : list (Z * nat) :=
  omap (fun e => match e with
                 | EvUnregister h d => Some (h, d)
                 | _ => None
                 end) tr.

(** The outcome of the registration of one line [h] of type [t] for the
    instance at [d] named [nm]: the error if any, and the calls made. *)
Inductive register_outcome (h t : Z) (nm : string) (d : nat)
    : option Z -> list event -> Prop :=
| Reg_type_fails rc :
    is_err rc = true ->
    register_outcome h t nm d (Some rc) [EvSetType h t rc]
| Reg_claim_fails rc :
    is_err rc = true ->
    register_outcome h t nm d (Some rc) [EvSetType h t 0; EvMarkRouted h rc]
| Reg_install_fails rc :
    is_err rc = true ->
    register_outcome h t nm d (Some rc)
      [EvSetType h t 0; EvMarkRouted h 0; EvRegister h nm d rc; EvUnmarkRouted h]
| Reg_done :
    register_outcome h t nm d None
      [EvSetType h t 0; EvMarkRouted h 0; EvRegister h nm d 0].

Section Shapes.
Context `{Host}.

(** The three reads of index [i]; a failed read ends them. *)
Inductive reads (nd : vmm_devtree_node) (i : nat) : option Z -> list event -> Prop :=
| Reads_host_fails rc v :
    is_err rc = true ->
    reads nd i (Some rc)
      [EvReadU32 nd "host-interrupts" (to_u32 (Z.of_nat i * 2)) rc v]
| Reads_type_fails v1 rc v :
    is_err rc = true ->
    reads nd i (Some rc)
      [EvReadU32 nd "host-interrupts" (to_u32 (Z.of_nat i * 2)) 0 v1;
       EvReadU32 nd "host-interrupts" (to_u32 (Z.of_nat i * 2 + 1)) rc v]
| Reads_guest_fails v1 v2 rc v :
    is_err rc = true ->
    reads nd i (Some rc)
      [EvReadU32 nd "host-interrupts" (to_u32 (Z.of_nat i * 2)) 0 v1;
       EvReadU32 nd "host-interrupts" (to_u32 (Z.of_nat i * 2 + 1)) 0 v2;
       EvReadU32 nd VMM_DEVTREE_INTERRUPTS_ATTR_NAME (Z.of_nat i) rc v]
| Reads_done v1 v2 v3 :
    reads nd i None
      [EvReadU32 nd "host-interrupts" (to_u32 (Z.of_nat i * 2)) 0 v1;
       EvReadU32 nd "host-interrupts" (to_u32 (Z.of_nat i * 2 + 1)) 0 v2;
       EvReadU32 nd VMM_DEVTREE_INTERRUPTS_ATTR_NAME (Z.of_nat i) 0 v3].

(** One iteration of the loop: the three reads of index [i] and, when they
    all succeeded, the registration of the line. *)
Inductive iteration (nd : vmm_devtree_node) (i : nat) (h t : Z) (nm : string) (d : nat)
    : option Z -> list event -> Prop :=
| It_read_fails rc blk :
    reads nd i (Some rc) blk ->
    iteration nd i h t nm d (Some rc) blk
| It_register blk e evs :
    reads nd i None blk ->
    register_outcome h t nm d e evs ->
    iteration nd i h t nm d e (blk ++ evs).

(** The trace of the loop from index [i]: [m] complete iterations, each on
    the cells of its own index, then either the end of the loop or one failed
    iteration. *)
Inductive loop_trace (nd : vmm_devtree_node) (s : platform_pt_state)
    : nat -> nat -> option Z -> list event -> Prop :=
| Loop_end i : loop_trace nd s i 0 None []
| Loop_exit i rc blk :
    iteration nd i (arr_get (host_irqs s) i) (arr_get (host_type_irqs s) i)
              (name s) (self s) (Some rc) blk ->
    loop_trace nd s i 0 (Some rc) blk
| Loop_next i m e blk evs :
    iteration nd i (arr_get (host_irqs s) i) (arr_get (host_type_irqs s) i)
              (name s) (self s) None blk ->
    loop_trace nd s (S i) m e evs ->
    loop_trace nd s i (S m) e (blk ++ evs).

End Shapes.

(** The fields the loop of the probe leaves alone: everything but the cells
    of the three arrays. *)
Definition same_frame (s s' : platform_pt_state) : Prop :=
  self s' = self s /\ name s' = name s /\ guest s' = guest s /\
  irq_count s' = irq_count s /\ dev s' = dev s /\ dom s' = dom s /\
  nb s' = nb s /\
  option_map arr_ptr (host_irqs s') = option_map arr_ptr (host_irqs s) /\
  option_map arr_ptr (host_type_irqs s') = option_map arr_ptr (host_type_irqs s) /\
  option_map arr_ptr (guest_irqs s') = option_map arr_ptr (guest_irqs s).

(** The cells of index [j] are the same in [s] and [s']. *)
Definition same_cells (j : nat) (s s' : platform_pt_state) : Prop :=
  arr_get (host_irqs s') j = arr_get (host_irqs s) j /\
  arr_get (host_type_irqs s') j = arr_get (host_type_irqs s) j /\
  arr_get (guest_irqs s') j = arr_get (guest_irqs s) j.

(** The host lines of indices [i, i + m), and their handler keys. *)
Definition lines (s : platform_pt_state) (i m : nat) : gset Z :=
  list_to_set (map (fun j => arr_get (host_irqs s) j) (seq i m)).

Definition handler_keys (s : platform_pt_state) (i m : nat) : gset (Z * nat) :=
  list_to_set (map (fun j => (arr_get (host_irqs s) j, self s)) (seq i m)).

(** The heap blocks an instance holds. *)
Definition array_block (a : option u32_array) : gset nat :=
  match a with
  | Some a => {[arr_ptr a]}
  | None => ∅
  end.

Definition held_blocks (s : platform_pt_state) : gset nat :=
  array_block (guest_irqs s) ∪ array_block (host_type_irqs s)
  ∪ array_block (host_irqs s) ∪ {[self s]}.

(** No line routed, no handler installed, no block or domain live, no client
    subscribed. *)
Definition no_resources (tr : list event) : Prop :=
  routed_lines tr = ∅ /\ irq_handlers tr = ∅ /\ live_blocks tr = ∅ /\
  live_domains tr = ∅ /\ aspace_clients tr = ∅.

(** An event that is neither a read of the configuration nor a registration
    step. *)
Definition is_quiet (e : event) : bool := negb (is_read e) && negb (is_irq_step e).

(** The two calls that undo the registration of a line. *)
Definition is_unregistration (e : event) : bool :=
  match e with
  | EvUnregister _ _ | EvUnmarkRouted _ => true
  | _ => false
  end.

(** A failed call of the loop with error [err]. *)
Definition failure_of (x : event) (err : Z) : Prop :=
  irq_step_failure x = Some err \/ read_failure x = Some err.

(** [edev->priv = s] *)
Definition attach (edev : vmm_emudev) (s : platform_pt_state) : vmm_emudev :=
  {| node := node edev; priv := Some s |}.

(** The structure once its notifier block is filled (lines 301-302). *)
Definition subscribed (s : platform_pt_state) : platform_pt_state :=
  set_nb {| notifier_call := Some platform_pt_guest_aspace_notification_fn;
            priority := 0 |} s.

(** The structure after the name is built, and at the entry of the loop
    without and with the three arrays. *)
Definition named_state (g : vmm_guest) (edev : vmm_emudev) (p : nat)
    : platform_pt_state :=
  set_name (fst (probe_name g edev (zeroed_state p))) (zeroed_state p).

Definition counted_state (g : vmm_guest) (edev : vmm_emudev) (p : nat) (n : Z)
    : platform_pt_state :=
  let s := set_guest (Some g) (named_state g edev p) in
  let s := set_irq_count (to_u32 n) s in
  let s := set_irq_count (irq_count s / (sizeof_u32 * 2)) s in
  set_host_type_irqs None (set_host_irqs None (set_guest_irqs None s)).

Definition with_arrays (s : platform_pt_state) (a1 a2 a3 : nat) : platform_pt_state :=
  set_guest_irqs (Some (zeroed_array a3 (irq_count s)))
    (set_host_type_irqs (Some (zeroed_array a2 (irq_count s)))
       (set_host_irqs (Some (zeroed_array a1 (irq_count s))) s)).

Section Outcomes.
Context `{Host}.

(** What follows the loop, with [k] lines registered: the rollback when the
    loop ended on the error [e], and else the IOMMU stage and the
    subscription.  The result is the code returned, the device slot, and the
    calls made. *)
Inductive after_loop (s : platform_pt_state) (k : nat) (edev : vmm_emudev)
    : option Z -> Z -> vmm_emudev -> list event -> Prop :=
| AL_rollback rc :
    after_loop s k edev (Some rc) rc edev (cleanup_events s k)
| AL_plain_done :
    after_loop s k edev None VMM_OK (attach edev (subscribed s))
      [EvReadString (node edev) "iommu-device" None;
       EvRegisterClient (self s) 0]
| AL_plain_client_fails rc :
    is_err rc = true ->
    after_loop s k edev None rc edev
      ([EvReadString (node edev) "iommu-device" None;
        EvRegisterClient (self s) rc] ++ cleanup_events s k)
| AL_device_missing nm :
    after_loop s k edev None VMM_EINVALID edev
      ([EvReadString (node edev) "iommu-device" (Some nm);
        EvFindDevice nm None] ++ cleanup_events s k)
| AL_group_missing nm dv :
    iommu_group dv = None ->
    after_loop s k edev None VMM_EINVALID edev
      ([EvReadString (node edev) "iommu-device" (Some nm);
        EvFindDevice nm (Some dv)] ++ cleanup_events s k)
| AL_domain_fails nm dv :
    iommu_group dv <> None ->
    after_loop s k edev None VMM_EFAIL edev
      ([EvReadString (node edev) "iommu-device" (Some nm);
        EvFindDevice nm (Some dv);
        EvRefDevice (dev_addr dv);
        EvDomainAlloc (iommu_group dv) VMM_IOMMU_DOMAIN_UNMANAGED None;
        EvDrefDevice (dev_addr dv)] ++ cleanup_events s k)
| AL_iommu_client_fails nm dv dm rc :
    iommu_group dv <> None ->
    is_err rc = true ->
    after_loop s k edev None rc edev
      ([EvReadString (node edev) "iommu-device" (Some nm);
        EvFindDevice nm (Some dv);
        EvRefDevice (dev_addr dv);
        EvDomainAlloc (iommu_group dv) VMM_IOMMU_DOMAIN_UNMANAGED (Some dm);
        EvSetFaultHandler dm (self s);
        EvRegisterClient (self s) rc;
        EvDomainFree dm;
        EvDrefDevice (dev_addr dv)] ++ cleanup_events s k)
| AL_iommu_done nm dv dm :
    iommu_group dv <> None ->
    after_loop s k edev None VMM_OK
      (attach edev (subscribed (set_dom (Some dm) (set_dev (Some dv) s))))
      [EvReadString (node edev) "iommu-device" (Some nm);
       EvFindDevice nm (Some dv);
       EvRefDevice (dev_addr dv);
       EvDomainAlloc (iommu_group dv) VMM_IOMMU_DOMAIN_UNMANAGED (Some dm);
       EvSetFaultHandler dm (self s);
       EvRegisterClient (self s) 0].

(** The structure at the entry of the loop and the allocations of the
    arrays before it. *)
Inductive loop_entry (s : platform_pt_state) : platform_pt_state -> list event -> Prop :=
| LE_empty :
    irq_count s = 0 -> loop_entry s s []
| LE_arrays a1 a2 a3 :
    irq_count s <> 0 ->
    loop_entry s (with_arrays s a1 a2 a3)
      [EvZalloc (sizeof_u32 * irq_count s) (Some a1);
       EvZalloc (sizeof_u32 * irq_count s) (Some a2);
       EvZalloc (sizeof_u32 * irq_count s) (Some a3)].

(** The outcomes of the probe: the code returned, the device slot, and the
    calls made. *)
Inductive probe_outcome (g : vmm_guest) (edev : vmm_emudev)
    : Z -> vmm_emudev -> list event -> Prop :=
| PO_nomem :
    probe_outcome g edev VMM_ENOMEM edev [EvZalloc sizeof_platform_pt_state None]
| PO_overflow p :
    (sizeof_name <= snd (probe_name g edev (zeroed_state p)))%nat ->
    probe_outcome g edev VMM_EOVERFLOW edev
      [EvZalloc sizeof_platform_pt_state (Some p); EvFree p]
| PO_hirqs_nomem p n :
    (snd (probe_name g edev (zeroed_state p)) < sizeof_name)%nat ->
    irq_count (counted_state g edev p n) <> 0 ->
    probe_outcome g edev VMM_ENOMEM edev
      [EvZalloc sizeof_platform_pt_state (Some p);
       EvAttrlen (node edev) "host-interrupts" n;
       EvZalloc (sizeof_u32 * irq_count (counted_state g edev p n)) None;
       EvFree p]
| PO_htirqs_nomem p n a1 :
    (snd (probe_name g edev (zeroed_state p)) < sizeof_name)%nat ->
    irq_count (counted_state g edev p n) <> 0 ->
    probe_outcome g edev VMM_ENOMEM edev
      [EvZalloc sizeof_platform_pt_state (Some p);
       EvAttrlen (node edev) "host-interrupts" n;
       EvZalloc (sizeof_u32 * irq_count (counted_state g edev p n)) (Some a1);
       EvZalloc (sizeof_u32 * irq_count (counted_state g edev p n)) None;
       EvFree a1; EvFree p]
| PO_girqs_nomem p n a1 a2 :
    (snd (probe_name g edev (zeroed_state p)) < sizeof_name)%nat ->
    irq_count (counted_state g edev p n) <> 0 ->
    probe_outcome g edev VMM_ENOMEM edev
      [EvZalloc sizeof_platform_pt_state (Some p);
       EvAttrlen (node edev) "host-interrupts" n;
       EvZalloc (sizeof_u32 * irq_count (counted_state g edev p n)) (Some a1);
       EvZalloc (sizeof_u32 * irq_count (counted_state g edev p n)) (Some a2);
       EvZalloc (sizeof_u32 * irq_count (counted_state g edev p n)) None;
       EvFree a2; EvFree a1; EvFree p]
| PO_loop p n s0 pre s' k e evs rc edev' tail :
    (snd (probe_name g edev (zeroed_state p)) < sizeof_name)%nat ->
    loop_entry (counted_state g edev p n) s0 pre ->
    loop_trace (node edev) s' 0 k e evs ->
    same_frame s0 s' ->
    (k <= Z.to_nat (irq_count s0))%nat ->
    (e = None -> k = Z.to_nat (irq_count s0)) ->
    (e <> None -> (k < Z.to_nat (irq_count s0))%nat) ->
    after_loop s' k edev e rc edev' tail ->
    probe_outcome g edev rc edev'
      ([EvZalloc sizeof_platform_pt_state (Some p);
        EvAttrlen (node edev) "host-interrupts" n] ++ pre ++ evs ++ tail).

End Outcomes.

(** The calls of the IOMMU stage and of the subscription, in order. *)
Definition is_stage_event (e : event) : bool :=
  match e with
  | EvReadString _ _ _ | EvFindDevice _ _ | EvRefDevice _ | EvDrefDevice _
  | EvDomainAlloc _ _ _ | EvDomainFree _ | EvSetFaultHandler _ _
  | EvRegisterClient _ _ => true
  | _ => false
  end.

Definition stage_events (tr : list event) : list event := List.filter is_stage_event tr.

(** The calls of the rollback and of the array allocations. *)
Definition is_cleanup_event (e : event) : bool :=
  match e with
  | EvUnregister _ _ | EvUnmarkRouted _ | EvFree _ => true
  | _ => false
  end.


(** ** Concrete hosts

    A scenario fixes the configuration and the result of each call, a
    registration step being able to fail at a chosen call. *)
Record scenario := {
  sc_host_cells : list Z;
  sc_guest_cells : list Z;
  sc_iommu : option string;
  sc_device : option vmm_device;
  sc_domain : option nat;
  sc_set_type_rc : nat -> Z;
  sc_mark_rc : nat -> Z;
  sc_register_rc : nat -> Z;
  sc_client_rc : Z;
  sc_regions : list vmm_region
}.

Definition is_set_type (e : event) : bool :=
  match e with EvSetType _ _ _ => true | _ => false end.
Definition is_mark (e : event) : bool :=
  match e with EvMarkRouted _ _ => true | _ => false end.
Definition is_register (e : event) : bool :=
  match e with EvRegister _ _ _ _ => true | _ => false end.

Definition count_calls (P : event -> bool) (tr : list event) : nat :=
  length (List.filter P tr).

Definition scenario_cells (sc : scenario) (attr : string) : list Z :=
  if String.eqb attr "host-interrupts" then sc_host_cells sc
  else if String.eqb attr "interrupts" then sc_guest_cells sc
  else [].

Definition scenario_host (sc : scenario) : Host :=
  {| VMM_GUEST_ASPACE_EVENT_INIT := 1;
     VMM_REGION_REAL := 1;
     VMM_REGION_MEMORY := 8;
     VMM_REGION_ISRAM := 512;
     VMM_REGION_ISHOSTRAM := 256;
     VMM_IOMMU_READ := 1;
     VMM_IOMMU_WRITE := 2;
     VMM_IOMMU_DOMAIN_UNMANAGED := 1;
     VMM_DEVTREE_INTERRUPTS_ATTR_NAME := "interrupts";
     sizeof_platform_pt_state := 128;
     physical_addr_bits := 64;
     host_zalloc := fun tr _ => Some (S (length tr));
     host_attrlen := fun _ _ attr => 4 * Z.of_nat (length (scenario_cells sc attr));
     host_read_u32_atindex := fun _ _ attr index =>
       match scenario_cells sc attr !! Z.to_nat index with
       | Some v => (0, v)
       | None => (VMM_EINVALID, 0)
       end;
     host_read_string := fun _ _ attr =>
       if String.eqb attr "iommu-device" then sc_iommu sc else None;
     host_irq_set_type := fun tr _ _ => sc_set_type_rc sc (count_calls is_set_type tr);
     host_irq_mark_routed := fun tr _ => sc_mark_rc sc (count_calls is_mark tr);
     host_irq_register := fun tr _ _ _ => sc_register_rc sc (count_calls is_register tr);
     host_find_device_by_name := fun _ _ => sc_device sc;
     host_iommu_domain_alloc := fun _ _ _ => sc_domain sc;
     host_register_client := fun _ _ => sc_client_rc sc;
     host_emulate_irq := fun _ _ _ _ => 0;
     host_guest_regions := fun _ _ => sc_regions sc |}.

(** A call that fails with [VMM_EFAIL] when it is the call number [k] of its
    kind, and succeeds otherwise. *)
Definition fails_at (k : nat) (n : nat) : Z := if (n =? k)%nat then VMM_EFAIL else VMM_OK.

Definition never_fails (n : nat) : Z := VMM_OK.

(** Guest "g0", device node "eth0", two interrupt triples: host lines 5 and 7
    of type 4, guest lines 32 and 33. *)
Definition guest_g0 : vmm_guest := {| guest_addr := 1; guest_name := "g0" |}.

Definition edev_eth0 : vmm_emudev :=
  {| node := {| node_addr := 2; node_name := "eth0" |}; priv := None |}.

Definition sc_two_lines : scenario :=
  {| sc_host_cells := [5; 4; 7; 4];
     sc_guest_cells := [32; 33];
     sc_iommu := None;
     sc_device := None;
     sc_domain := None;
     sc_set_type_rc := never_fails;
     sc_mark_rc := never_fails;
     sc_register_rc := never_fails;
     sc_client_rc := VMM_OK;
     sc_regions := [] |}.

(** The same with the handler install of index 1 failing. *)
Definition sc_install_fails : scenario :=
  {| sc_host_cells := [5; 4; 7; 4];
     sc_guest_cells := [32; 33];
     sc_iommu := None;
     sc_device := None;
     sc_domain := None;
     sc_set_type_rc := never_fails;
     sc_mark_rc := never_fails;
     sc_register_rc := fails_at 1;
     sc_client_rc := VMM_OK;
     sc_regions := [] |}.

(** The same with the routed claim of index 0 failing. *)
Definition sc_claim_fails : scenario :=
  {| sc_host_cells := [5; 4; 7; 4];
     sc_guest_cells := [32; 33];
     sc_iommu := None;
     sc_device := None;
     sc_domain := None;
     sc_set_type_rc := never_fails;
     sc_mark_rc := fails_at 0;
     sc_register_rc := never_fails;
     sc_client_rc := VMM_OK;
     sc_regions := [] |}.


(** An IOMMU device is named; the scenarios differ in what the registry and
    the IOMMU subsystem answer. *)
Definition sc_iommu_with (d : option vmm_device) (dm : option nat) : scenario :=
  {| sc_host_cells := [5; 4; 7; 4];
     sc_guest_cells := [32; 33];
     sc_iommu := Some "smmu0";
     sc_device := d;
     sc_domain := dm;
     sc_set_type_rc := never_fails;
     sc_mark_rc := never_fails;
     sc_register_rc := never_fails;
     sc_client_rc := VMM_OK;
     sc_regions := [] |}.

Definition dev_smmu0 : vmm_device := {| dev_addr := 9; iommu_group := Some 3%nat |}.

(** No interrupt triple at all. *)
Definition sc_no_lines : scenario :=
  {| sc_host_cells := [];
     sc_guest_cells := [];
     sc_iommu := None;
     sc_device := None;
     sc_domain := None;
     sc_set_type_rc := never_fails;
     sc_mark_rc := never_fails;
     sc_register_rc := never_fails;
     sc_client_rc := VMM_OK;
     sc_regions := [] |}.

(** A guest whose name fills the 63 characters a name can hold, and a device
    node with the empty name. *)
Definition long_name : string :=
  "aaaaaaaaaaaaaaaaaaaaaaaaaaaaaaaaaaaaaaaaaaaaaaaaaaaaaaaaaaaaaaa".

Definition guest_long : vmm_guest := {| guest_addr := 1; guest_name := long_name |}.

Definition edev_unnamed : vmm_emudev :=
  {| node := {| node_addr := 2; node_name := "" |}; priv := None |}.

(** The instance of guest "g0" and node "eth0" once probed, with two lines. *)
Definition state_two_lines : platform_pt_state :=
  {| self := 1; name := "g0/eth0"; guest := Some guest_g0; irq_count := 2;
     host_irqs := Some {| arr_ptr := 3; arr_data := [5; 7] |};
     host_type_irqs := Some {| arr_ptr := 4; arr_data := [4; 4] |};
     guest_irqs := Some {| arr_ptr := 5; arr_data := [32; 33] |};
     dev := None; dom := None;
     nb := {| notifier_call := Some platform_pt_guest_aspace_notification_fn;
              priority := 0 |} |}.

(** The same instance with host line 5 configured twice. *)
Definition state_dup_lines : platform_pt_state :=
  set_host_irqs (Some {| arr_ptr := 3; arr_data := [5; 5] |}) state_two_lines.

(** The same instance with an IOMMU domain, and a guest with one region of
    host RAM and one region of another kind. *)
Definition state_with_domain : platform_pt_state :=
  set_dom (Some 4%nat) (set_dev (Some dev_smmu0) state_two_lines).

Definition sc_with_regions : scenario :=
  {| sc_host_cells := [5; 4; 7; 4];
     sc_guest_cells := [32; 33];
     sc_iommu := Some "smmu0";
     sc_device := Some dev_smmu0;
     sc_domain := Some 4%nat;
     sc_set_type_rc := never_fails;
     sc_mark_rc := never_fails;
     sc_register_rc := never_fails;
     sc_client_rc := VMM_OK;
     sc_regions :=
       [ {| reg_flags := 777; VMM_REGION_GPHYS_START := 4096;
            VMM_REGION_GPHYS_END := 12288; VMM_REGION_HPHYS_START := 1048576 |};
         {| reg_flags := 17; VMM_REGION_GPHYS_START := 65536;
            VMM_REGION_GPHYS_END := 69632; VMM_REGION_HPHYS_START := 65536 |} ] |}.

Definition edata_g0 : vmm_guest_aspace_event := {| edata_guest := guest_g0 |}.

(** ** Further observations on instances and traces *)

(** The number of cells of an array; a [NULL] array has none. *)
Definition arr_len (a : option u32_array) : nat :=
  match a with
  | Some a => length (arr_data a)
  | None => 0
  end.

(** The three arrays have a cell for every index below [irq_count]. *)
Definition arrays_sized (s : platform_pt_state) : Prop :=
  (Z.to_nat (irq_count s) <= arr_len (host_irqs s))%nat /\
  (Z.to_nat (irq_count s) <= arr_len (host_type_irqs s))%nat /\
  (Z.to_nat (irq_count s) <= arr_len (guest_irqs s))%nat.

(** The domain an instance holds, and the reference it holds on device [d]. *)
Definition instance_domain (s : platform_pt_state) : gset nat :=
  match dom s with
  | Some dm => {[dm]}
  | None => ∅
  end.

Definition instance_ref (s : platform_pt_state) (d : nat) : Z :=
  match dev s with
  | Some dv => if (dev_addr dv =? d)%nat then 1 else 0
  | None => 0
  end.

(** The arrays of [s'] have as many cells as those of [s]. *)
Definition same_sizes (s s' : platform_pt_state) : Prop :=
  arr_len (host_irqs s') = arr_len (host_irqs s) /\
  arr_len (host_type_irqs s') = arr_len (host_type_irqs s) /\
  arr_len (guest_irqs s') = arr_len (guest_irqs s).

(** The blocks a trace allocated with success, and the blocks it freed, in
    order. *)
Definition allocated (tr : list event) : list nat :=
  omap (fun e => match e with
                 | EvZalloc _ (Some p) => Some p
                 | _ => None
                 end) tr.

Definition freed (tr : list event) : list nat :=
  omap (fun e => match e with
                 | EvFree p => Some p
                 | _ => None
                 end) tr.

(** The error of a failed subscription. *)
Definition client_failure (e : event) : option Z :=
  match e with
  | EvRegisterClient _ rc => if is_err rc then Some rc else None
  | _ => None
  end.

Definition is_printf (e : event) : bool :=
  match e with EvPrintf _ _ _ => true | _ => false end.

Definition is_emulate (e : event) : bool :=
  match e with EvEmulateIrq _ _ _ _ => true | _ => false end.

Definition is_failed_emulate (e : event) : bool :=
  match e with EvEmulateIrq _ _ _ rc => is_err rc | _ => false end.

Definition is_zalloc (e : event) : bool :=
  match e with EvZalloc _ _ => true | _ => false end.

Definition is_free (e : event) : bool :=
  match e with EvFree _ => true | _ => false end.

Section TripleRead.
Context `{Host}.

(** The cells of index [j] of the instance hold, as [u32], the values that
    three successful reads of the trace returned: the cells [2j] and [2j+1] of
    "host-interrupts" and the cell [j] of the guest interrupts. *)
Definition triple_read (nd : vmm_devtree_node) (s : platform_pt_state) (j : nat)
    (evs : list event) : Prop :=
  exists v1 v2 v3,
    EvReadU32 nd "host-interrupts" (to_u32 (Z.of_nat j * 2)) 0 v1 ∈ evs /\
    EvReadU32 nd "host-interrupts" (to_u32 (Z.of_nat j * 2 + 1)) 0 v2 ∈ evs /\
    EvReadU32 nd VMM_DEVTREE_INTERRUPTS_ATTR_NAME (Z.of_nat j) 0 v3 ∈ evs /\
    arr_get (host_irqs s) j = to_u32 v1 /\
    arr_get (host_type_irqs s) j = to_u32 v2 /\
    arr_get (guest_irqs s) j = to_u32 v3.

End TripleRead.

(** A guest name that leaves no room for the node name. *)
Definition guest_wide : vmm_guest :=
  {| guest_addr := 1;
     guest_name := "aaaaaaaaaaaaaaaaaaaaaaaaaaaaaaaaaaaaaaaaaaaaaaaaaaaaaaaaaaaaa" |}.

(** The subscription fails. *)
Definition sc_client_fails : scenario :=
  {| sc_host_cells := [5; 4; 7; 4];
     sc_guest_cells := [32; 33];
     sc_iommu := Some "smmu0";
     sc_device := Some dev_smmu0;
     sc_domain := Some 4%nat;
     sc_set_type_rc := never_fails;
     sc_mark_rc := never_fails;
     sc_register_rc := never_fails;
     sc_client_rc := VMM_EFAIL;
     sc_regions := [] |}.

(** A host whose heap is exhausted once the trace has [k] calls. *)
Definition host_heap_exhausted (k : nat) : Host :=
  {| VMM_GUEST_ASPACE_EVENT_INIT := 1;
     VMM_REGION_REAL := 1;
     VMM_REGION_MEMORY := 8;
     VMM_REGION_ISRAM := 512;
     VMM_REGION_ISHOSTRAM := 256;
     VMM_IOMMU_READ := 1;
     VMM_IOMMU_WRITE := 2;
     VMM_IOMMU_DOMAIN_UNMANAGED := 1;
     VMM_DEVTREE_INTERRUPTS_ATTR_NAME := "interrupts";
     sizeof_platform_pt_state := 128;
     physical_addr_bits := 64;
     host_zalloc := fun tr _ => if (length tr <? k)%nat then Some (S (length tr)) else None;
     host_attrlen := fun _ _ _ => 16;
     host_read_u32_atindex := fun _ _ _ _ => (0, 5);
     host_read_string := fun _ _ _ => None;
     host_irq_set_type := fun _ _ _ => 0;
     host_irq_mark_routed := fun _ _ => 0;
     host_irq_register := fun _ _ _ _ => 0;
     host_find_device_by_name := fun _ _ => None;
     host_iommu_domain_alloc := fun _ _ _ => None;
     host_register_client := fun _ _ => 0;
     host_emulate_irq := fun _ _ _ _ => 0;
     host_guest_regions := fun _ _ => [] |}.

(** One cell of "host-interrupts" only: not a complete triple. *)
Definition sc_half_triple : scenario :=
  {| sc_host_cells := [5];
     sc_guest_cells := [32];
     sc_iommu := None;
     sc_device := None;
     sc_domain := None;
     sc_set_type_rc := never_fails;
     sc_mark_rc := never_fails;
     sc_register_rc := never_fails;
     sc_client_rc := VMM_OK;
     sc_regions := [] |}.

(** The device slot of node "eth0" with the instance of two lines attached. *)
Definition edev_attached : vmm_emudev :=
  {| node := node edev_eth0; priv := Some state_with_domain |}.

(** ** General facts on computations *)

Lemma events_of_app {A} (m : M A) (tr evs : list event) (a : A) :
  m tr = (a, tr ++ evs) -> events_of m tr = evs.
Proof.
  intros E. unfold events_of. rewrite E. simpl.
  rewrite drop_app_length. reflexivity.
Qed.

Lemma for_range_emit2 (f g : nat -> event) (n i : nat) (tr : list event) :
  for_range n i (fun j => emit (f j) ;; emit (g j)) tr
  = (tt, tr ++ flat_map (fun j => [f j; g j]) (seq i n)).
Proof.
  revert i tr. induction n as [|n IH]; intros i tr; simpl.
  - unfold ret. rewrite app_nil_r. reflexivity.
  - unfold bind at 1. unfold bind at 1. unfold emit at 1 2.
    rewrite IH. rewrite <- !app_assoc. reflexivity.
Qed.

Lemma for_range_emit (f : nat -> event) (n i : nat) (tr : list event) :
  for_range n i (fun j => emit (f j)) tr = (tt, tr ++ map f (seq i n)).
Proof.
  revert i tr. induction n as [|n IH]; intros i tr; simpl.
  - unfold ret. rewrite app_nil_r. reflexivity.
  - unfold bind at 1. unfold emit at 1.
    rewrite IH. rewrite <- !app_assoc. reflexivity.
Qed.

Lemma for_each_emit {A} (f : A -> event) (l : list A) (tr : list event) :
  for_each l (fun x => emit (f x)) tr = (tt, tr ++ map f l).
Proof.
  revert tr. induction l as [|x l IH]; intros tr; simpl.
  - unfold ret. rewrite app_nil_r. reflexivity.
  - unfold bind at 1. unfold emit at 1.
    rewrite IH. rewrite <- !app_assoc. reflexivity.
Qed.

(** ** The handler: platform_pt_routed_irq *)

Section Handler.
Context `{Host}.

Lemma find_guest_irq_found (s : platform_pt_state) (h : Z) (n i : nat) (g : Z) :
  find_guest_irq s h n i = (true, g) ->
  exists m, (i <= m < i + n)%nat /\ arr_get (host_irqs s) m = h /\
            g = arr_get (guest_irqs s) m /\
            forall m', (i <= m' < m)%nat -> arr_get (host_irqs s) m' <> h.
Proof.
  revert i. induction n as [|n IH]; intros i; simpl; [discriminate|].
  destruct (arr_get (host_irqs s) i =? h) eqn:E.
  - intros [= <-]. exists i. apply Z.eqb_eq in E.
    split; [lia|]. split; [exact E|]. split; [reflexivity|]. intros m' ?; lia.
  - intros F. destruct (IH _ F) as (m & Hm & Hh & Hg & Hlow).
    exists m. split; [lia|]. split; [exact Hh|]. split; [exact Hg|].
    intros m' Hm'. destruct (decide (m' = i)) as [->|Hne].
    + apply Z.eqb_neq in E. exact E.
    + apply Hlow. lia.
Qed.

Lemma find_guest_irq_absent (s : platform_pt_state) (h : Z) (n i : nat) (g : Z) :
  find_guest_irq s h n i = (false, g) ->
  forall m, (i <= m < i + n)%nat -> arr_get (host_irqs s) m <> h.
Proof.
  revert i. induction n as [|n IH]; intros i; simpl; [intros _ m ?; lia|].
  destruct (arr_get (host_irqs s) i =? h) eqn:E; [discriminate|].
  intros F m Hm. destruct (decide (m = i)) as [->|Hne].
  - apply Z.eqb_neq in E. exact E.
  - apply (IH _ F). lia.
Qed.

(** What the handler does once the search has ended. *)
Lemma routed_irq_run (irq : Z) (s : platform_pt_state) (tr : list event) :
  exists evs, platform_pt_routed_irq irq s tr = (VMM_IRQ_HANDLED, tr ++ evs) /\
    match find_guest_irq s (to_u32 irq) (Z.to_nat (irq_count s)) 0 with
    | (true, g) => emulate_calls evs = [(guest s, g, 0); (guest s, g, 1)]
    | (false, _) => evs = []
    end.
Proof.
  unfold platform_pt_routed_irq.
  destruct (find_guest_irq s (to_u32 irq) (Z.to_nat (irq_count s)) 0) as [[|] g].
  - unfold bind, vmm_devemu_emulate_irq, call, vmm_printf, emit, ret. simpl.
    repeat (match goal with
            | |- context [is_err ?x] => destruct (is_err x)
            end; simpl);
      eexists; rewrite <- ?app_assoc; (split; [reflexivity|reflexivity]).
  - simpl. exists []. rewrite app_nil_r. split; reflexivity.
Qed.

(** C2: a firing of host line [h = (u32) irq].  The handler always returns
    "handled", whatever the emulate calls return.  If some index of the table
    holds [h], it makes exactly two emulate calls, on the guest line of a
    matching index, at level 0 and then at level 1.  If no index holds [h], it
    calls nothing at all. *)
Theorem routed_irq_two_phase (irq : Z) (s : platform_pt_state) (tr : list event) :
  fst (platform_pt_routed_irq irq s tr) = VMM_IRQ_HANDLED /\
  ((exists i, (i < Z.to_nat (irq_count s))%nat /\
              arr_get (host_irqs s) i = to_u32 irq) ->
   exists i, (i < Z.to_nat (irq_count s))%nat /\
             arr_get (host_irqs s) i = to_u32 irq /\
             emulate_calls (events_of (platform_pt_routed_irq irq s) tr)
             = [(guest s, arr_get (guest_irqs s) i, 0);
                (guest s, arr_get (guest_irqs s) i, 1)]) /\
  ((forall i, (i < Z.to_nat (irq_count s))%nat ->
              arr_get (host_irqs s) i <> to_u32 irq) ->
   events_of (platform_pt_routed_irq irq s) tr = []).
Proof.
  destruct (routed_irq_run irq s tr) as (evs & E & Hevs).
  rewrite (events_of_app _ _ _ _ E). rewrite E. simpl.
  split; [reflexivity|].
  destruct (find_guest_irq s (to_u32 irq) (Z.to_nat (irq_count s)) 0)
    as [[|] g] eqn:F.
  - apply find_guest_irq_found in F. destruct F as (m & Hm & Hh & Hg & Hlow).
    split.
    + intros _. exists m. split; [lia|]. split; [exact Hh|]. subst g. exact Hevs.
    + intros Hno. exfalso. apply (Hno m); [lia|exact Hh].
  - pose proof (find_guest_irq_absent _ _ _ _ _ F) as Hno.
    split.
    + intros (i & Hi & Hh). exfalso. apply (Hno i); [lia|exact Hh].
    + intros _. exact Hevs.
Qed.

(** C10: when two indices [i < j] of the table hold the same host line, a
    firing of that line is delivered, level 0 then level 1, to the guest line
    of the lowest index [m] that holds it (so [m <= i < j]) and to no other:
    these two are the only emulate calls. *)
Theorem routed_irq_first_match (irq : Z) (s : platform_pt_state) (tr : list event)
    (i j : nat) :
  (i < j)%nat -> (j < Z.to_nat (irq_count s))%nat ->
  arr_get (host_irqs s) i = to_u32 irq ->
  arr_get (host_irqs s) j = to_u32 irq ->
  exists m, (m <= i)%nat /\
    arr_get (host_irqs s) m = to_u32 irq /\
    (forall m', (m' < m)%nat -> arr_get (host_irqs s) m' <> to_u32 irq) /\
    emulate_calls (events_of (platform_pt_routed_irq irq s) tr)
    = [(guest s, arr_get (guest_irqs s) m, 0);
       (guest s, arr_get (guest_irqs s) m, 1)].
Proof.
  intros Hij Hj Hi Hjh.
  destruct (routed_irq_run irq s tr) as (evs & E & Hevs).
  rewrite (events_of_app _ _ _ _ E).
  destruct (find_guest_irq s (to_u32 irq) (Z.to_nat (irq_count s)) 0)
    as [[|] g] eqn:F.
  - apply find_guest_irq_found in F. destruct F as (m & Hm & Hh & Hg & Hlow).
    exists m. split.
    + destruct (decide (m <= i)%nat) as [?|Hgt]; [assumption|].
      exfalso. apply (Hlow i); [lia|exact Hi].
    + split; [exact Hh|]. split; [intros m' ?; apply Hlow; lia|].
      subst g. exact Hevs.
  - exfalso. apply (find_guest_irq_absent _ _ _ _ _ F i); [lia|exact Hi].
Qed.

End Handler.

(** ** The subscriber: platform_pt_guest_aspace_notification *)

Lemma omap_map_some {A B C} (f : B -> option C) (g : A -> B) (h : A -> C)
    (l : list A) :
  (forall x, f (g x) = Some (h x)) -> omap f (map g l) = map h l.
Proof.
  intros E. induction l as [|x l IH]; simpl; [reflexivity|].
  rewrite E. f_equal. exact IH.
Qed.

Lemma omap_map_none {A B C} (f : B -> option C) (g : A -> B) (l : list A) :
  (forall x, f (g x) = None) -> omap f (map g l) = [].
Proof.
  intros E. induction l as [|x l IH]; simpl; [reflexivity|].
  rewrite E. exact IH.
Qed.

Lemma land_lor_absorb (f a b : Z) :
  Z.land f (Z.lor a b) = Z.lor a b <-> Z.land f a = a /\ Z.land f b = b.
Proof.
  split.
  - intros E. split; apply Z.bits_inj; intros n;
      assert (En := f_equal (fun z => Z.testbit z n) E); simpl in En;
      rewrite Z.land_spec, Z.lor_spec in En; rewrite Z.land_spec;
      destruct (Z.testbit f n), (Z.testbit a n), (Z.testbit b n);
      simpl in *; congruence.
  - intros [Ea Eb]. apply Z.bits_inj; intros n.
    assert (Ean := f_equal (fun z => Z.testbit z n) Ea).
    assert (Ebn := f_equal (fun z => Z.testbit z n) Eb). simpl in Ean, Ebn.
    rewrite Z.land_spec in Ean, Ebn. rewrite Z.land_spec, Z.lor_spec.
    destruct (Z.testbit f n), (Z.testbit a n), (Z.testbit b n);
      simpl in *; congruence.
Qed.

Lemma region_has_flags_lor (a b : Z) (r : vmm_region) :
  region_has_flags (Z.lor a b) r = region_has_flags a r && region_has_flags b r.
Proof.
  unfold region_has_flags. apply eq_true_iff_eq.
  rewrite andb_true_iff, !Z.eqb_eq. apply land_lor_absorb.
Qed.

Section Subscriber.
Context `{Host}.

Lemma region_has_aspace_flags (r : vmm_region) :
  region_has_flags aspace_region_flags r = region_qualifies r.
Proof.
  unfold aspace_region_flags, region_qualifies.
  rewrite !region_has_flags_lor. reflexivity.
Qed.

Lemma paddr_sub_in_range (r : vmm_region) :
  region_in_range r ->
  paddr_sub (VMM_REGION_GPHYS_END r) (VMM_REGION_GPHYS_START r)
  = VMM_REGION_GPHYS_END r - VMM_REGION_GPHYS_START r.
Proof.
  intros (H0 & H1 & H2). unfold paddr_sub. apply Z.mod_small. lia.
Qed.

(** The trace of a matching aspace-init event. *)
Lemma aspace_init_run (s : platform_pt_state) (edata : vmm_guest_aspace_event)
    (tr : list event) :
  guest_ptr_eqb (guest s) (Some (edata_guest edata)) = true ->
  platform_pt_guest_aspace_notification s VMM_GUEST_ASPACE_EVENT_INIT edata tr
  = (NOTIFY_OK,
     tr ++ routing_events s ++
     match dom s with
     | Some dm =>
         [EvIterateRegion (guest s) aspace_region_flags] ++
         map (fun r => EvIommuMap (Some dm) (VMM_REGION_GPHYS_START r)
                         (VMM_REGION_HPHYS_START r)
                         (paddr_sub (VMM_REGION_GPHYS_END r) (VMM_REGION_GPHYS_START r))
                         (Z.lor VMM_IOMMU_READ VMM_IOMMU_WRITE))
             (filter (fun r => region_qualifies r)
                     (host_guest_regions (tr ++ routing_events s) (guest s)))
     | None => []
     end).
Proof.
  intros Hg. unfold platform_pt_guest_aspace_notification.
  rewrite Z.eqb_refl, Hg. cbn [negb]. cbv beta iota.
  unfold bind at 1. unfold vmm_devemu_map_host2guest_irq.
  rewrite (for_range_emit
             (fun i => EvMapHost2GuestIrq (guest s) (arr_get (guest_irqs s) i)
                                          (arr_get (host_irqs s) i))).
  fold (routing_events s).
  unfold bind at 1. destruct (dom s) as [dm|] eqn:Hdom.
  - unfold vmm_guest_iterate_region, bind, emit at 1.
    unfold platform_pt_iter, vmm_iommu_map. rewrite for_each_emit.
    unfold ret. rewrite Hdom, <- !app_assoc.
    do 5 f_equal.
    apply list_filter_iff. intros r. rewrite region_has_aspace_flags. reflexivity.
  - unfold ret. rewrite app_nil_r. reflexivity.
Qed.

(** C4: an aspace-init event for the instance's own guest.  The subscriber
    makes exactly [N = irq_count] routing registrations, the one of index [i]
    pairing [guest_irqs[i]] with [host_irqs[i]].  When a domain is present it
    makes one IOMMU map call per region of the guest flagged real, memory,
    RAM-backed and host-RAM-backed, with iova the guest-physical start,
    hostPhys the host-physical start, length the guest-physical end minus the
    start, and read+write permission; when no domain is present it makes no
    map call. *)
Theorem aspace_init_maps (s : platform_pt_state) (edata : vmm_guest_aspace_event)
    (tr : list event) :
  guest_ptr_eqb (guest s) (Some (edata_guest edata)) = true ->
  Forall region_in_range (host_guest_regions (tr ++ routing_events s) (guest s)) ->
  let m := platform_pt_guest_aspace_notification s VMM_GUEST_ASPACE_EVENT_INIT edata in
  fst (m tr) = NOTIFY_OK /\
  length (routing_calls (events_of m tr)) = Z.to_nat (irq_count s) /\
  routing_calls (events_of m tr)
  = map (fun i => (guest s, arr_get (guest_irqs s) i, arr_get (host_irqs s) i))
        (seq 0 (Z.to_nat (irq_count s))) /\
  iommu_map_calls (events_of m tr)
  = match dom s with
    | Some dm =>
        map (fun r => (Some dm, VMM_REGION_GPHYS_START r, VMM_REGION_HPHYS_START r,
                       VMM_REGION_GPHYS_END r - VMM_REGION_GPHYS_START r,
                       Z.lor VMM_IOMMU_READ VMM_IOMMU_WRITE))
            (filter (fun r => region_qualifies r)
                    (host_guest_regions (tr ++ routing_events s) (guest s)))
    | None => []
    end.
Proof.
  intros Hg Hrange m. subst m.
  pose proof (aspace_init_run s edata tr Hg) as E.
  rewrite (events_of_app _ _ _ _ E). rewrite E. simpl fst.
  assert (Hroute : routing_calls (routing_events s)
            = map (fun i => (guest s, arr_get (guest_irqs s) i, arr_get (host_irqs s) i))
                  (seq 0 (Z.to_nat (irq_count s)))).
  { unfold routing_calls, routing_events. apply omap_map_some. reflexivity. }
  assert (Hnomap : iommu_map_calls (routing_events s) = []).
  { unfold iommu_map_calls, routing_events. apply omap_map_none. reflexivity. }
  unfold routing_calls, iommu_map_calls in *. rewrite !omap_app, Hroute, Hnomap.
  destruct (dom s) as [dm|].
  - rewrite !omap_app.
    rewrite omap_map_none by (intros; reflexivity).
    erewrite omap_map_some by (intros; reflexivity).
    simpl. rewrite app_nil_r, length_map, length_seq.
    split; [reflexivity|]. split; [reflexivity|]. split; [reflexivity|].
    apply map_ext_in. intros r Hr. rewrite paddr_sub_in_range; [reflexivity|].
    apply list_elem_of_In, list_elem_of_filter in Hr. destruct Hr as [_ Hr].
    rewrite Forall_forall in Hrange. apply Hrange. exact Hr.
  - simpl. rewrite app_nil_r, length_map, length_seq. repeat split; reflexivity.
Qed.

(** C9: an event that is not an aspace-init event, or whose guest is not the
    instance's guest.  The subscriber calls nothing (no routing registration,
    no IOMMU map call: the trace is the one it started from), and returns the
    "done" disposition, which is not the failure one.  The subscriber has no
    write to the instance in any case: it takes the structure and yields
    only a disposition. *)
Theorem aspace_event_ignored (s : platform_pt_state) (evt : Z)
    (edata : vmm_guest_aspace_event) (tr : list event) :
  evt <> VMM_GUEST_ASPACE_EVENT_INIT \/
  guest_ptr_eqb (guest s) (Some (edata_guest edata)) = false ->
  platform_pt_guest_aspace_notification s evt edata tr = (NOTIFY_DONE, tr) /\
  routing_calls (events_of (platform_pt_guest_aspace_notification s evt edata) tr) = [] /\
  iommu_map_calls (events_of (platform_pt_guest_aspace_notification s evt edata) tr) = [] /\
  NOTIFY_DONE <> NOTIFY_BAD.
Proof.
  intros Hcase.
  assert (E : platform_pt_guest_aspace_notification s evt edata tr = (NOTIFY_DONE, tr)).
  { unfold platform_pt_guest_aspace_notification.
    destruct (evt =? VMM_GUEST_ASPACE_EVENT_INIT) eqn:Eevt; [|reflexivity].
    destruct Hcase as [Hne|Hg].
    - apply Z.eqb_eq in Eevt. contradiction.
    - rewrite Hg. reflexivity. }
  split; [exact E|].
  assert (E' : platform_pt_guest_aspace_notification s evt edata tr = (NOTIFY_DONE, tr ++ []))
    by (rewrite app_nil_r; exact E).
  rewrite (events_of_app _ _ _ _ E').
  repeat split; discriminate.
Qed.

End Subscriber.

(** ** Removal: platform_pt_remove *)

Section Remove.
Context `{Host}.

Lemma unregister_irqs_run (s : platform_pt_state) (n : nat) (tr : list event) :
  unregister_irqs s n tr = (tt, tr ++ unregister_events s n).
Proof.
  unfold unregister_irqs, unregister_events, vmm_host_irq_unregister,
    vmm_host_irq_unmark_routed.
  apply (for_range_emit2
           (fun i => EvUnregister (arr_get (host_irqs s) i) (self s))
           (fun i => EvUnmarkRouted (arr_get (host_irqs s) i))).
Qed.

Lemma free_array_run (a : option u32_array) (tr : list event) :
  free_array a tr = (tt, tr ++ free_events a).
Proof.
  destruct a; simpl; unfold vmm_free, emit, ret; rewrite ?app_nil_r; reflexivity.
Qed.

(** C3: remove.  With no instance attached it returns Failure and calls
    nothing.  With an instance attached it returns success, clears the slot,
    and makes exactly the calls of [teardown_events], in that order: the
    unsubscription, the domain free if a domain is present, the device release
    if a device is present, for every index the unregistration and then the
    unmarking of its host line, the free of each array that was allocated
    (guest lines, types, host lines), the free of the instance.  No result of
    these calls is looked at, so none of them can stop the teardown. *)
Theorem remove_teardown (edev : vmm_emudev) (tr : list event) :
  platform_pt_remove edev tr
  = match priv edev with
    | None => ((VMM_EFAIL, edev), tr)
    | Some s => ((VMM_OK, {| node := node edev; priv := None |}),
                 tr ++ teardown_events s)
    end.
Proof.
  unfold platform_pt_remove. destruct (priv edev) as [s|]; [|reflexivity].
  unfold teardown_events, bind.
  unfold vmm_guest_aspace_unregister_client, emit at 1.
  destruct (dom s) as [dm|], (dev s) as [d|];
    unfold vmm_iommu_domain_free, vmm_devdrv_dref_device, emit, ret;
    rewrite unregister_irqs_run, !free_array_run; unfold vmm_free, emit;
    simpl; rewrite <- ?app_assoc; simpl; reflexivity.
Qed.

End Remove.

(** ** The probe: platform_pt_probe *)

Lemma is_err_false (rc : Z) : is_err rc = false -> rc = 0.
Proof. unfold is_err. intros E. apply negb_false_iff, Z.eqb_eq in E. exact E. Qed.

Lemma is_err_true (rc : Z) : is_err rc = true -> rc <> 0.
Proof. unfold is_err. intros E. apply negb_true_iff, Z.eqb_neq in E. exact E. Qed.

Lemma arr_set_ptr (a : option u32_array) (i : nat) (v : Z) :
  option_map arr_ptr (arr_set a i v) = option_map arr_ptr a.
Proof. destruct a; reflexivity. Qed.

Lemma arr_get_set_ne (a : option u32_array) (i j : nat) (v : Z) :
  j <> i -> arr_get (arr_set a i v) j = arr_get a j.
Proof.
  intros Hne. destruct a as [a|]; simpl; [|reflexivity].
  apply list_lookup_total_insert_ne. congruence.
Qed.

Lemma same_frame_refl s : same_frame s s.
Proof. unfold same_frame. repeat split; reflexivity. Qed.

Lemma same_frame_trans s1 s2 s3 :
  same_frame s1 s2 -> same_frame s2 s3 -> same_frame s1 s3.
Proof.
  unfold same_frame. intros (A1&A2&A3&A4&A5&A6&A7&A8&A9&A10) (B1&B2&B3&B4&B5&B6&B7&B8&B9&B10).
  repeat split; congruence.
Qed.

Section ProbeLoop.
Context `{Host}.

Lemma register_irq_run (i : nat) (s : platform_pt_state) (tr : list event) :
  exists e evs,
    probe_register_irq i s tr = (e, tr ++ evs) /\
    register_outcome (arr_get (host_irqs s) i) (arr_get (host_type_irqs s) i)
                     (name s) (self s) e evs.
Proof.
  unfold probe_register_irq, bind, vmm_host_irq_set_type, vmm_host_irq_mark_routed,
    vmm_host_irq_register, vmm_host_irq_unmark_routed, call, emit, ret.
  set (h := arr_get (host_irqs s) i). set (t := arr_get (host_type_irqs s) i).
  cbv zeta.
  destruct (is_err (host_irq_set_type tr h t)) eqn:E1.
  { eexists _, _. split; [reflexivity|]. apply Reg_type_fails. exact E1. }
  apply is_err_false in E1. rewrite E1.
  destruct (is_err (host_irq_mark_routed (tr ++ [EvSetType h t 0]) h)) eqn:E2.
  { eexists _, _. split; [rewrite <- app_assoc; reflexivity|].
    apply Reg_claim_fails. exact E2. }
  apply is_err_false in E2. rewrite E2.
  destruct (is_err (host_irq_register
                      ((tr ++ [EvSetType h t 0]) ++ [EvMarkRouted h 0])
                      h (name s) (self s))) eqn:E3.
  { eexists _, _. split; [rewrite <- !app_assoc; reflexivity|].
    rewrite <- !app_assoc in E3. apply Reg_install_fails. exact E3. }
  apply is_err_false in E3. rewrite E3.
  eexists _, _. split; [rewrite <- !app_assoc; reflexivity|]. apply Reg_done.
Qed.

Lemma read_u32_run (nd : vmm_devtree_node) (attr : string) (out index : Z)
    (tr : list event) :
  exists rc v,
    vmm_devtree_read_u32_atindex nd attr out index tr
    = ((rc, if is_err rc then out else to_u32 v), tr ++ [EvReadU32 nd attr index rc v]).
Proof.
  unfold vmm_devtree_read_u32_atindex, bind, call, ret.
  eexists _, _. reflexivity.
Qed.

Lemma read_irq_run (nd : vmm_devtree_node) (i : nat) (s : platform_pt_state)
    (tr : list event) :
  exists e s1 blk,
    probe_read_irq nd i s tr = ((e, s1), tr ++ blk) /\
    reads nd i e blk /\
    same_frame s s1 /\
    (forall j, j <> i -> same_cells j s s1).
Proof.
  assert (Hfr : forall a b c,
    option_map arr_ptr a = option_map arr_ptr (host_irqs s) ->
    option_map arr_ptr b = option_map arr_ptr (host_type_irqs s) ->
    option_map arr_ptr c = option_map arr_ptr (guest_irqs s) ->
    same_frame s {| self := self s; name := name s; guest := guest s;
                    irq_count := irq_count s; host_irqs := a; host_type_irqs := b;
                    guest_irqs := c; dev := dev s; dom := dom s; nb := nb s |}).
  { intros a b c Ha Hb Hc. unfold same_frame; cbn. repeat split; assumption. }
  unfold probe_read_irq.
  unfold bind at 1.
  destruct (read_u32_run nd "host-interrupts" (arr_get (host_irqs s) i)
              (to_u32 (Z.of_nat i * 2)) tr) as (rc1 & v1 & E1).
  rewrite E1. cbn [fst snd].
  destruct (is_err rc1) eqn:R1.
  { unfold ret. eexists _, _, _. split; [reflexivity|].
    split; [apply Reads_host_fails; exact R1|].
    split.
    - apply Hfr; rewrite ?arr_set_ptr; reflexivity.
    - intros j Hj. unfold same_cells; cbn. rewrite arr_get_set_ne by exact Hj.
      repeat split; reflexivity. }
  apply is_err_false in R1. subst rc1.
  unfold bind at 1.
  match goal with |- context [vmm_devtree_read_u32_atindex nd ?a ?o ?x ?t] =>
    destruct (read_u32_run nd a o x t) as (rc2 & v2 & E2) end.
  rewrite E2. cbn [fst snd].
  destruct (is_err rc2) eqn:R2.
  { unfold ret. eexists _, _, _. split; [rewrite <- !app_assoc; reflexivity|].
    split; [apply Reads_type_fails; exact R2|].
    split.
    - apply Hfr; cbn; rewrite ?arr_set_ptr; reflexivity.
    - intros j Hj. unfold same_cells; cbn. rewrite !arr_get_set_ne by exact Hj.
      repeat split; reflexivity. }
  apply is_err_false in R2. subst rc2.
  unfold bind at 1.
  match goal with |- context [vmm_devtree_read_u32_atindex nd ?a ?o ?x ?t] =>
    destruct (read_u32_run nd a o x t) as (rc3 & v3 & E3) end.
  rewrite E3. cbn [fst snd].
  destruct (is_err rc3) eqn:R3.
  { unfold ret. eexists _, _, _. split; [rewrite <- !app_assoc; reflexivity|].
    split; [apply Reads_guest_fails; exact R3|].
    split.
    - apply Hfr; cbn; rewrite ?arr_set_ptr; reflexivity.
    - intros j Hj. unfold same_cells; cbn. rewrite !arr_get_set_ne by exact Hj.
      repeat split; reflexivity. }
  apply is_err_false in R3. subst rc3.
  unfold ret. eexists _, _, _. split; [rewrite <- !app_assoc; reflexivity|].
  split; [apply Reads_done|].
  split.
  - apply Hfr; cbn; rewrite ?arr_set_ptr; reflexivity.
  - intros j Hj. unfold same_cells; cbn. rewrite !arr_get_set_ne by exact Hj.
    repeat split; reflexivity.
Qed.

Lemma irq_body_run (nd : vmm_devtree_node) (i : nat) (s : platform_pt_state)
    (tr : list event) :
  exists e s1 blk,
    probe_irq_body nd i s tr = ((e, s1), tr ++ blk) /\
    iteration nd i (arr_get (host_irqs s1) i) (arr_get (host_type_irqs s1) i)
              (name s1) (self s1) e blk /\
    same_frame s s1 /\
    (forall j, j <> i -> same_cells j s s1).
Proof.
  unfold probe_irq_body. unfold bind at 1.
  destruct (read_irq_run nd i s tr) as (e & s1 & blk & E & Hr & Hf & Hc).
  rewrite E. cbn [fst snd].
  destruct e as [rc|].
  - unfold ret. exists (Some rc), s1, blk. split; [reflexivity|].
    split; [apply It_read_fails; exact Hr|]. split; assumption.
  - unfold bind.
    destruct (register_irq_run i s1 (tr ++ blk)) as (e & evs & E' & Hreg).
    rewrite E'. unfold ret. exists e, s1, (blk ++ evs).
    split; [rewrite app_assoc; reflexivity|].
    split; [apply It_register; assumption|]. split; assumption.
Qed.

Lemma iteration_cells nd i s s' e blk :
  same_frame s s' -> same_cells i s s' ->
  iteration nd i (arr_get (host_irqs s) i) (arr_get (host_type_irqs s) i)
            (name s) (self s) e blk ->
  iteration nd i (arr_get (host_irqs s') i) (arr_get (host_type_irqs s') i)
            (name s') (self s') e blk.
Proof.
  intros (F1 & F2 & _) (C1 & C2 & _). rewrite F1, F2, C1, C2. auto.
Qed.

Lemma probe_irq_loop_run (nd : vmm_devtree_node) (n i : nat) (s : platform_pt_state)
    (cnt : nat) (tr : list event) :
  exists e s' m evs,
    probe_irq_loop nd n i s cnt tr = ((e, s', (cnt + m)%nat), tr ++ evs) /\
    loop_trace nd s' i m e evs /\
    (m <= n)%nat /\ (e = None -> m = n) /\ (e <> None -> (m < n)%nat) /\
    same_frame s s' /\
    (forall j, (j < i)%nat -> same_cells j s s').
Proof.
  revert i s cnt tr. induction n as [|n IH]; intros i s cnt tr.
  - simpl. unfold ret. exists None, s, 0%nat, [].
    rewrite Nat.add_0_r, app_nil_r. split; [reflexivity|].
    split; [apply Loop_end|]. split; [lia|]. split; [reflexivity|].
    split; [congruence|]. split; [apply same_frame_refl|].
    intros j _. unfold same_cells. repeat split; reflexivity.
  - simpl. unfold bind at 1.
    destruct (irq_body_run nd i s tr) as (e1 & s1 & blk & E & Hit & Hf & Hc).
    rewrite E. cbn [fst snd].
    destruct e1 as [rc|].
    + unfold ret. exists (Some rc), s1, 0%nat, blk.
      rewrite Nat.add_0_r. split; [reflexivity|].
      split; [apply Loop_exit; exact Hit|]. split; [lia|].
      split; [discriminate|]. split; [intros _; lia|]. split; [exact Hf|].
      intros j Hj. apply Hc. lia.
    + destruct (IH (S i) s1 (S cnt) (tr ++ blk))
        as (e & s' & m & evs & E' & Hl & Hm & Hnone & Hsome & Hf' & Hc').
      rewrite E'. exists e, s', (S m), (blk ++ evs).
      split; [replace (cnt + S m)%nat with (S cnt + m)%nat by lia; rewrite app_assoc; reflexivity|].
      split.
      { apply Loop_next; [|exact Hl].
        apply (iteration_cells nd i s1 s'); [exact Hf'| |exact Hit].
        apply Hc'. lia. }
      split; [lia|]. split; [intros E0; rewrite (Hnone E0); reflexivity|].
      split; [intros E0; specialize (Hsome E0); lia|].
      split; [eapply same_frame_trans; eassumption|].
      intros j Hj. destruct (Hc j) as (A1 & A2 & A3); [lia|].
      destruct (Hc' j) as (B1 & B2 & B3); [lia|].
      unfold same_cells. rewrite B1, B2, B3. repeat split; assumption.
Qed.

End ProbeLoop.

(** ** Facts on the trace of the loop *)

Lemma foldl_neutral {A} (step : A -> event -> A) (P : event -> bool)
    (evs : list event) (R : A) :
  (forall R e, P e = true -> step R e = R) ->
  Forall (fun e => P e = true) evs ->
  foldl step R evs = R.
Proof.
  intros Hstep Hall. revert R. induction Hall as [|e evs He _ IH]; intros R; simpl.
  - reflexivity.
  - rewrite (Hstep R e He). apply IH.
Qed.

Section LoopFacts.
Context `{Host}.

Lemma register_outcome_kind h t nm d e evs :
  register_outcome h t nm d e evs -> Forall (fun x => is_loop_event x = true) evs.
Proof. intros []; repeat constructor. Qed.

Lemma reads_kind nd i e blk :
  reads nd i e blk -> Forall (fun x => is_read x = true) blk.
Proof. intros []; repeat constructor. Qed.

Lemma is_read_loop_event x : is_read x = true -> is_loop_event x = true.
Proof. destruct x; simpl; congruence. Qed.

Lemma iteration_kind nd i h t nm d e blk :
  iteration nd i h t nm d e blk -> Forall (fun x => is_loop_event x = true) blk.
Proof.
  intros [rc b Hr|b e' evs Hr Hreg].
  - eapply Forall_impl; [apply (reads_kind _ _ _ _ Hr)|]. apply is_read_loop_event.
  - apply Forall_app. split.
    + eapply Forall_impl; [apply (reads_kind _ _ _ _ Hr)|]. apply is_read_loop_event.
    + apply (register_outcome_kind _ _ _ _ _ _ Hreg).
Qed.

Lemma loop_trace_kind nd s i m e evs :
  loop_trace nd s i m e evs -> Forall (fun x => is_loop_event x = true) evs.
Proof.
  induction 1 as [i|i rc blk Hit|i m e blk evs Hit _ IH].
  - constructor.
  - apply (iteration_kind _ _ _ _ _ _ _ _ Hit).
  - apply Forall_app. split; [apply (iteration_kind _ _ _ _ _ _ _ _ Hit)|exact IH].
Qed.


Lemma register_outcome_failures h t nm d e evs x err :
  register_outcome h t nm d e evs -> x ∈ evs -> failure_of x err -> e = Some err.
Proof.
  unfold failure_of.
  intros [rc Hrc|rc Hrc|rc Hrc|] Hx Hf;
    repeat (apply elem_of_cons in Hx; destruct Hx as [->|Hx]);
    try (apply elem_of_nil in Hx; contradiction);
    simpl in Hf; rewrite ?Hrc in Hf;
    destruct Hf as [Hf|Hf]; congruence.
Qed.

Lemma reads_failures nd i e blk x err :
  reads nd i e blk -> x ∈ blk -> failure_of x err -> e = Some err.
Proof.
  unfold failure_of.
  intros [rc v Hrc|v1 rc v Hrc|v1 v2 rc v Hrc|v1 v2 v3] Hx Hf;
    repeat (apply elem_of_cons in Hx; destruct Hx as [->|Hx]);
    try (apply elem_of_nil in Hx; contradiction);
    simpl in Hf; rewrite ?Hrc in Hf;
    destruct Hf as [Hf|Hf]; congruence.
Qed.

Lemma iteration_failures nd i h t nm d e blk x err :
  iteration nd i h t nm d e blk -> x ∈ blk -> failure_of x err -> e = Some err.
Proof.
  intros [rc b Hr|b e' evs Hr Hreg] Hx Hf.
  - apply (reads_failures _ _ _ _ _ _ Hr Hx Hf).
  - apply elem_of_app in Hx. destruct Hx as [Hx|Hx].
    + pose proof (reads_failures _ _ _ _ _ _ Hr Hx Hf). discriminate.
    + apply (register_outcome_failures _ _ _ _ _ _ _ _ Hreg Hx Hf).
Qed.

Lemma loop_trace_failures nd s i m e evs x err :
  loop_trace nd s i m e evs -> x ∈ evs -> failure_of x err -> e = Some err.
Proof.
  induction 1 as [i|i rc blk Hit|i m e blk evs Hit _ IH]; intros Hx Hf.
  - apply elem_of_nil in Hx. contradiction.
  - apply (iteration_failures _ _ _ _ _ _ _ _ _ _ Hit Hx Hf).
  - apply elem_of_app in Hx. destruct Hx as [Hx|Hx].
    + pose proof (iteration_failures _ _ _ _ _ _ _ _ _ _ Hit Hx Hf). discriminate.
    + apply IH; assumption.
Qed.

Lemma iteration_error nd i h t nm d rc blk :
  iteration nd i h t nm d (Some rc) blk -> is_err rc = true.
Proof.
  intros Hit. inversion Hit as [rc' b Hr|b e' evs Hr Hreg]; subst.
  - inversion Hr; assumption.
  - inversion Hreg; assumption.
Qed.

Lemma loop_trace_error nd s i m rc evs :
  loop_trace nd s i m (Some rc) evs -> is_err rc = true.
Proof.
  intros Hl. remember (Some rc) as e eqn:He.
  induction Hl as [i|i rc' blk Hit|i m e blk evs Hit _ IH].
  - discriminate.
  - injection He as ->. apply (iteration_error _ _ _ _ _ _ _ _ Hit).
  - apply IH. exact He.
Qed.

(** A registration step that fails is a step on the line of the iteration
    it fails in, the one after the [m] complete iterations. *)
Lemma iteration_failure_line nd i h t nm d e blk x err :
  iteration nd i h t nm d e blk -> x ∈ blk -> irq_step_failure x = Some err ->
  step_line x = Some h.
Proof.
  intros [rc b Hr|b e' evs Hr Hreg] Hx Hf.
  - pose proof (reads_kind _ _ _ _ Hr) as Hk. rewrite Forall_forall in Hk.
    specialize (Hk x Hx). destruct x; simpl in Hk, Hf; discriminate.
  - apply elem_of_app in Hx. destruct Hx as [Hx|Hx].
    + pose proof (reads_kind _ _ _ _ Hr) as Hk. rewrite Forall_forall in Hk.
      specialize (Hk x Hx). destruct x; simpl in Hk, Hf; discriminate.
    + destruct Hreg;
        repeat (apply elem_of_cons in Hx; destruct Hx as [->|Hx]);
        try (apply elem_of_nil in Hx; contradiction);
        try reflexivity; simpl in Hf; discriminate.
Qed.

Lemma loop_trace_failure_line nd s i m e evs x err :
  loop_trace nd s i m e evs -> x ∈ evs -> irq_step_failure x = Some err ->
  step_line x = Some (arr_get (host_irqs s) (i + m)).
Proof.
  induction 1 as [i|i rc blk Hit|i m e blk evs Hit _ IH]; intros Hx Hf.
  - apply elem_of_nil in Hx. contradiction.
  - rewrite Nat.add_0_r. apply (iteration_failure_line _ _ _ _ _ _ _ _ _ _ Hit Hx Hf).
  - apply elem_of_app in Hx. destruct Hx as [Hx|Hx].
    + pose proof (iteration_failures _ _ _ _ _ _ _ _ _ err Hit Hx (or_introl Hf)).
      discriminate.
    + replace (i + S m)%nat with (S i + m)%nat by lia. apply IH; assumption.
Qed.

End LoopFacts.

Lemma lines_S s i m :
  lines s i (S m) = {[arr_get (host_irqs s) i]} ∪ lines s (S i) m.
Proof. reflexivity. Qed.

Lemma handler_keys_S s i m :
  handler_keys s i (S m) = {[(arr_get (host_irqs s) i, self s)]} ∪ handler_keys s (S i) m.
Proof. reflexivity. Qed.

Section LoopResources.
Context `{Host}.

Lemma reads_routed nd i e blk R : reads nd i e blk -> foldl routed_step R blk = R.
Proof. intros []; reflexivity. Qed.

Lemma reads_handlers nd i e blk R : reads nd i e blk -> foldl handler_step R blk = R.
Proof. intros []; reflexivity. Qed.

Lemma reads_registered nd i e blk : reads nd i e blk -> registered_ok blk = [].
Proof. intros []; reflexivity. Qed.

Lemma iteration_done_routed nd i h t nm d blk R :
  iteration nd i h t nm d None blk -> foldl routed_step R blk = {[h]} ∪ R.
Proof.
  intros Hit. inversion Hit as [|b e evs Hr Hreg]; subst.
  rewrite foldl_app, (reads_routed _ _ _ _ _ Hr). inversion Hreg; subst. reflexivity.
Qed.

Lemma iteration_done_handlers nd i h t nm d blk R :
  iteration nd i h t nm d None blk -> foldl handler_step R blk = {[(h, d)]} ∪ R.
Proof.
  intros Hit. inversion Hit as [|b e evs Hr Hreg]; subst.
  rewrite foldl_app, (reads_handlers _ _ _ _ _ Hr). inversion Hreg; subst. reflexivity.
Qed.

Lemma iteration_done_registered nd i h t nm d blk :
  iteration nd i h t nm d None blk -> registered_ok blk = [(h, d)].
Proof.
  intros Hit. inversion Hit as [|b e evs Hr Hreg]; subst.
  unfold registered_ok. rewrite omap_app.
  fold (registered_ok b). rewrite (reads_registered _ _ _ _ Hr).
  inversion Hreg; subst. reflexivity.
Qed.

Lemma iteration_failed_routed nd i h t nm d rc blk R :
  iteration nd i h t nm d (Some rc) blk -> foldl routed_step R blk ⊆ R.
Proof.
  intros Hit. inversion Hit as [rc' b Hr|b e evs Hr Hreg]; subst.
  - rewrite (reads_routed _ _ _ _ _ Hr). reflexivity.
  - rewrite foldl_app, (reads_routed _ _ _ _ _ Hr).
    inversion Hreg as [rc' Hrc|rc' Hrc|rc' Hrc|]; subst; simpl; rewrite ?Hrc;
      set_solver.
Qed.

Lemma iteration_failed_handlers nd i h t nm d rc blk R :
  iteration nd i h t nm d (Some rc) blk -> foldl handler_step R blk = R.
Proof.
  intros Hit. inversion Hit as [rc' b Hr|b e evs Hr Hreg]; subst.
  - rewrite (reads_handlers _ _ _ _ _ Hr). reflexivity.
  - rewrite foldl_app, (reads_handlers _ _ _ _ _ Hr).
    inversion Hreg as [rc' Hrc|rc' Hrc|rc' Hrc|]; subst; simpl; rewrite ?Hrc;
      reflexivity.
Qed.

Lemma iteration_failed_registered nd i h t nm d rc blk :
  iteration nd i h t nm d (Some rc) blk -> registered_ok blk = [].
Proof.
  intros Hit. inversion Hit as [rc' b Hr|b e evs Hr Hreg]; subst.
  - apply (reads_registered _ _ _ _ Hr).
  - unfold registered_ok. rewrite omap_app.
    fold (registered_ok b). rewrite (reads_registered _ _ _ _ Hr).
    inversion Hreg as [rc' Hrc|rc' Hrc|rc' Hrc|]; subst; simpl; rewrite ?Hrc;
      reflexivity.
Qed.

Lemma loop_trace_routed nd s i m e evs R :
  loop_trace nd s i m e evs -> foldl routed_step R evs ⊆ R ∪ lines s i m.
Proof.
  intros Hl. revert R.
  induction Hl as [i|i rc blk Hit|i m e blk evs Hit _ IH]; intros R.
  - simpl. set_solver.
  - pose proof (iteration_failed_routed _ _ _ _ _ _ _ _ R Hit). set_solver.
  - rewrite foldl_app, (iteration_done_routed _ _ _ _ _ _ _ _ Hit), lines_S.
    specialize (IH ({[arr_get (host_irqs s) i]} ∪ R)). set_solver.
Qed.

Lemma loop_trace_handlers nd s i m e evs R :
  loop_trace nd s i m e evs -> foldl handler_step R evs ⊆ R ∪ handler_keys s i m.
Proof.
  intros Hl. revert R.
  induction Hl as [i|i rc blk Hit|i m e blk evs Hit _ IH]; intros R.
  - simpl. set_solver.
  - rewrite (iteration_failed_handlers _ _ _ _ _ _ _ _ R Hit). set_solver.
  - rewrite foldl_app, (iteration_done_handlers _ _ _ _ _ _ _ _ Hit), handler_keys_S.
    specialize (IH ({[(arr_get (host_irqs s) i, self s)]} ∪ R)). set_solver.
Qed.

Lemma loop_trace_registered nd s i m e evs :
  loop_trace nd s i m e evs ->
  registered_ok evs = map (fun j => (arr_get (host_irqs s) j, self s)) (seq i m).
Proof.
  induction 1 as [i|i rc blk Hit|i m e blk evs Hit _ IH].
  - reflexivity.
  - apply (iteration_failed_registered _ _ _ _ _ _ _ _ Hit).
  - unfold registered_ok in *. rewrite omap_app, IH.
    fold (registered_ok blk).
    rewrite (iteration_done_registered _ _ _ _ _ _ _ Hit). reflexivity.
Qed.

End LoopResources.

(** ** The effect of the rollback *)

Lemma unregister_from_routed s i m R :
  foldl routed_step R
    (flat_map (fun j => [EvUnregister (arr_get (host_irqs s) j) (self s);
                         EvUnmarkRouted (arr_get (host_irqs s) j)]) (seq i m))
  = R ∖ lines s i m.
Proof.
  revert i R. induction m as [|m IH]; intros i R.
  - simpl. unfold lines. simpl. set_solver.
  - cbn [seq flat_map]. rewrite foldl_app, IH, lines_S. simpl. set_solver.
Qed.

Lemma unregister_from_handlers s i m R :
  foldl handler_step R
    (flat_map (fun j => [EvUnregister (arr_get (host_irqs s) j) (self s);
                         EvUnmarkRouted (arr_get (host_irqs s) j)]) (seq i m))
  = R ∖ handler_keys s i m.
Proof.
  revert i R. induction m as [|m IH]; intros i R.
  - simpl. unfold handler_keys. simpl. set_solver.
  - cbn [seq flat_map]. rewrite foldl_app, IH, handler_keys_S. simpl. set_solver.
Qed.

Lemma unregister_events_unregistered s k :
  unregistered (unregister_events s k)
  = map (fun j => (arr_get (host_irqs s) j, self s)) (seq 0 k).
Proof.
  unfold unregister_events. generalize 0%nat as i.
  induction k as [|k IH]; intros i; [reflexivity|].
  cbn [seq flat_map map]. unfold unregistered in *. rewrite omap_app, IH. reflexivity.
Qed.

Lemma free_events_quiet a : Forall (fun e => is_quiet e = true) (free_events a).
Proof. destruct a; repeat constructor. Qed.

Lemma unregister_events_quiet s k :
  Forall (fun e => is_quiet e = true) (unregister_events s k).
Proof.
  unfold unregister_events. apply Forall_flat_map, Forall_forall.
  intros j _. repeat constructor.
Qed.

Lemma cleanup_events_quiet s k : Forall (fun e => is_quiet e = true) (cleanup_events s k).
Proof.
  unfold cleanup_events. rewrite !Forall_app.
  repeat split; auto using free_events_quiet, unregister_events_quiet;
    repeat constructor.
Qed.

Lemma free_events_routed a R : foldl routed_step R (free_events a) = R.
Proof. destruct a; reflexivity. Qed.

Lemma free_events_handlers a R : foldl handler_step R (free_events a) = R.
Proof. destruct a; reflexivity. Qed.

Lemma free_events_heap a R : foldl heap_step R (free_events a) = R ∖ array_block a.
Proof. destruct a; simpl; set_solver. Qed.

Lemma cleanup_routed s k R : foldl routed_step R (cleanup_events s k) = R ∖ lines s 0 k.
Proof.
  unfold cleanup_events, unregister_events.
  rewrite !foldl_app, unregister_from_routed, !free_events_routed. reflexivity.
Qed.

Lemma cleanup_handlers s k R :
  foldl handler_step R (cleanup_events s k) = R ∖ handler_keys s 0 k.
Proof.
  unfold cleanup_events, unregister_events.
  rewrite !foldl_app, unregister_from_handlers, !free_events_handlers. reflexivity.
Qed.

Lemma cleanup_heap s k R : foldl heap_step R (cleanup_events s k) = R ∖ held_blocks s.
Proof.
  unfold cleanup_events. rewrite !foldl_app.
  rewrite (foldl_neutral heap_step is_unregistration (unregister_events s k)).
  - rewrite !free_events_heap. simpl. unfold held_blocks. set_solver.
  - intros R' e. destruct e; simpl; try discriminate; reflexivity.
  - unfold unregister_events. apply Forall_flat_map, Forall_forall.
    intros j _. repeat constructor.
Qed.

Lemma call_run {A} (res : list event -> A) (ev : A -> event) (tr : list event) :
  call res ev tr = (res tr, tr ++ [ev (res tr)]).
Proof. reflexivity. Qed.

Section ProbeRun.
Context `{Host}.


Lemma freestate_run s edev rc tr :
  platform_pt_probe_freestate_fail s edev rc tr = ((rc, edev), tr ++ [EvFree (self s)]).
Proof. reflexivity. Qed.

Lemma freehirqs_run s edev rc tr :
  platform_pt_probe_freehirqs_fail s edev rc tr
  = ((rc, edev), tr ++ free_events (host_irqs s) ++ [EvFree (self s)]).
Proof.
  unfold platform_pt_probe_freehirqs_fail, bind. rewrite free_array_run.
  rewrite freestate_run, <- app_assoc. reflexivity.
Qed.

Lemma freehtirqs_run s edev rc tr :
  platform_pt_probe_freehtirqs_fail s edev rc tr
  = ((rc, edev), tr ++ free_events (host_type_irqs s) ++ free_events (host_irqs s)
                    ++ [EvFree (self s)]).
Proof.
  unfold platform_pt_probe_freehtirqs_fail, bind. rewrite free_array_run.
  rewrite freehirqs_run, <- app_assoc. reflexivity.
Qed.

Lemma cleanupirqs_run s k edev rc tr :
  platform_pt_probe_cleanupirqs_fail s k edev rc tr
  = ((rc, edev), tr ++ cleanup_events s k).
Proof.
  unfold platform_pt_probe_cleanupirqs_fail, bind, cleanup_events.
  rewrite unregister_irqs_run, free_array_run, freehtirqs_run.
  rewrite <- !app_assoc. reflexivity.
Qed.

Lemma dref_dev_run s k edev rc tr :
  platform_pt_probe_dref_dev_fail s k edev rc tr
  = ((rc, edev),
     tr ++ match dev s with Some d => [EvDrefDevice (dev_addr d)] | None => [] end
        ++ cleanup_events s k).
Proof.
  unfold platform_pt_probe_dref_dev_fail, bind.
  destruct (dev s); unfold vmm_devdrv_dref_device, emit, ret;
    rewrite cleanupirqs_run, <- ?app_assoc; reflexivity.
Qed.

Lemma free_dom_run s k edev rc tr :
  platform_pt_probe_free_dom_fail s k edev rc tr
  = ((rc, edev),
     tr ++ match dom s with Some dm => [EvDomainFree dm] | None => [] end
        ++ match dev s with Some d => [EvDrefDevice (dev_addr d)] | None => [] end
        ++ cleanup_events s k).
Proof.
  unfold platform_pt_probe_free_dom_fail, bind.
  destruct (dom s); unfold vmm_iommu_domain_free, emit, ret;
    rewrite dref_dev_run, <- ?app_assoc; reflexivity.
Qed.


Lemma probe_subscribe_run s k edev tr :
  exists rc,
    probe_subscribe s k edev tr
    = if is_err rc
      then ((rc, edev),
            tr ++ [EvRegisterClient (self s) rc]
               ++ match dom s with Some dm => [EvDomainFree dm] | None => [] end
               ++ match dev s with Some d => [EvDrefDevice (dev_addr d)] | None => [] end
               ++ cleanup_events s k)
      else ((VMM_OK, attach edev (subscribed s)),
            tr ++ [EvRegisterClient (self s) rc]).
Proof.
  unfold probe_subscribe, bind, vmm_guest_aspace_register_client.
  rewrite call_run. cbn [self set_nb].
  generalize (host_register_client tr (self s)). intros rc. exists rc.
  destruct (is_err rc).
  - rewrite free_dom_run, <- !app_assoc. reflexivity.
  - reflexivity.
Qed.

Lemma probe_iommu_run s k edev tr :
  dev s = None -> dom s = None ->
  exists rc edev' evs,
    probe_iommu s k edev tr = ((rc, edev'), tr ++ evs) /\
    after_loop s k edev None rc edev' evs.
Proof.
  intros Hdev Hdom. unfold probe_iommu.
  unfold bind at 1. unfold vmm_devtree_read_string. rewrite call_run.
  generalize (host_read_string tr (node edev) "iommu-device"). intros [nm|].
  - unfold bind at 1. unfold vmm_devdrv_bus_find_device_by_name. rewrite call_run.
    match goal with |- context [host_find_device_by_name ?t nm] =>
      generalize (host_find_device_by_name t nm) end.
    intros [dv|].
    + destruct (iommu_group dv) as [grp|] eqn:Hgrp.
      * unfold bind at 1. unfold vmm_devdrv_ref_device, emit at 1.
        unfold bind at 1. unfold vmm_iommu_domain_alloc. rewrite call_run.
        match goal with |- context [host_iommu_domain_alloc ?t ?a ?b] =>
          generalize (host_iommu_domain_alloc t a b) end.
        intros [dm|].
        -- unfold bind at 1. unfold vmm_iommu_set_fault_handler, emit at 1.
           match goal with |- context [probe_subscribe ?s' k edev ?t] =>
             destruct (probe_subscribe_run s' k edev t) as (rc & E) end.
           rewrite E. cbn [self dom dev set_dom set_dev].
           destruct (is_err rc) eqn:Hrc.
           ++ eexists _, _, _. split; [rewrite <- !app_assoc; reflexivity|].
              rewrite <- Hgrp.
              refine (AL_iommu_client_fails s k edev nm dv dm rc _ Hrc). congruence.
           ++ apply is_err_false in Hrc. subst rc.
              eexists _, _, _. split; [rewrite <- !app_assoc; reflexivity|].
              rewrite <- Hgrp. refine (AL_iommu_done s k edev nm dv dm _). congruence.
        -- rewrite dref_dev_run. cbn [dev set_dom set_dev].
           eexists _, _, _. split; [rewrite <- !app_assoc; reflexivity|].
           rewrite <- Hgrp. refine (AL_domain_fails s k edev nm dv _). congruence.
      * rewrite cleanupirqs_run.
        eexists _, _, _. split; [rewrite <- !app_assoc; reflexivity|].
        exact (AL_group_missing s k edev nm dv Hgrp).
    + rewrite cleanupirqs_run.
      eexists _, _, _. split; [rewrite <- !app_assoc; reflexivity|].
      exact (AL_device_missing s k edev nm).
  - destruct (probe_subscribe_run s k edev
                (tr ++ [EvReadString (node edev) "iommu-device" None])) as (rc & E).
    rewrite E, Hdev, Hdom.
    destruct (is_err rc) eqn:Hrc.
    + eexists _, _, _. split; [rewrite <- !app_assoc; reflexivity|].
      exact (AL_plain_client_fails s k edev rc Hrc).
    + apply is_err_false in Hrc. subst rc.
      eexists _, _, _. split; [rewrite <- !app_assoc; reflexivity|].
      exact (AL_plain_done s k edev).
Qed.

Lemma probe_irqs_run s edev tr :
  dev s = None -> dom s = None ->
  exists s' k e evs rc edev' tail,
    probe_irqs s edev tr = ((rc, edev'), tr ++ evs ++ tail) /\
    loop_trace (node edev) s' 0 k e evs /\
    same_frame s s' /\
    (k <= Z.to_nat (irq_count s))%nat /\
    (e = None -> k = Z.to_nat (irq_count s)) /\
    (e <> None -> (k < Z.to_nat (irq_count s))%nat) /\
    after_loop s' k edev e rc edev' tail.
Proof.
  intros Hdev Hdom. unfold probe_irqs, bind.
  destruct (probe_irq_loop_run (node edev) (Z.to_nat (irq_count s)) 0 s 0 tr)
    as (e & s' & k & evs & E & Hl & Hk & Hnone & Hsome & Hf & _).
  rewrite E. cbn [Nat.add].
  destruct e as [rc|].
  - rewrite cleanupirqs_run. exists s', k, (Some rc), evs, rc, edev, (cleanup_events s' k).
    split; [rewrite <- app_assoc; reflexivity|].
    repeat (split; [assumption|]). apply AL_rollback.
  - destruct (probe_iommu_run s' k edev (tr ++ evs)) as (rc & edev' & tail & E' & Hal).
    + destruct Hf as (_&_&_&_&F&_). congruence.
    + destruct Hf as (_&_&_&_&_&F&_). congruence.
    + rewrite E'. exists s', k, None, evs, rc, edev', tail.
      split; [rewrite <- app_assoc; reflexivity|].
      repeat (split; [assumption|]). exact Hal.
Qed.

(** Every run of the probe is one of the outcomes. *)
Lemma platform_pt_probe_run g edev tr :
  exists rc edev' evs,
    platform_pt_probe g edev tr = ((rc, edev'), tr ++ evs) /\
    probe_outcome g edev rc edev' evs.
Proof.
  unfold platform_pt_probe. unfold bind at 1. unfold vmm_zalloc at 1. rewrite call_run.
  generalize (host_zalloc tr sizeof_platform_pt_state). intros [p|].
  2:{ eexists _, _, _. split; [reflexivity|]. apply PO_nomem. }
  cbv zeta.
  destruct (sizeof_name <=? snd (probe_name g edev (zeroed_state p)))%nat eqn:Hov.
  { apply Nat.leb_le in Hov. rewrite freestate_run.
    eexists _, _, _. split; [rewrite <- !app_assoc; reflexivity|].
    apply PO_overflow. exact Hov. }
  apply Nat.leb_gt in Hov.
  unfold bind at 1. unfold vmm_devtree_attrlen. rewrite call_run.
  match goal with |- context [host_attrlen ?t ?a ?b] =>
    generalize (host_attrlen t a b) end.
  intros n. fold (named_state g edev p). 
  change (set_host_type_irqs None (set_host_irqs None (set_guest_irqs None
            (set_irq_count
               (irq_count (set_irq_count (to_u32 n) (set_guest (Some g) (named_state g edev p)))
                / (sizeof_u32 * 2))
               (set_irq_count (to_u32 n) (set_guest (Some g) (named_state g edev p)))))))
    with (counted_state g edev p n).
  set (s := counted_state g edev p n).
  assert (Hdev : dev s = None) by reflexivity.
  assert (Hdom : dom s = None) by reflexivity.
  unfold probe_arrays.
  destruct (irq_count s =? 0) eqn:Hn.
  - apply Z.eqb_eq in Hn. cbn [negb].
    destruct (probe_irqs_run s edev
                (((tr ++ [EvZalloc sizeof_platform_pt_state (Some p)])
                  ++ [EvAttrlen (node edev) "host-interrupts" n])) Hdev Hdom)
      as (s' & k & e & evs & rc & edev' & tail & E & Hl & Hf & Hk & Hnone & Hsome & Hal).
    rewrite E. exists rc, edev', ([EvZalloc sizeof_platform_pt_state (Some p);
        EvAttrlen (node edev) "host-interrupts" n] ++ [] ++ evs ++ tail).
    split; [rewrite <- !app_assoc; reflexivity|].
    exact (PO_loop g edev p n s _ s' k e evs rc edev' tail
             Hov (LE_empty s Hn) Hl Hf Hk Hnone Hsome Hal).
  - apply Z.eqb_neq in Hn. cbn [negb].
    unfold bind at 1. unfold vmm_zalloc at 1. rewrite call_run.
    match goal with |- context [host_zalloc ?t ?a] => generalize (host_zalloc t a) end.
    intros [a1|].
    2:{ cbn [option_map]. rewrite freestate_run.
        exists VMM_ENOMEM, edev,
          [EvZalloc sizeof_platform_pt_state (Some p);
           EvAttrlen (node edev) "host-interrupts" n;
           EvZalloc (sizeof_u32 * irq_count s) None; EvFree p].
        split; [rewrite <- !app_assoc; reflexivity|].
        exact (PO_hirqs_nomem g edev p n Hov Hn). }
    cbn [option_map].
    unfold bind at 1. unfold vmm_zalloc at 1. rewrite call_run.
    match goal with |- context [host_zalloc ?t ?a] => generalize (host_zalloc t a) end.
    intros [a2|].
    2:{ cbn [option_map]. rewrite freehirqs_run.
        exists VMM_ENOMEM, edev,
          [EvZalloc sizeof_platform_pt_state (Some p);
           EvAttrlen (node edev) "host-interrupts" n;
           EvZalloc (sizeof_u32 * irq_count s) (Some a1);
           EvZalloc (sizeof_u32 * irq_count s) None; EvFree a1; EvFree p].
        split; [rewrite <- !app_assoc; reflexivity|].
        exact (PO_htirqs_nomem g edev p n a1 Hov Hn). }
    cbn [option_map].
    unfold bind at 1. unfold vmm_zalloc at 1. rewrite call_run.
    match goal with |- context [host_zalloc ?t ?a] => generalize (host_zalloc t a) end.
    intros [a3|].
    2:{ cbn [option_map]. rewrite freehtirqs_run.
        exists VMM_ENOMEM, edev,
          [EvZalloc sizeof_platform_pt_state (Some p);
           EvAttrlen (node edev) "host-interrupts" n;
           EvZalloc (sizeof_u32 * irq_count s) (Some a1);
           EvZalloc (sizeof_u32 * irq_count s) (Some a2);
           EvZalloc (sizeof_u32 * irq_count s) None;
           EvFree a2; EvFree a1; EvFree p].
        split; [rewrite <- !app_assoc; reflexivity|].
        exact (PO_girqs_nomem g edev p n a1 a2 Hov Hn). }
    cbn [option_map].
    match goal with |- context [probe_irqs ?s1 edev ?t] =>
      destruct (probe_irqs_run s1 edev t eq_refl eq_refl)
        as (s' & k & e & evs & rc & edev' & tail & E & Hl & Hf & Hk & Hnone & Hsome & Hal);
      rewrite E end.
    exists rc, edev', ([EvZalloc sizeof_platform_pt_state (Some p);
        EvAttrlen (node edev) "host-interrupts" n]
        ++ [EvZalloc (sizeof_u32 * irq_count s) (Some a1);
            EvZalloc (sizeof_u32 * irq_count s) (Some a2);
            EvZalloc (sizeof_u32 * irq_count s) (Some a3)] ++ evs ++ tail).
    split; [rewrite <- !app_assoc; reflexivity|].
    exact (PO_loop g edev p n (with_arrays s a1 a2 a3) _ s' k e evs rc edev' tail
             Hov (LE_arrays s a1 a2 a3 Hn) Hl Hf Hk Hnone Hsome Hal).
Qed.

End ProbeRun.

(** ** Resources along an outcome of the probe *)

Lemma omap_none_forall {A B} (f : A -> option B) (l : list A) :
  Forall (fun x => f x = None) l -> omap f l = [].
Proof.
  induction 1 as [|x l Hx _ IH]; [reflexivity|]. simpl. rewrite Hx. exact IH.
Qed.

Lemma quiet_no_failure x err : is_quiet x = true -> ~ failure_of x err.
Proof.
  unfold failure_of, is_quiet. destruct x; simpl; intros Hq [Hf|Hf]; congruence.
Qed.

Lemma cleanup_events_kind s k :
  Forall (fun e => is_cleanup_event e = true) (cleanup_events s k).
Proof.
  unfold cleanup_events, unregister_events. rewrite !Forall_app.
  repeat split.
  - apply Forall_flat_map, Forall_forall. intros j _. repeat constructor.
  - destruct (guest_irqs s); repeat constructor.
  - destruct (host_type_irqs s); repeat constructor.
  - destruct (host_irqs s); repeat constructor.
  - repeat constructor.
Qed.

Lemma cleanup_domains s k R : foldl domain_step R (cleanup_events s k) = R.
Proof.
  apply (foldl_neutral domain_step is_cleanup_event); [|apply cleanup_events_kind].
  intros R' e. destruct e; simpl; try discriminate; reflexivity.
Qed.

Lemma cleanup_clients s k R : foldl client_step R (cleanup_events s k) = R.
Proof.
  apply (foldl_neutral client_step is_cleanup_event); [|apply cleanup_events_kind].
  intros R' e. destruct e; simpl; try discriminate; reflexivity.
Qed.

Lemma cleanup_refs s k d c : foldl (ref_step d) c (cleanup_events s k) = c.
Proof.
  apply (foldl_neutral (ref_step d) is_cleanup_event); [|apply cleanup_events_kind].
  intros R' e. destruct e; simpl; try discriminate; reflexivity.
Qed.

Lemma cleanup_registered s k : registered_ok (cleanup_events s k) = [].
Proof.
  apply omap_none_forall. eapply Forall_impl; [apply cleanup_events_kind|].
  intros e. destruct e; simpl; try discriminate; reflexivity.
Qed.

Lemma cleanup_unregistered s k :
  unregistered (cleanup_events s k)
  = map (fun j => (arr_get (host_irqs s) j, self s)) (seq 0 k).
Proof.
  unfold cleanup_events, unregistered. rewrite !omap_app.
  fold (unregistered (unregister_events s k)). rewrite unregister_events_unregistered.
  destruct (guest_irqs s), (host_type_irqs s), (host_irqs s); simpl;
    rewrite app_nil_r; reflexivity.
Qed.

Lemma filter_nil_forall {A} (P : A -> bool) (l : list A) :
  Forall (fun x => P x = false) l -> List.filter P l = [].
Proof.
  induction 1 as [|x l Hx _ IH]; [reflexivity|]. simpl. rewrite Hx. exact IH.
Qed.

Lemma stage_events_app l1 l2 : stage_events (l1 ++ l2) = stage_events l1 ++ stage_events l2.
Proof. apply List.filter_app. Qed.

Lemma cleanup_stage s k : stage_events (cleanup_events s k) = [].
Proof.
  apply filter_nil_forall. eapply Forall_impl; [apply cleanup_events_kind|].
  intros e. destruct e; simpl; try discriminate; reflexivity.
Qed.

Lemma stage_events_elem x evs :
  is_stage_event x = true -> x ∈ evs -> x ∈ stage_events evs.
Proof.
  intros Hs Hx. apply list_elem_of_In, List.filter_In.
  split; [apply list_elem_of_In; exact Hx|exact Hs].
Qed.

Lemma stage_events_sub x evs : x ∈ stage_events evs -> x ∈ evs.
Proof.
  intros Hx. apply list_elem_of_In, List.filter_In in Hx.
  apply list_elem_of_In. tauto.
Qed.

Lemma routed_lines_app tr evs :
  routed_lines (tr ++ evs) = foldl routed_step (routed_lines tr) evs.
Proof. apply foldl_app. Qed.

Lemma irq_handlers_app tr evs :
  irq_handlers (tr ++ evs) = foldl handler_step (irq_handlers tr) evs.
Proof. apply foldl_app. Qed.

Lemma live_blocks_app tr evs :
  live_blocks (tr ++ evs) = foldl heap_step (live_blocks tr) evs.
Proof. apply foldl_app. Qed.

Lemma live_domains_app tr evs :
  live_domains (tr ++ evs) = foldl domain_step (live_domains tr) evs.
Proof. apply foldl_app. Qed.

Lemma aspace_clients_app tr evs :
  aspace_clients (tr ++ evs) = foldl client_step (aspace_clients tr) evs.
Proof. apply foldl_app. Qed.

Lemma device_refs_app tr evs d :
  device_refs (tr ++ evs) d = foldl (ref_step d) (device_refs tr d) evs.
Proof. apply foldl_app. Qed.

Lemma same_frame_held s s' : same_frame s s' -> held_blocks s' = held_blocks s.
Proof.
  intros (F1&_&_&_&_&_&_&F8&F9&F10). unfold held_blocks. rewrite F1.
  assert (E : forall a b, option_map arr_ptr a = option_map arr_ptr b ->
                          array_block a = array_block b).
  { intros [a|] [b|]; simpl; congruence. }
  rewrite (E _ _ F8), (E _ _ F9), (E _ _ F10). reflexivity.
Qed.

Section Released.
Context `{Host}.

(** The effect of what follows the loop, when the probe fails. *)
Lemma after_loop_failed s k edev e rc edev' tail :
  after_loop s k edev e rc edev' tail -> rc <> 0 ->
  edev' = edev /\
  (forall R, foldl routed_step R tail = R ∖ lines s 0 k) /\
  (forall R, foldl handler_step R tail = R ∖ handler_keys s 0 k) /\
  (forall R, foldl heap_step R tail = R ∖ held_blocks s) /\
  (forall R, foldl domain_step R tail ⊆ R) /\
  (forall R, foldl client_step R tail ⊆ R) /\
  (forall d c, foldl (ref_step d) c tail = c) /\
  registered_ok tail = [] /\
  unregistered tail = map (fun j => (arr_get (host_irqs s) j, self s)) (seq 0 k).
Proof.
  intros Hal Hrc.
  destruct Hal as [rc| |rc Hr|nm|nm dv Hg|nm dv Hg|nm dv dm rc Hg Hr|nm dv dm Hg];
    try (exfalso; apply Hrc; reflexivity);
    (split; [reflexivity|]);
    unfold registered_ok, unregistered;
    repeat split; intros;
    rewrite ?foldl_app, ?omap_app;
    fold (registered_ok (cleanup_events s k));
    fold (unregistered (cleanup_events s k));
    rewrite ?cleanup_routed, ?cleanup_handlers, ?cleanup_heap, ?cleanup_domains,
      ?cleanup_clients, ?cleanup_refs, ?cleanup_registered, ?cleanup_unregistered;
    cbn; rewrite ?Hr; try reflexivity; try set_solver.
  - destruct (dev_addr dv =? d)%nat; lia.
  - destruct (dev_addr dv =? d)%nat; lia.
Qed.

Lemma after_loop_rollback s k edev c rc edev' tail :
  after_loop s k edev (Some c) rc edev' tail ->
  rc = c /\ edev' = edev /\ tail = cleanup_events s k.
Proof. inversion 1; subst; repeat split; reflexivity. Qed.

Lemma after_loop_quiet s k edev e rc edev' tail :
  after_loop s k edev e rc edev' tail -> Forall (fun x => is_quiet x = true) tail.
Proof.
  intros []; rewrite ?Forall_app; repeat split;
    try apply cleanup_events_quiet; repeat constructor.
Qed.

Lemma loop_entry_quiet s s0 pre :
  loop_entry s s0 pre -> Forall (fun x => is_quiet x = true) pre.
Proof. intros []; repeat constructor. Qed.

Lemma loop_entry_heap s s0 pre R :
  loop_entry s s0 pre ->
  host_irqs s = None -> host_type_irqs s = None -> guest_irqs s = None ->
  foldl heap_step ({[self s]} ∪ R) pre = held_blocks s0 ∪ R /\
  (forall R, foldl routed_step R pre = R) /\
  (forall R, foldl handler_step R pre = R) /\
  (forall R, foldl domain_step R pre = R) /\
  (forall R, foldl client_step R pre = R) /\
  (forall d c, foldl (ref_step d) c pre = c) /\
  registered_ok pre = [] /\ unregistered pre = [] /\ stage_events pre = [] /\
  irq_count s0 = irq_count s /\ self s0 = self s /\ dev s0 = dev s /\ dom s0 = dom s.
Proof.
  intros [Hn|a1 a2 a3 Hn] E1 E2 E3.
  - unfold held_blocks. rewrite E1, E2, E3. simpl.
    repeat split; try reflexivity. set_solver.
  - unfold held_blocks. simpl. repeat split; try reflexivity. set_solver.
Qed.

Lemma loop_trace_neutral nd s i m e evs :
  loop_trace nd s i m e evs ->
  (forall R, foldl heap_step R evs = R) /\
  (forall R, foldl domain_step R evs = R) /\
  (forall R, foldl client_step R evs = R) /\
  (forall d c, foldl (ref_step d) c evs = c) /\
  unregistered evs = [] /\ stage_events evs = [].
Proof.
  intros Hl. pose proof (loop_trace_kind _ _ _ _ _ _ Hl) as Hk.
  repeat split; intros.
  - apply (foldl_neutral heap_step is_loop_event); [|exact Hk].
    intros R' x. destruct x; simpl; try discriminate; reflexivity.
  - apply (foldl_neutral domain_step is_loop_event); [|exact Hk].
    intros R' x. destruct x; simpl; try discriminate; reflexivity.
  - apply (foldl_neutral client_step is_loop_event); [|exact Hk].
    intros R' x. destruct x; simpl; try discriminate; reflexivity.
  - apply (foldl_neutral (ref_step d) is_loop_event); [|exact Hk].
    intros R' x. destruct x; simpl; try discriminate; reflexivity.
  - apply omap_none_forall. eapply Forall_impl; [exact Hk|].
    intros x. destruct x; simpl; try discriminate; reflexivity.
  - apply filter_nil_forall. eapply Forall_impl; [exact Hk|].
    intros x. destruct x; simpl; try discriminate; reflexivity.
Qed.

(** A probe that fails leaves nothing behind: the device slot is as it was,
    no line is routed, no handler installed, no block or domain live, no
    client subscribed, every device has the references it had, and the lines
    unregistered are the lines that had been registered. *)
Lemma probe_outcome_released g edev rc edev' evs tr :
  probe_outcome g edev rc edev' evs -> rc <> 0 -> no_resources tr ->
  edev' = edev /\ no_resources (tr ++ evs) /\
  (forall d, device_refs (tr ++ evs) d = device_refs tr d) /\
  unregistered evs = registered_ok evs.
Proof.
  intros Ho Hrc (N1 & N2 & N3 & N4 & N5).
  unfold no_resources.
  rewrite routed_lines_app, irq_handlers_app, live_blocks_app, live_domains_app,
    aspace_clients_app, N1, N2, N3, N4, N5.
  destruct Ho as [|p Hov|p n Hov Hn|p n a1 Hov Hn|p n a1 a2 Hov Hn
                  |p n s0 pre s' k e lev rc edev' tail Hov Hentry Hl Hf Hk Hnone Hsome Hal].
  1-5: split; [reflexivity|]; split;
    [cbn [foldl routed_step handler_step heap_step domain_step client_step];
     repeat split; set_solver
    |split; [intros d; rewrite device_refs_app; reflexivity|reflexivity]].
  destruct (after_loop_failed _ _ _ _ _ _ _ Hal Hrc)
    as (-> & T1 & T2 & T3 & T4 & T5 & T6 & T7 & T8).
  destruct (loop_entry_heap _ _ _ ∅ Hentry eq_refl eq_refl eq_refl)
    as (P0 & P1 & P2 & P3 & P4 & P5 & P6 & P7 & _).
  destruct (loop_trace_neutral _ _ _ _ _ _ Hl) as (L1 & L2 & L3 & L4 & L5 & _).
  pose proof (loop_trace_routed _ _ _ _ _ _ ∅ Hl) as Lr.
  pose proof (loop_trace_handlers _ _ _ _ _ _ ∅ Hl) as Lh.
  pose proof (loop_trace_registered _ _ _ _ _ _ Hl) as Lreg.
  pose proof (same_frame_held _ _ Hf) as Hheld.
  split; [reflexivity|].
  rewrite !foldl_app. cbn [foldl routed_step handler_step heap_step domain_step client_step].
  rewrite P1, P2, P3, P4, T1, T2, T3, L1, L2, L3.
  change (self (counted_state g edev p n)) with p in P0. rewrite P0, Hheld.
  specialize (T4 ∅). specialize (T5 ∅).
  split; [|split].
  - split; [clear -Lr; set_solver|]. split; [clear -Lh; set_solver|].
    split; [clear; set_solver|]. split; [clear -T4; set_solver|clear -T5; set_solver].
  - intros d. rewrite device_refs_app, !foldl_app.
    cbn [foldl ref_step]. rewrite P5, L4, T6. reflexivity.
  - unfold unregistered, registered_ok in *. rewrite !omap_app.
    cbn [omap list_omap]. rewrite P6, P7, L5, Lreg, T7, T8.
    cbn. rewrite !app_nil_r. reflexivity.
Qed.

(** A failed read or registration step ends the probe with its error, after
    the rollback of the [k] lines registered so far. *)
Lemma probe_outcome_failure g edev rc edev' evs x err :
  probe_outcome g edev rc edev' evs -> x ∈ evs -> failure_of x err ->
  exists s k pre lev,
    evs = pre ++ lev ++ cleanup_events s k /\
    rc = err /\ err <> 0 /\
    Forall (fun e => is_quiet e = true) pre /\
    loop_trace (node edev) s 0 k (Some err) lev /\
    (k < Z.to_nat (irq_count s))%nat /\
    x ∈ lev.
Proof.
  intros Ho Hx Hfail.
  assert (Hq : forall l, Forall (fun e => is_quiet e = true) l -> x ∈ l -> False).
  { intros l Hall Hin. rewrite Forall_forall in Hall.
    apply (quiet_no_failure x err (Hall x Hin) Hfail). }
  destruct Ho as [|p Hov|p n Hov Hn|p n a1 Hov Hn|p n a1 a2 Hov Hn
                  |p n s0 pre s' k e lev rc edev' tail Hov Hentry Hl Hf Hk Hnone Hsome Hal].
  1-5: exfalso; eapply Hq; [|exact Hx]; repeat constructor.
  pose proof (loop_entry_quiet _ _ _ Hentry) as Qpre.
  pose proof (after_loop_quiet _ _ _ _ _ _ _ Hal) as Qtail.
  rewrite !elem_of_app in Hx. destruct Hx as [Hx|[Hx|[Hx|Hx]]].
  - exfalso. eapply Hq; [|exact Hx]. repeat constructor.
  - exfalso. apply (Hq _ Qpre Hx).
  - pose proof (loop_trace_failures _ _ _ _ _ _ _ _ Hl Hx Hfail) as ->.
    destruct (after_loop_rollback _ _ _ _ _ _ _ Hal) as (-> & -> & ->).
    exists s', k, ([EvZalloc sizeof_platform_pt_state (Some p);
                    EvAttrlen (node edev) "host-interrupts" n] ++ pre), lev.
    split; [rewrite <- !app_assoc; reflexivity|]. split; [reflexivity|].
    split; [apply is_err_true, (loop_trace_error _ _ _ _ _ _ Hl)|].
    split; [apply Forall_app; split; [repeat constructor|exact Qpre]|].
    split; [exact Hl|]. split; [|exact Hx].
    destruct Hf as (_&_&_&F4&_). rewrite F4. apply Hsome. discriminate.
  - exfalso. apply (Hq _ Qtail Hx).
Qed.

End Released.

Lemma quiet_not_registered (l : list event) :
  Forall (fun e => is_quiet e = true) l -> registered_ok l = [].
Proof.
  intros Hq. apply omap_none_forall. eapply Forall_impl; [exact Hq|].
  intros e. unfold is_quiet. destruct e; simpl; try discriminate; reflexivity.
Qed.

Section ProbeTheorems.
Context `{Host}.

(** A failed read or registration step, seen from the whole probe. *)
Lemma probe_loop_failure g edev tr x err :
  no_resources tr ->
  x ∈ events_of (platform_pt_probe g edev) tr ->
  failure_of x err ->
  exists s k pre lev,
    platform_pt_probe g edev tr
    = ((err, edev), tr ++ pre ++ lev ++ cleanup_events s k) /\
    err <> VMM_OK /\
    Forall (fun e => is_quiet e = true) pre /\
    loop_trace (node edev) s 0 k (Some err) lev /\
    (k < Z.to_nat (irq_count s))%nat /\
    x ∈ lev /\
    no_resources (tr ++ pre ++ lev ++ cleanup_events s k).
Proof.
  intros Hclean Hx Hfail.
  destruct (platform_pt_probe_run g edev tr) as (rc & edev' & evs & E & Ho).
  rewrite (events_of_app _ _ _ _ E) in Hx.
  destruct (probe_outcome_failure _ _ _ _ _ _ _ Ho Hx Hfail)
    as (s & k & pre & lev & Eevs & -> & Herr & Hq & Hl & Hk & Hlev).
  destruct (probe_outcome_released _ _ _ _ _ tr Ho Herr Hclean) as (-> & Hres & _).
  subst evs. exists s, k, pre, lev. rewrite E.
  split; [reflexivity|]. split; [exact Herr|]. split; [exact Hq|].
  split; [exact Hl|]. split; [exact Hk|]. split; [exact Hlev|exact Hres].
Qed.

(** C1: a registration step (type-set, routed claim or handler install) that
    fails during probe.  The step is on the host line of an index [k] below
    the number of triples, reached after [k] lines were registered.  The probe
    returns the error of that step and attaches no instance.  Before it
    returns it makes the calls of [cleanup_events s k]: it unregisters and
    unmarks the host lines of the indices [0, k), which are exactly the lines
    registered so far, and frees the three arrays and the instance.
    Afterwards no line is routed, no handler is installed and no block is
    live. *)
Theorem probe_irq_failure_rollback (g : vmm_guest) (edev : vmm_emudev)
    (tr : list event) (x : event) (err : Z) :
  no_resources tr ->
  x ∈ events_of (platform_pt_probe g edev) tr ->
  irq_step_failure x = Some err ->
  exists s k pre,
    platform_pt_probe g edev tr = ((err, edev), tr ++ pre ++ cleanup_events s k) /\
    err <> VMM_OK /\
    (k < Z.to_nat (irq_count s))%nat /\
    step_line x = Some (arr_get (host_irqs s) k) /\
    registered_ok pre = map (fun j => (arr_get (host_irqs s) j, self s)) (seq 0 k) /\
    no_resources (tr ++ pre ++ cleanup_events s k).
Proof.
  intros Hclean Hx Hfail.
  destruct (probe_loop_failure g edev tr x err Hclean Hx (or_introl Hfail))
    as (s & k & pre & lev & E & Herr & Hq & Hl & Hk & Hlev & Hres).
  exists s, k, (pre ++ lev). rewrite <- !app_assoc.
  split; [exact E|]. split; [exact Herr|]. split; [exact Hk|].
  split; [apply (loop_trace_failure_line _ _ _ _ _ _ _ _ Hl Hlev Hfail)|].
  split; [|exact Hres].
  unfold registered_ok. rewrite omap_app.
  fold (registered_ok pre). fold (registered_ok lev).
  rewrite (quiet_not_registered _ Hq), (loop_trace_registered _ _ _ _ _ _ Hl).
  reflexivity.
Qed.



End ProbeTheorems.

(** ** The name of the instance *)

Lemma substring_0_length (n : nat) (s : string) :
  String.length (substring 0 n s) = Nat.min n (String.length s).
Proof.
  revert s. induction n as [|n IH]; intros [|c s]; simpl; try reflexivity.
  rewrite IH. reflexivity.
Qed.

Lemma append_length (s1 s2 : string) :
  String.length (s1 +:+ s2) = (String.length s1 + String.length s2)%nat.
Proof. induction s1 as [|c s1 IH]; simpl; [reflexivity|]. rewrite IH. reflexivity. Qed.

Lemma strlcpy_length (dest src : string) (n : nat) :
  String.length (fst (strlcpy dest src (S n))) = Nat.min n (String.length src).
Proof. unfold strlcpy. cbn [fst]. apply substring_0_length. Qed.

Lemma strlcat_length (dest src : string) (size : nat) :
  (String.length dest < size)%nat ->
  String.length (fst (strlcat dest src size))
  = (String.length dest + Nat.min (size - String.length dest - 1) (String.length src))%nat.
Proof.
  intros Hlt. unfold strlcat. cbv zeta.
  destruct (size <=? String.length dest)%nat eqn:Hc; [apply Nat.leb_le in Hc; lia|].
  cbn [fst]. rewrite append_length, substring_0_length. reflexivity.
Qed.

Lemma strlcat_result (dest src : string) (size : nat) :
  (String.length dest < size)%nat ->
  snd (strlcat dest src size) = (String.length dest + String.length src)%nat.
Proof.
  intros Hlt. unfold strlcat. cbv zeta.
  destruct (size <=? String.length dest)%nat eqn:Hc; [apply Nat.leb_le in Hc; lia|].
  reflexivity.
Qed.

(** The value the last [strlcat] of the probe returns. *)
Lemma probe_name_result (g : vmm_guest) (edev : vmm_emudev) (p : nat) :
  snd (probe_name g edev (zeroed_state p))
  = (Nat.min (String.length (guest_name g)) 63
     + (if (String.length (guest_name g) <? 63)%nat then 1 else 0)
     + String.length (node_name (node edev)))%nat.
Proof.
  unfold probe_name, sizeof_name. cbv zeta.
  set (n1 := fst (strlcpy (name (zeroed_state p)) (guest_name g) 64)).
  assert (L1 : String.length n1 = Nat.min 63 (String.length (guest_name g)))
    by apply strlcpy_length.
  set (n2 := fst (strlcat n1 "/" 64)).
  assert (L2 : String.length n2
               = (String.length n1 + Nat.min (64 - String.length n1 - 1) 1)%nat)
    by (apply strlcat_length; lia).
  rewrite strlcat_result by lia. rewrite L2, L1.
  destruct (String.length (guest_name g) <? 63)%nat eqn:Hlt.
  - apply Nat.ltb_lt in Hlt. lia.
  - apply Nat.ltb_ge in Hlt. lia.
Qed.

(** C6, how far the specification holds: unless the guest name has 63 characters or
    more and the node name is empty, the probe sees an overflow exactly when
    the concatenation does not fit the capacity. *)
Lemma probe_name_detects (g : vmm_guest) (edev : vmm_emudev) (p : nat) :
  (String.length (guest_name g) <= 62)%nat \/
  (1 <= String.length (node_name (node edev)))%nat ->
  (sizeof_name <= snd (probe_name g edev (zeroed_state p)))%nat <->
  (sizeof_name <= String.length (guest_name g) + 1
                  + String.length (node_name (node edev)))%nat.
Proof.
  intros Hcase. rewrite probe_name_result. unfold sizeof_name.
  destruct (String.length (guest_name g) <? 63)%nat eqn:Hlt.
  - apply Nat.ltb_lt in Hlt. lia.
  - apply Nat.ltb_ge in Hlt. lia.
Qed.

Lemma line_types_app tr evs :
  line_types (tr ++ evs) = foldl type_step (line_types tr) evs.
Proof. apply foldl_app. Qed.

Section RegisterTheorems.
Context `{Host}.

(** C5, as the code has it.  The registration of index [i] calls type-set,
    then routed claim, then handler install, and stops at the first that
    fails, returning its error ([register_outcome]).  After a failure no
    handler of this index is installed and no line has become routed: when
    the install fails, the routed claim is released before returning.  A
    type-set that succeeded is not undone: the line keeps the type that was
    set. *)
Theorem register_irq_undo (i : nat) (s : platform_pt_state) (tr : list event) :
  exists e evs,
    probe_register_irq i s tr = (e, tr ++ evs) /\
    register_outcome (arr_get (host_irqs s) i) (arr_get (host_type_irqs s) i)
                     (name s) (self s) e evs /\
    (forall rc, e = Some rc ->
       rc <> VMM_OK /\
       irq_handlers (tr ++ evs) = irq_handlers tr /\
       routed_lines (tr ++ evs) ⊆ routed_lines tr /\
       (EvRegister (arr_get (host_irqs s) i) (name s) (self s) rc ∈ evs ->
        arr_get (host_irqs s) i ∉ routed_lines (tr ++ evs)) /\
       (EvSetType (arr_get (host_irqs s) i) (arr_get (host_type_irqs s) i) 0 ∈ evs ->
        line_types (tr ++ evs) !! arr_get (host_irqs s) i
        = Some (arr_get (host_type_irqs s) i))).
Proof.
  destruct (register_irq_run i s tr) as (e & evs & E & Ho).
  exists e, evs. split; [exact E|]. split; [exact Ho|].
  intros rc0 ->.
  rewrite irq_handlers_app, routed_lines_app, line_types_app.
  set (h := arr_get (host_irqs s) i) in *.
  set (t := arr_get (host_type_irqs s) i) in *.
  inversion Ho as [rc Hrc|rc Hrc|rc Hrc|]; subst;
    (split; [apply is_err_true; exact Hrc|]);
    cbn [foldl routed_step handler_step type_step];
    change (is_err 0) with false; rewrite ?Hrc; cbn iota.
  - split; [reflexivity|]. split; [reflexivity|]. split.
    + intros Hin. apply elem_of_cons in Hin. destruct Hin as [Hin|Hin];
        [discriminate|]. apply elem_of_nil in Hin. contradiction.
    + intros Hin. apply elem_of_cons in Hin. destruct Hin as [Hin|Hin].
      * injection Hin as <-. discriminate.
      * apply elem_of_nil in Hin. contradiction.
  - split; [reflexivity|]. split; [reflexivity|]. split.
    + intros Hin. repeat (apply elem_of_cons in Hin; destruct Hin as [Hin|Hin];
        [discriminate|]). apply elem_of_nil in Hin. contradiction.
    + intros _. apply lookup_insert_eq.
  - split; [reflexivity|]. split; [set_solver|]. split.
    + intros _. set_solver.
    + intros _. apply lookup_insert_eq.
Qed.

End RegisterTheorems.

(** C5, as the specification states it, fails: with the routed claim of host line 5
    failing, the registration returns the error after two calls, the type-set
    and the failed claim, and the trigger type 4 it has set on the line, which
    had none, stays set. *)
Lemma register_irq_type_not_undone :
  let r := probe_register_irq (H := scenario_host sc_claim_fails) 0 state_two_lines [] in
  fst r = Some VMM_EFAIL /\
  snd r = [EvSetType 5 4 0; EvMarkRouted 5 VMM_EFAIL] /\
  line_types [] !! 5 = None /\
  line_types (snd r) !! 5 = Some 4.
Proof. vm_compute. repeat split; reflexivity. Qed.

(** C6, the example of the specification: guest "g0" and node "eth0". *)
Lemma probe_name_example :
  probe_name guest_g0 edev_eth0 (zeroed_state 1) = ("g0/eth0", 7%nat).
Proof. reflexivity. Qed.

(** C6, the part that holds: when the last [strlcat] reports a name that
    does not fit, the probe frees the instance and returns Overflow, and it
    has allocated nothing else. *)
Lemma probe_overflow_before_arrays `{Host} (g : vmm_guest) (edev : vmm_emudev)
    (tr : list event) (p : nat) :
  host_zalloc tr sizeof_platform_pt_state = Some p ->
  (sizeof_name <= snd (probe_name g edev (zeroed_state p)))%nat ->
  platform_pt_probe g edev tr
  = ((VMM_EOVERFLOW, edev),
     tr ++ [EvZalloc sizeof_platform_pt_state (Some p); EvFree p]).
Proof.
  intros Hz Hov. unfold platform_pt_probe, bind, vmm_zalloc.
  rewrite call_run, Hz. cbv zeta.
  apply Nat.leb_le in Hov. rewrite Hov.
  rewrite freestate_run, <- app_assoc. reflexivity.
Qed.

(** C6, where the code departs from the specification: a guest name of 63
    characters and an empty node name.  The concatenation with "/" has 64
    characters and does not fit the 64 bytes of the name, yet the last
    [strlcat] returns 63, the probe goes on and succeeds, and the name of the
    instance is the guest name alone. *)
Theorem probe_name_overflow_missed :
  let r := platform_pt_probe (H := scenario_host sc_no_lines)
             guest_long edev_unnamed [] in
  (sizeof_name <= String.length (guest_name guest_long) + 1
                  + String.length (node_name (node edev_unnamed)))%nat /\
  snd (probe_name guest_long edev_unnamed (zeroed_state 1)) = 63%nat /\
  fst (fst r) = VMM_OK /\
  option_map name (priv (snd (fst r))) = Some long_name.
Proof. vm_compute. repeat split; reflexivity. Qed.

(** Membership in an explicit list: one case per element, the impossible
    ones closed. *)
Ltac mem_cases H :=
  repeat (apply elem_of_cons in H; destruct H as [H|H]; [try discriminate H|]);
  try (apply elem_of_nil in H; contradiction).

Section IommuTheorems.
Context `{Host}.

Lemma after_loop_stage s k edev e rc edev' tail :
  after_loop s k edev e rc edev' tail ->
  exists stage, stage_events tail = stage /\
    match e with
    | Some _ => stage = []
    | None =>
        (rc = VMM_OK /\ edev' = attach edev (subscribed s) /\
         stage = [EvReadString (node edev) "iommu-device" None;
                  EvRegisterClient (self s) 0]) \/
        (exists c, is_err c = true /\ rc = c /\
         stage = [EvReadString (node edev) "iommu-device" None;
                  EvRegisterClient (self s) c]) \/
        (exists nm, rc = VMM_EINVALID /\
         stage = [EvReadString (node edev) "iommu-device" (Some nm);
                  EvFindDevice nm None]) \/
        (exists nm dv, iommu_group dv = None /\ rc = VMM_EINVALID /\
         stage = [EvReadString (node edev) "iommu-device" (Some nm);
                  EvFindDevice nm (Some dv)]) \/
        (exists nm dv, iommu_group dv <> None /\ rc = VMM_EFAIL /\
         stage = [EvReadString (node edev) "iommu-device" (Some nm);
                  EvFindDevice nm (Some dv);
                  EvRefDevice (dev_addr dv);
                  EvDomainAlloc (iommu_group dv) VMM_IOMMU_DOMAIN_UNMANAGED None;
                  EvDrefDevice (dev_addr dv)]) \/
        (exists nm dv dm c, iommu_group dv <> None /\ is_err c = true /\ rc = c /\
         stage = [EvReadString (node edev) "iommu-device" (Some nm);
                  EvFindDevice nm (Some dv);
                  EvRefDevice (dev_addr dv);
                  EvDomainAlloc (iommu_group dv) VMM_IOMMU_DOMAIN_UNMANAGED (Some dm);
                  EvSetFaultHandler dm (self s);
                  EvRegisterClient (self s) c;
                  EvDomainFree dm;
                  EvDrefDevice (dev_addr dv)]) \/
        (exists nm dv dm, iommu_group dv <> None /\ rc = VMM_OK /\
         edev' = attach edev (subscribed (set_dom (Some dm) (set_dev (Some dv) s))) /\
         stage = [EvReadString (node edev) "iommu-device" (Some nm);
                  EvFindDevice nm (Some dv);
                  EvRefDevice (dev_addr dv);
                  EvDomainAlloc (iommu_group dv) VMM_IOMMU_DOMAIN_UNMANAGED (Some dm);
                  EvSetFaultHandler dm (self s);
                  EvRegisterClient (self s) 0])
    end.
Proof.
  intros Hal. eexists. split; [reflexivity|].
  destruct Hal as [rc| |rc Hr|nm|nm dv Hg|nm dv Hg|nm dv dm rc Hg Hr|nm dv dm Hg];
    rewrite ?stage_events_app, ?cleanup_stage, ?app_nil_r.
  - reflexivity.
  - left. repeat split; reflexivity.
  - right; left. exists rc. repeat split; try assumption; reflexivity.
  - do 2 right; left. exists nm. repeat split; reflexivity.
  - do 3 right; left. exists nm, dv. repeat split; try assumption; reflexivity.
  - do 4 right; left. exists nm, dv. repeat split; try assumption; reflexivity.
  - do 5 right; left. exists nm, dv, dm, rc. repeat split; try assumption; reflexivity.
  - do 6 right. exists nm, dv, dm. repeat split; try assumption; reflexivity.
Qed.

Lemma probe_outcome_stage g edev rc edev' evs :
  probe_outcome g edev rc edev' evs ->
  stage_events evs = [] \/
  exists s k e tail,
    after_loop s k edev e rc edev' tail /\ stage_events evs = stage_events tail.
Proof.
  intros Ho.
  destruct Ho as [|p Hov|p n Hov Hn|p n a1 Hov Hn|p n a1 a2 Hov Hn
                  |p n s0 pre s' k e lev rc edev' tail Hov Hentry Hl Hf Hk Hnone Hsome Hal].
  1-5: left; reflexivity.
  right. exists s', k, e, tail. split; [exact Hal|].
  rewrite !stage_events_app.
  destruct (loop_entry_heap _ _ _ ∅ Hentry eq_refl eq_refl eq_refl)
    as (_&_&_&_&_&_&_&_&Hpre&_).
  destruct (loop_trace_neutral _ _ _ _ _ _ Hl) as (_&_&_&_&_&Hlev).
  rewrite Hpre, Hlev. reflexivity.
Qed.

(** C7: the probe with an IOMMU device name [nm] configured (it reads the
    name at the IOMMU stage).  Once the name is read the probe asks the
    registry for the device, and [res] is the answer.  The calls of the stage
    ([stage_events], in order) and the return are then as follows.  If the
    registry does not know the device, or knows a device without IOMMU group,
    the stage ends with the lookup: the probe returns InvalidConfig and has
    acquired no device reference.  Otherwise the probe acquires a reference
    on the device and asks for an unmanaged domain bound to its group, and
    [dres] is the answer.  If no domain is allocated, the probe releases the
    reference and returns Failure.  If a domain [dm] is allocated, the probe
    installs the fault handler on [dm] with the structure [p] as context and
    subscribes [p]; when the subscription fails it frees the domain, releases
    the reference and returns the error, and when it succeeds the probe
    returns success with the structure attached, which holds the device and
    the domain.  Every failure goes through the full rollback ([released]):
    no instance is attached, the lines unregistered are all the lines that
    had been registered, every device has the references it had before, and
    no line is routed, no handler installed, no block or domain live. *)
Theorem probe_iommu_unwind (g : vmm_guest) (edev : vmm_emudev) (tr : list event)
    (nm : string) :
  no_resources tr ->
  EvReadString (node edev) "iommu-device" (Some nm)
    ∈ events_of (platform_pt_probe g edev) tr ->
  exists rc edev' evs res,
    platform_pt_probe g edev tr = ((rc, edev'), tr ++ evs) /\
    let released :=
      edev' = edev /\ unregistered evs = registered_ok evs /\
      (forall d, device_refs (tr ++ evs) d = device_refs tr d) /\
      no_resources (tr ++ evs) in
    match res with
    | None =>
        stage_events evs
        = [EvReadString (node edev) "iommu-device" (Some nm); EvFindDevice nm None] /\
        rc = VMM_EINVALID /\ (forall d, EvRefDevice d ∉ evs) /\ released
    | Some dv =>
        match iommu_group dv with
        | None =>
            stage_events evs
            = [EvReadString (node edev) "iommu-device" (Some nm);
               EvFindDevice nm (Some dv)] /\
            rc = VMM_EINVALID /\ (forall d, EvRefDevice d ∉ evs) /\ released
        | Some grp =>
            exists dres,
              match dres with
              | None =>
                  stage_events evs
                  = [EvReadString (node edev) "iommu-device" (Some nm);
                     EvFindDevice nm (Some dv);
                     EvRefDevice (dev_addr dv);
                     EvDomainAlloc (Some grp) VMM_IOMMU_DOMAIN_UNMANAGED None;
                     EvDrefDevice (dev_addr dv)] /\
                  rc = VMM_EFAIL /\ released
              | Some dm =>
                  exists p c,
                    stage_events evs
                    = [EvReadString (node edev) "iommu-device" (Some nm);
                       EvFindDevice nm (Some dv);
                       EvRefDevice (dev_addr dv);
                       EvDomainAlloc (Some grp) VMM_IOMMU_DOMAIN_UNMANAGED (Some dm);
                       EvSetFaultHandler dm p;
                       EvRegisterClient p c]
                      ++ (if is_err c
                          then [EvDomainFree dm; EvDrefDevice (dev_addr dv)]
                          else []) /\
                    if is_err c then rc = c /\ released
                    else rc = VMM_OK /\
                         exists s, priv edev' = Some s /\ self s = p /\
                                   dev s = Some dv /\ dom s = Some dm
              end
        end
    end.
Proof.
  intros Hclean Hread.
  destruct (platform_pt_probe_run g edev tr) as (rc & edev' & evs & E & Ho).
  rewrite (events_of_app _ _ _ _ E) in Hread.
  assert (Hrel : rc <> 0 ->
            edev' = edev /\ unregistered evs = registered_ok evs /\
            (forall d, device_refs (tr ++ evs) d = device_refs tr d) /\
            no_resources (tr ++ evs)).
  { intros Hrc.
    destruct (probe_outcome_released _ _ _ _ _ tr Ho Hrc Hclean) as (A & B & C & D).
    split; [exact A|]. split; [exact D|]. split; [exact C|exact B]. }
  assert (Hmem : forall x, is_stage_event x = true -> x ∈ evs -> x ∈ stage_events evs).
  { intros x. apply stage_events_elem. }
  apply Hmem in Hread; [|reflexivity].
  destruct (probe_outcome_stage _ _ _ _ _ Ho) as [Enil|(s & k & e & tail & Hal & Estage)].
  { rewrite Enil in Hread. apply elem_of_nil in Hread. contradiction. }
  destruct (after_loop_stage _ _ _ _ _ _ _ Hal) as (stage & Es & Hcases).
  assert (Hst : stage_events evs = stage) by (rewrite Estage; exact Es).
  clear Estage Es Ho Hal. rewrite Hst in Hread.
  destruct e as [c|].
  { subst stage. apply elem_of_nil in Hread. contradiction. }
  destruct Hcases as [(_&_&->)|[(c&_&_&->)|[(nm'&->&->)|[(nm'&dv&Hg&->&->)
    |[(nm'&dv&Hg&->&->)|[(nm'&dv&dm&c&Hg&Hc&->&->)|(nm'&dv&dm&Hg&->&->&->)]]]]]];
    mem_cases Hread; injection Hread as <-.
  - (* the registry does not know the device *)
    exists VMM_EINVALID, edev', evs, None. split; [exact E|]. cbv zeta.
    split; [exact Hst|]. split; [reflexivity|].
    split; [|apply Hrel; discriminate].
    intros d Hin. apply Hmem in Hin; [|reflexivity]. rewrite Hst in Hin. mem_cases Hin.
  - (* the device has no group *)
    exists VMM_EINVALID, edev', evs, (Some dv). split; [exact E|]. cbv zeta.
    rewrite Hg.
    split; [exact Hst|]. split; [reflexivity|].
    split; [|apply Hrel; discriminate].
    intros d Hin. apply Hmem in Hin; [|reflexivity]. rewrite Hst in Hin. mem_cases Hin.
  - (* the domain allocation fails *)
    exists VMM_EFAIL, edev', evs, (Some dv). split; [exact E|]. cbv zeta.
    destruct (iommu_group dv) as [grp|]; [|contradiction].
    exists None. split; [exact Hst|]. split; [reflexivity|].
    apply Hrel. discriminate.
  - (* the subscription fails *)
    exists c, edev', evs, (Some dv). split; [exact E|]. cbv zeta.
    destruct (iommu_group dv) as [grp|]; [|contradiction].
    exists (Some dm), (self s), c. rewrite Hc.
    split; [exact Hst|]. split; [reflexivity|].
    apply Hrel. apply is_err_true. exact Hc.
  - (* success *)
    exists VMM_OK, (attach edev (subscribed (set_dom (Some dm) (set_dev (Some dv) s)))),
      evs, (Some dv).
    split; [exact E|]. cbv zeta.
    destruct (iommu_group dv) as [grp|]; [|contradiction].
    exists (Some dm), (self s), 0. cbn [is_err Z.eqb negb].
    split; [rewrite app_nil_r; exact Hst|]. split; [reflexivity|].
    eexists. split; [reflexivity|]. repeat split; reflexivity.
Qed.

End IommuTheorems.

(** ** The theorems on concrete hosts *)

(** Membership in a list that computes. *)
Ltac mem_compute :=
  apply list_elem_of_In; vm_compute;
  repeat (first [left; reflexivity|right]).

Lemma no_resources_nil : no_resources [].
Proof. repeat split; reflexivity. Defined.


(** The handler install of index 1 fails: the probe returns its error after
    the rollback of line 5. *)
Lemma probe_irq_failure_rollback_witness :
  no_resources [] /\
  EvRegister 7 "g0/eth0" 1 VMM_EFAIL
    ∈ events_of (platform_pt_probe (H := scenario_host sc_install_fails)
                   guest_g0 edev_eth0) [] /\
  exists s k pre,
    platform_pt_probe (H := scenario_host sc_install_fails) guest_g0 edev_eth0 []
    = ((VMM_EFAIL, edev_eth0), [] ++ pre ++ cleanup_events s k) /\
    VMM_EFAIL <> VMM_OK /\
    (k < Z.to_nat (irq_count s))%nat /\
    step_line (EvRegister 7 "g0/eth0" 1 VMM_EFAIL) = Some (arr_get (host_irqs s) k) /\
    registered_ok pre = map (fun j => (arr_get (host_irqs s) j, self s)) (seq 0 k) /\
    no_resources ([] ++ pre ++ cleanup_events s k).
Proof.
  assert (Hx : EvRegister 7 "g0/eth0" 1 VMM_EFAIL
                 ∈ events_of (platform_pt_probe (H := scenario_host sc_install_fails)
                                guest_g0 edev_eth0) []) by mem_compute.
  split; [exact no_resources_nil|]. split; [exact Hx|].
  exact (probe_irq_failure_rollback (H := scenario_host sc_install_fails)
           guest_g0 edev_eth0 [] _ VMM_EFAIL no_resources_nil Hx eq_refl).
Defined.

(** Host line 7 fires: two emulate calls on guest line 33. *)
Lemma routed_irq_two_phase_witness :
  (exists i, (i < Z.to_nat (irq_count state_two_lines))%nat /\
             arr_get (host_irqs state_two_lines) i = to_u32 7) /\
  (exists i, (i < Z.to_nat (irq_count state_two_lines))%nat /\
             arr_get (host_irqs state_two_lines) i = to_u32 7 /\
             emulate_calls
               (events_of (platform_pt_routed_irq (H := scenario_host sc_two_lines)
                             7 state_two_lines) [])
             = [(guest state_two_lines, arr_get (guest_irqs state_two_lines) i, 0);
                (guest state_two_lines, arr_get (guest_irqs state_two_lines) i, 1)]).
Proof.
  assert (Hex : exists i, (i < Z.to_nat (irq_count state_two_lines))%nat /\
                          arr_get (host_irqs state_two_lines) i = to_u32 7).
  { exists 1%nat. split; [vm_compute; lia|reflexivity]. }
  split; [exact Hex|].
  exact (proj1 (proj2 (routed_irq_two_phase (H := scenario_host sc_two_lines)
                         7 state_two_lines [])) Hex).
Defined.

(** Host line 5 is configured at the indices 0 and 1 and fires. *)
Lemma routed_irq_first_match_witness :
  (0 < 1)%nat /\ (1 < Z.to_nat (irq_count state_dup_lines))%nat /\
  arr_get (host_irqs state_dup_lines) 0 = to_u32 5 /\
  arr_get (host_irqs state_dup_lines) 1 = to_u32 5 /\
  exists m, (m <= 0)%nat /\
    arr_get (host_irqs state_dup_lines) m = to_u32 5 /\
    (forall m', (m' < m)%nat -> arr_get (host_irqs state_dup_lines) m' <> to_u32 5) /\
    emulate_calls (events_of (platform_pt_routed_irq (H := scenario_host sc_two_lines)
                                5 state_dup_lines) [])
    = [(guest state_dup_lines, arr_get (guest_irqs state_dup_lines) m, 0);
       (guest state_dup_lines, arr_get (guest_irqs state_dup_lines) m, 1)].
Proof.
  assert (H01 : (0 < 1)%nat) by lia.
  assert (H1 : (1 < Z.to_nat (irq_count state_dup_lines))%nat) by (vm_compute; lia).
  split; [exact H01|]. split; [exact H1|].
  split; [reflexivity|]. split; [reflexivity|].
  exact (routed_irq_first_match (H := scenario_host sc_two_lines)
           5 state_dup_lines [] 0 1 H01 H1 eq_refl eq_refl).
Defined.

(** An aspace-init event of guest "g0" for an instance with a domain: two
    routing registrations, and one map call, for the region of host RAM. *)
Lemma aspace_init_maps_witness :
  guest_ptr_eqb (guest state_with_domain) (Some (edata_guest edata_g0)) = true /\
  Forall (region_in_range (H := scenario_host sc_with_regions))
    (host_guest_regions (Host := scenario_host sc_with_regions)
       ([] ++ routing_events state_with_domain) (guest state_with_domain)) /\
  let m := platform_pt_guest_aspace_notification (H := scenario_host sc_with_regions)
             state_with_domain
             (VMM_GUEST_ASPACE_EVENT_INIT (Host := scenario_host sc_with_regions))
             edata_g0 in
  fst (m []) = NOTIFY_OK /\
  length (routing_calls (events_of m [])) = Z.to_nat (irq_count state_with_domain) /\
  routing_calls (events_of m [])
  = map (fun i => (guest state_with_domain, arr_get (guest_irqs state_with_domain) i,
                   arr_get (host_irqs state_with_domain) i))
        (seq 0 (Z.to_nat (irq_count state_with_domain))) /\
  iommu_map_calls (events_of m [])
  = match dom state_with_domain with
    | Some dm =>
        map (fun r => (Some dm, VMM_REGION_GPHYS_START r, VMM_REGION_HPHYS_START r,
                       VMM_REGION_GPHYS_END r - VMM_REGION_GPHYS_START r,
                       Z.lor (VMM_IOMMU_READ (Host := scenario_host sc_with_regions))
                             (VMM_IOMMU_WRITE (Host := scenario_host sc_with_regions))))
            (filter (fun r => region_qualifies (H := scenario_host sc_with_regions) r)
                    (host_guest_regions (Host := scenario_host sc_with_regions)
                       ([] ++ routing_events state_with_domain)
                       (guest state_with_domain)))
    | None => []
    end.
Proof.
  assert (Hg : guest_ptr_eqb (guest state_with_domain) (Some (edata_guest edata_g0)) = true)
    by reflexivity.
  assert (Hr : Forall (region_in_range (H := scenario_host sc_with_regions))
                 (host_guest_regions (Host := scenario_host sc_with_regions)
                    ([] ++ routing_events state_with_domain)
                    (guest state_with_domain))).
  { repeat constructor; vm_compute; congruence. }
  split; [exact Hg|]. split; [exact Hr|].
  exact (aspace_init_maps (H := scenario_host sc_with_regions)
           state_with_domain edata_g0 [] Hg Hr).
Defined.

(** The map call of that event, computed. *)
Lemma aspace_init_maps_example :
  let m := platform_pt_guest_aspace_notification (H := scenario_host sc_with_regions)
             state_with_domain 1 edata_g0 in
  routing_calls (events_of m []) = [(Some guest_g0, 32, 5); (Some guest_g0, 33, 7)] /\
  iommu_map_calls (events_of m []) = [(Some 4%nat, 4096, 1048576, 8192, 3)].
Proof. vm_compute. split; reflexivity. Qed.

(** An event of another kind. *)
Lemma aspace_event_ignored_witness :
  (7 <> VMM_GUEST_ASPACE_EVENT_INIT (Host := scenario_host sc_with_regions) \/
   guest_ptr_eqb (guest state_with_domain) (Some (edata_guest edata_g0)) = false) /\
  platform_pt_guest_aspace_notification (H := scenario_host sc_with_regions)
    state_with_domain 7 edata_g0 [] = (NOTIFY_DONE, []).
Proof.
  assert (Hev : 7 <> VMM_GUEST_ASPACE_EVENT_INIT (Host := scenario_host sc_with_regions) \/
                guest_ptr_eqb (guest state_with_domain)
                  (Some (edata_guest edata_g0)) = false).
  { left. vm_compute. discriminate. }
  split; [exact Hev|].
  exact (proj1 (aspace_event_ignored (H := scenario_host sc_with_regions)
                  state_with_domain 7 edata_g0 [] Hev)).
Defined.

(** The routed claim of index 0 fails. *)
Lemma register_irq_undo_witness :
  exists e evs,
    probe_register_irq (H := scenario_host sc_claim_fails) 0 state_two_lines []
    = (e, [] ++ evs) /\
    register_outcome (arr_get (host_irqs state_two_lines) 0)
                     (arr_get (host_type_irqs state_two_lines) 0)
                     (name state_two_lines) (self state_two_lines) e evs.
Proof.
  destruct (register_irq_undo (H := scenario_host sc_claim_fails) 0 state_two_lines [])
    as (e & evs & E & Ho & _).
  exists e, evs. split; [exact E|exact Ho].
Defined.

(** An IOMMU device is named.  The registry does not know it: InvalidConfig.
    The registry knows it but no domain can be allocated: Failure.  A domain
    is allocated: the instance attached holds the device and the domain. *)
Lemma probe_iommu_unwind_witness :
  no_resources [] /\
  (EvReadString (node edev_eth0) "iommu-device" (Some "smmu0")
     ∈ events_of (platform_pt_probe (H := scenario_host (sc_iommu_with None None))
                    guest_g0 edev_eth0) [] /\
   fst (fst (platform_pt_probe (H := scenario_host (sc_iommu_with None None))
               guest_g0 edev_eth0 [])) = VMM_EINVALID) /\
  (EvReadString (node edev_eth0) "iommu-device" (Some "smmu0")
     ∈ events_of (platform_pt_probe
                    (H := scenario_host (sc_iommu_with (Some dev_smmu0) None))
                    guest_g0 edev_eth0) [] /\
   fst (fst (platform_pt_probe
               (H := scenario_host (sc_iommu_with (Some dev_smmu0) None))
               guest_g0 edev_eth0 [])) = VMM_EFAIL) /\
  (EvReadString (node edev_eth0) "iommu-device" (Some "smmu0")
     ∈ events_of (platform_pt_probe
                    (H := scenario_host (sc_iommu_with (Some dev_smmu0) (Some 4%nat)))
                    guest_g0 edev_eth0) [] /\
   exists s,
     priv (snd (fst (platform_pt_probe
                       (H := scenario_host (sc_iommu_with (Some dev_smmu0) (Some 4%nat)))
                       guest_g0 edev_eth0 []))) = Some s /\
     dev s = Some dev_smmu0 /\ dom s = Some 4%nat).
Proof.
  split; [exact no_resources_nil|].
  split; [|split].
  - assert (Hx : EvReadString (node edev_eth0) "iommu-device" (Some "smmu0")
                   ∈ events_of (platform_pt_probe
                                  (H := scenario_host (sc_iommu_with None None))
                                  guest_g0 edev_eth0) []) by mem_compute.
    split; [exact Hx|].
    destruct (probe_iommu_unwind (H := scenario_host (sc_iommu_with None None))
                guest_g0 edev_eth0 [] "smmu0" no_resources_nil Hx)
      as (rc & edev' & evs & res & E & Hcase).
    rewrite E. cbn [fst]. cbv zeta in Hcase.
    vm_compute in E. injection E as <- <- <-.
    destruct res as [dv|].
    + destruct (iommu_group dv) as [grp|].
      * destruct Hcase as ([dm|] & Hcase).
        -- destruct Hcase as (p & c & Hst & _). vm_compute in Hst. discriminate Hst.
        -- destruct Hcase as (Hst & _). vm_compute in Hst. discriminate Hst.
      * destruct Hcase as (Hst & _). vm_compute in Hst. discriminate Hst.
    + reflexivity.
  - assert (Hx : EvReadString (node edev_eth0) "iommu-device" (Some "smmu0")
                   ∈ events_of (platform_pt_probe
                                  (H := scenario_host (sc_iommu_with (Some dev_smmu0) None))
                                  guest_g0 edev_eth0) []) by mem_compute.
    split; [exact Hx|].
    destruct (probe_iommu_unwind
                (H := scenario_host (sc_iommu_with (Some dev_smmu0) None))
                guest_g0 edev_eth0 [] "smmu0" no_resources_nil Hx)
      as (rc & edev' & evs & res & E & Hcase).
    rewrite E. cbn [fst]. cbv zeta in Hcase.
    destruct res as [dv|].
    + destruct (iommu_group dv) as [grp|].
      * destruct Hcase as ([dm|] & Hcase).
        -- destruct Hcase as (p & c & Hst & _).
           vm_compute in E. injection E as <- <- <-.
           vm_compute in Hst. discriminate Hst.
        -- destruct Hcase as (_ & Hrc & _). exact Hrc.
      * destruct Hcase as (Hst & _).
        vm_compute in E. injection E as <- <- <-.
        vm_compute in Hst. discriminate Hst.
    + destruct Hcase as (Hst & _).
      vm_compute in E. injection E as <- <- <-.
      vm_compute in Hst. discriminate Hst.
  - assert (Hx : EvReadString (node edev_eth0) "iommu-device" (Some "smmu0")
                   ∈ events_of (platform_pt_probe
                                  (H := scenario_host
                                          (sc_iommu_with (Some dev_smmu0) (Some 4%nat)))
                                  guest_g0 edev_eth0) []) by mem_compute.
    split; [exact Hx|].
    destruct (probe_iommu_unwind
                (H := scenario_host (sc_iommu_with (Some dev_smmu0) (Some 4%nat)))
                guest_g0 edev_eth0 [] "smmu0" no_resources_nil Hx)
      as (rc & edev' & evs & res & E & Hcase).
    rewrite E. cbn [fst snd]. cbv zeta in Hcase.
    destruct res as [dv|].
    + destruct (iommu_group dv) as [grp|] eqn:Hgrp.
      * destruct Hcase as ([dm|] & Hcase).
        -- destruct Hcase as (p & c & Hst & Hcase).
           assert (Hev : stage_events evs
                         = stage_events
                             (events_of (platform_pt_probe
                                (H := scenario_host
                                        (sc_iommu_with (Some dev_smmu0) (Some 4%nat)))
                                guest_g0 edev_eth0) []))
             by (rewrite (events_of_app _ _ _ _ E); reflexivity).
           rewrite Hev in Hst.
           destruct (is_err c) eqn:Hc; vm_compute in Hst.
           ++ discriminate Hst.
           ++ destruct Hcase as (_ & s & Hs & _ & Hdev & Hdom).
              injection Hst as <- _ _ <- _ _.
              exists s. split; [exact Hs|]. split; [exact Hdev|exact Hdom].
        -- destruct Hcase as (Hst & _).
           vm_compute in E. injection E as <- <- <-.
           vm_compute in Hst. discriminate Hst.
      * destruct Hcase as (Hst & _).
        vm_compute in E. injection E as <- <- <-.
        vm_compute in Hst. discriminate Hst.
    + destruct Hcase as (Hst & _).
      vm_compute in E. injection E as <- <- <-.
      vm_compute in Hst. discriminate Hst.
Defined.


(** * Further properties of the emulator *)

(** ** The values the loop of the probe stores *)

Lemma arr_len_set (a : option u32_array) (i : nat) (v : Z) :
  arr_len (arr_set a i v) = arr_len a.
Proof. destruct a; simpl; [apply length_insert|reflexivity]. Qed.

Lemma arr_get_set_eq (a : option u32_array) (i : nat) (v : Z) :
  (i < arr_len a)%nat -> arr_get (arr_set a i v) i = v.
Proof.
  destruct a as [a|]; simpl; intros Hi; [|lia].
  apply list_lookup_total_insert_eq. exact Hi.
Qed.

Lemma same_sizes_refl s : same_sizes s s.
Proof. unfold same_sizes. repeat split; reflexivity. Qed.

Lemma same_sizes_trans s1 s2 s3 :
  same_sizes s1 s2 -> same_sizes s2 s3 -> same_sizes s1 s3.
Proof. unfold same_sizes. intros (A1&A2&A3) (B1&B2&B3). repeat split; congruence. Qed.

Section ProbeValues.
Context `{Host}.

Lemma triple_read_mono nd s j evs evs' :
  (forall x, x ∈ evs -> x ∈ evs') -> triple_read nd s j evs -> triple_read nd s j evs'.
Proof.
  intros Hsub (v1 & v2 & v3 & R1 & R2 & R3 & C). exists v1, v2, v3.
  split; [apply Hsub; exact R1|]. split; [apply Hsub; exact R2|].
  split; [apply Hsub; exact R3|exact C].
Qed.

Lemma triple_read_cells nd s s' j evs :
  same_cells j s s' -> triple_read nd s j evs -> triple_read nd s' j evs.
Proof.
  intros (C1 & C2 & C3) (v1 & v2 & v3 & R1 & R2 & R3 & D1 & D2 & D3).
  exists v1, v2, v3. rewrite C1, C2, C3. repeat split; assumption.
Qed.

Lemma read_irq_values (nd : vmm_devtree_node) (i : nat) (s : platform_pt_state)
    (tr : list event) :
  exists e s1 blk,
    probe_read_irq nd i s tr = ((e, s1), tr ++ blk) /\
    same_sizes s s1 /\
    (e = None ->
     (i < arr_len (host_irqs s))%nat -> (i < arr_len (host_type_irqs s))%nat ->
     (i < arr_len (guest_irqs s))%nat ->
     triple_read nd s1 i blk).
Proof.
  unfold probe_read_irq.
  unfold bind at 1.
  destruct (read_u32_run nd "host-interrupts" (arr_get (host_irqs s) i)
              (to_u32 (Z.of_nat i * 2)) tr) as (rc1 & v1 & E1).
  rewrite E1. cbn [fst snd].
  destruct (is_err rc1) eqn:R1.
  { unfold ret. eexists _, _, _. split; [reflexivity|].
    split; [|discriminate].
    unfold same_sizes; cbn. rewrite ?arr_len_set. repeat split; reflexivity. }
  apply is_err_false in R1. subst rc1.
  unfold bind at 1.
  match goal with |- context [vmm_devtree_read_u32_atindex nd ?a ?o ?x ?t] =>
    destruct (read_u32_run nd a o x t) as (rc2 & v2 & E2) end.
  rewrite E2. cbn [fst snd].
  destruct (is_err rc2) eqn:R2.
  { unfold ret. eexists _, _, _. split; [rewrite <- !app_assoc; reflexivity|].
    split; [|discriminate].
    unfold same_sizes; cbn. rewrite ?arr_len_set. repeat split; reflexivity. }
  apply is_err_false in R2. subst rc2.
  unfold bind at 1.
  match goal with |- context [vmm_devtree_read_u32_atindex nd ?a ?o ?x ?t] =>
    destruct (read_u32_run nd a o x t) as (rc3 & v3 & E3) end.
  rewrite E3. cbn [fst snd].
  destruct (is_err rc3) eqn:R3.
  { unfold ret. eexists _, _, _. split; [rewrite <- !app_assoc; reflexivity|].
    split; [|discriminate].
    unfold same_sizes; cbn. rewrite ?arr_len_set. repeat split; reflexivity. }
  apply is_err_false in R3. subst rc3.
  unfold ret. eexists _, _, _. split; [rewrite <- !app_assoc; reflexivity|].
  split.
  { unfold same_sizes; cbn. rewrite ?arr_len_set. repeat split; reflexivity. }
  intros _ L1 L2 L3. exists v1, v2, v3. cbn.
  rewrite !arr_get_set_eq by assumption.
  repeat split; try reflexivity;
    repeat (apply elem_of_cons; first [left; reflexivity|right]).
Qed.

Lemma irq_body_values (nd : vmm_devtree_node) (i : nat) (s : platform_pt_state)
    (tr : list event) :
  exists e s1 blk,
    probe_irq_body nd i s tr = ((e, s1), tr ++ blk) /\
    same_sizes s s1 /\
    (e = None ->
     (i < arr_len (host_irqs s))%nat -> (i < arr_len (host_type_irqs s))%nat ->
     (i < arr_len (guest_irqs s))%nat ->
     triple_read nd s1 i blk).
Proof.
  unfold probe_irq_body. unfold bind at 1.
  destruct (read_irq_values nd i s tr) as (e & s1 & blk & E & Hsz & Hv).
  rewrite E. cbn [fst snd].
  destruct e as [rc|].
  - unfold ret. exists (Some rc), s1, blk. split; [reflexivity|].
    split; [exact Hsz|discriminate].
  - unfold bind.
    destruct (register_irq_run i s1 (tr ++ blk)) as (e & evs & E' & _).
    rewrite E'. unfold ret. exists e, s1, (blk ++ evs).
    split; [rewrite app_assoc; reflexivity|]. split; [exact Hsz|].
    intros _ L1 L2 L3. apply (triple_read_mono nd s1 i blk).
    + intros x Hx. apply elem_of_app. left. exact Hx.
    + apply Hv; auto.
Qed.

Lemma probe_irq_loop_values (nd : vmm_devtree_node) (n i : nat) (s : platform_pt_state)
    (cnt : nat) (tr : list event) :
  exists e s' m evs,
    probe_irq_loop nd n i s cnt tr = ((e, s', (cnt + m)%nat), tr ++ evs) /\
    same_sizes s s' /\
    (e = None ->
     (i + n <= arr_len (host_irqs s))%nat -> (i + n <= arr_len (host_type_irqs s))%nat ->
     (i + n <= arr_len (guest_irqs s))%nat ->
     forall j, (i <= j < i + n)%nat -> triple_read nd s' j evs).
Proof.
  revert i s cnt tr. induction n as [|n IH]; intros i s cnt tr.
  - simpl. unfold ret. exists None, s, 0%nat, [].
    rewrite Nat.add_0_r, app_nil_r. split; [reflexivity|].
    split; [apply same_sizes_refl|]. intros _ _ _ _ j Hj. lia.
  - simpl. unfold bind at 1.
    destruct (irq_body_values nd i s tr) as (e1 & s1 & blk & E & Hsz & Hv).
    rewrite E. cbn [fst snd].
    destruct e1 as [rc|].
    + unfold ret. exists (Some rc), s1, 0%nat, blk.
      rewrite Nat.add_0_r. split; [reflexivity|]. split; [exact Hsz|discriminate].
    + destruct (IH (S i) s1 (S cnt) (tr ++ blk))
        as (e & s' & m & evs & E' & Hsz' & Hv').
      destruct (probe_irq_loop_run nd n (S i) s1 (S cnt) (tr ++ blk))
        as (e2 & s2 & m2 & evs2 & E2 & _ & _ & _ & _ & _ & Hc2).
      assert (Es : s2 = s') by congruence. subst s2.
      rewrite E'. exists e, s', (S m), (blk ++ evs).
      split; [replace (cnt + S m)%nat with (S cnt + m)%nat by lia;
              rewrite app_assoc; reflexivity|].
      split; [apply (same_sizes_trans _ _ _ Hsz Hsz')|].
      intros He L1 L2 L3 j Hj.
      destruct Hsz as (Z1 & Z2 & Z3).
      destruct (decide (j = i)) as [->|Hne].
      * apply (triple_read_mono nd s' i blk).
        { intros x Hx. apply elem_of_app. left. exact Hx. }
        apply (triple_read_cells nd s1 s' i); [apply Hc2; lia|].
        apply Hv; [reflexivity|lia|lia|lia].
      * apply (triple_read_mono nd s' j evs).
        { intros x Hx. apply elem_of_app. right. exact Hx. }
        apply Hv'; [exact He|lia|lia|lia|lia].
Qed.

End ProbeValues.

(** ** A probe that succeeds *)

Section LoopDone.
Context `{Host}.

Lemma loop_trace_done_routed nd s i m evs R :
  loop_trace nd s i m None evs -> foldl routed_step R evs = lines s i m ∪ R.
Proof.
  intros Hl. remember None as e eqn:He. revert R.
  induction Hl as [i|i rc blk Hit|i m e blk evs Hit _ IH]; intros R.
  - unfold lines. simpl. set_solver.
  - discriminate.
  - subst e. rewrite foldl_app, (iteration_done_routed _ _ _ _ _ _ _ _ Hit), lines_S.
    rewrite (IH eq_refl). clear. set_solver.
Qed.

Lemma loop_trace_done_handlers nd s i m evs R :
  loop_trace nd s i m None evs -> foldl handler_step R evs = handler_keys s i m ∪ R.
Proof.
  intros Hl. remember None as e eqn:He. revert R.
  induction Hl as [i|i rc blk Hit|i m e blk evs Hit _ IH]; intros R.
  - unfold handler_keys. simpl. set_solver.
  - discriminate.
  - subst e. rewrite foldl_app, (iteration_done_handlers _ _ _ _ _ _ _ _ Hit),
      handler_keys_S.
    rewrite (IH eq_refl). clear. set_solver.
Qed.

Lemma loop_trace_nil nd s i e evs : loop_trace nd s i 0 e evs -> e = None -> evs = [].
Proof. intros Hl He. inversion Hl; subst; [reflexivity|discriminate]. Qed.

(** The events of what follows the loop are calls of the IOMMU stage, of the
    subscription, and of the rollback. *)
Lemma after_loop_kind s k edev e rc edev' tail :
  after_loop s k edev e rc edev' tail ->
  Forall (fun x => is_stage_event x || is_cleanup_event x = true) tail.
Proof.
  assert (Hc : Forall (fun x => is_stage_event x || is_cleanup_event x = true)
                 (cleanup_events s k)).
  { eapply Forall_impl; [apply cleanup_events_kind|].
    intros x Hx. rewrite Hx. apply orb_true_r. }
  intros []; rewrite ?Forall_app; repeat split; try exact Hc; repeat constructor.
Qed.

(** What follows a loop that ended without error, when the probe succeeds. *)
Lemma after_loop_success s k edev edev' tail :
  after_loop s k edev None VMM_OK edev' tail ->
  dev s = None -> dom s = None ->
  exists sf,
    edev' = attach edev sf /\
    self sf = self s /\ name sf = name s /\ guest sf = guest s /\
    irq_count sf = irq_count s /\
    host_irqs sf = host_irqs s /\ host_type_irqs sf = host_type_irqs s /\
    guest_irqs sf = guest_irqs s /\
    nb sf = {| notifier_call := Some platform_pt_guest_aspace_notification_fn;
               priority := 0 |} /\
    (forall R, foldl routed_step R tail = R) /\
    (forall R, foldl handler_step R tail = R) /\
    (forall R, foldl heap_step R tail = R) /\
    (forall R, foldl domain_step R tail = instance_domain sf ∪ R) /\
    (forall R, foldl client_step R tail = {[self sf]} ∪ R) /\
    (forall d c, foldl (ref_step d) c tail = c + instance_ref sf d) /\
    registered_ok tail = [] /\ unregistered tail = [] /\ freed tail = [] /\
    allocated tail = [] /\
    EvRegisterClient (self s) 0 ∈ tail /\
    (forall dm, dom sf = Some dm -> EvSetFaultHandler dm (self s) ∈ tail) /\
    (dom sf = None <-> dev sf = None).
Proof.
  intros Hal Hdev Hdom.
  remember None as e eqn:He. remember VMM_OK as rc eqn:Hrc.
  destruct Hal as [rc| |rc Hr|nm|nm dv Hg|nm dv Hg|nm dv dm rc Hg Hr|nm dv dm Hg];
    try discriminate;
    try (subst rc; discriminate).
  - exists (subscribed s). unfold instance_domain, instance_ref.
    cbn [subscribed set_nb self name guest irq_count host_irqs host_type_irqs
         guest_irqs nb dev dom].
    rewrite Hdev, Hdom.
    repeat split; try reflexivity; intros;
      cbn [foldl routed_step handler_step heap_step domain_step client_step ref_step is_err];
      try (clear; set_solver); try lia; try discriminate.
  - exists (subscribed (set_dom (Some dm) (set_dev (Some dv) s))).
    unfold instance_domain, instance_ref.
    cbn [subscribed set_nb set_dom set_dev self name guest irq_count host_irqs
         host_type_irqs guest_irqs nb dev dom].
    repeat split; try reflexivity; intros;
      cbn [foldl routed_step handler_step heap_step domain_step client_step ref_step is_err];
      try (clear; set_solver); try discriminate.
    + destruct (dev_addr dv =? d)%nat; lia.
    + match goal with Hd : Some _ = Some _ |- _ => injection Hd as <- end.
      repeat (apply elem_of_cons; first [left; reflexivity|right]).
Qed.

(** The outcome of a probe that returns success. *)
Lemma probe_outcome_success g edev edev' evs :
  probe_outcome g edev VMM_OK edev' evs ->
  exists p n s0 pre s' lev tail,
    evs = [EvZalloc sizeof_platform_pt_state (Some p);
           EvAttrlen (node edev) "host-interrupts" n] ++ pre ++ lev ++ tail /\
    (snd (probe_name g edev (zeroed_state p)) < sizeof_name)%nat /\
    loop_entry (counted_state g edev p n) s0 pre /\
    loop_trace (node edev) s' 0 (Z.to_nat (irq_count s0)) None lev /\
    same_frame s0 s' /\
    after_loop s' (Z.to_nat (irq_count s0)) edev None VMM_OK edev' tail.
Proof.
  intros Ho. remember VMM_OK as rc eqn:Hrc.
  destruct Ho as [|p Hov|p n Hov Hn|p n a1 Hov Hn|p n a1 a2 Hov Hn
                  |p n s0 pre s' k e lev rc edev' tail Hov Hentry Hl Hf Hk Hnone Hsome Hal];
    try discriminate.
  destruct e as [c|].
  - destruct (after_loop_rollback _ _ _ _ _ _ _ Hal) as (-> & _ & _).
    pose proof (loop_trace_error _ _ _ _ _ _ Hl) as Hc. subst c. discriminate.
  - rewrite (Hnone eq_refl) in *. subst rc.
    exists p, n, s0, pre, s', lev, tail.
    split; [reflexivity|]. split; [exact Hov|]. split; [exact Hentry|].
    split; [exact Hl|]. split; [exact Hf|exact Hal].
Qed.

End LoopDone.

Lemma lines_ext s s' i m : host_irqs s' = host_irqs s -> lines s' i m = lines s i m.
Proof. intros E. unfold lines. rewrite E. reflexivity. Qed.

Lemma handler_keys_ext s s' i m :
  host_irqs s' = host_irqs s -> self s' = self s ->
  handler_keys s' i m = handler_keys s i m.
Proof. intros E1 E2. unfold handler_keys. rewrite E1, E2. reflexivity. Qed.

Lemma held_blocks_ext s s' :
  self s' = self s -> host_irqs s' = host_irqs s ->
  host_type_irqs s' = host_type_irqs s -> guest_irqs s' = guest_irqs s ->
  held_blocks s' = held_blocks s.
Proof. intros E1 E2 E3 E4. unfold held_blocks. rewrite E1, E2, E3, E4. reflexivity. Qed.

Section ProbeSuccess.
Context `{Host}.

(** The instance a successful probe attaches, and what the probe did for
    it. *)
Lemma probe_outcome_attached g edev edev' evs :
  probe_outcome g edev VMM_OK edev' evs ->
  exists s n,
    edev' = attach edev s /\
    EvZalloc sizeof_platform_pt_state (Some (self s)) ∈ evs /\
    EvAttrlen (node edev) "host-interrupts" n ∈ evs /\
    guest s = Some g /\
    name s = fst (probe_name g edev (zeroed_state (self s))) /\
    (snd (probe_name g edev (zeroed_state (self s))) < sizeof_name)%nat /\
    irq_count s = to_u32 n / (sizeof_u32 * 2) /\
    nb s = {| notifier_call := Some platform_pt_guest_aspace_notification_fn;
              priority := 0 |} /\
    (dom s = None <-> dev s = None) /\
    EvRegisterClient (self s) 0 ∈ evs /\
    (forall dm, dom s = Some dm -> EvSetFaultHandler dm (self s) ∈ evs) /\
    (forall R, foldl routed_step R evs = lines s 0 (Z.to_nat (irq_count s)) ∪ R) /\
    (forall R, foldl handler_step R evs
               = handler_keys s 0 (Z.to_nat (irq_count s)) ∪ R) /\
    (forall R, foldl heap_step R evs = held_blocks s ∪ R) /\
    (forall R, foldl domain_step R evs = instance_domain s ∪ R) /\
    (forall R, foldl client_step R evs = {[self s]} ∪ R) /\
    (forall d c, foldl (ref_step d) c evs = c + instance_ref s d) /\
    registered_ok evs
    = map (fun j => (arr_get (host_irqs s) j, self s)) (seq 0 (Z.to_nat (irq_count s))) /\
    unregistered evs = [] /\ freed evs = [].
Proof.
  intros Ho.
  destruct (probe_outcome_success _ _ _ _ Ho)
    as (p & n & s0 & pre & s' & lev & tail & -> & Hov & Hentry & Hl & Hf & Hal).
  destruct (loop_entry_heap _ _ _ ∅ Hentry eq_refl eq_refl eq_refl)
    as (_ & P1 & P2 & P3 & P4 & P5 & P6 & P7 & _ & Pn & Pself & Pdev & Pdom).
  assert (P0 : forall R, foldl heap_step ({[p]} ∪ R) pre = held_blocks s0 ∪ R).
  { intros R. apply (loop_entry_heap _ _ _ R Hentry eq_refl eq_refl eq_refl). }
  assert (Pfree : freed pre = []) by (destruct Hentry; reflexivity).
  destruct (loop_trace_neutral _ _ _ _ _ _ Hl) as (L1 & L2 & L3 & L4 & L5 & _).
  pose proof (loop_trace_registered _ _ _ _ _ _ Hl) as Lreg.
  pose proof (loop_trace_kind _ _ _ _ _ _ Hl) as Lk.
  assert (Lfree : freed lev = []).
  { apply omap_none_forall. eapply Forall_impl; [exact Lk|].
    intros x. destruct x; simpl; try discriminate; reflexivity. }
  pose proof (same_frame_held _ _ Hf) as Hheld.
  destruct Hf as (F1 & F2 & F3 & F4 & F5 & F6 & F7 & _).
  destruct (after_loop_success _ _ _ _ _ Hal)
    as (sf & -> & S1 & S2 & S3 & S4 & S5 & S6 & S7 & S8 & T1 & T2 & T3 & T4 & T5 & T6
        & T7 & T8 & T9 & _ & T10 & T11 & T12).
  { rewrite F5, Pdev. reflexivity. }
  { rewrite F6, Pdom. reflexivity. }
  assert (Eself : self sf = p) by (rewrite S1, F1, Pself; reflexivity).
  assert (Ecount : irq_count sf = irq_count s0) by (rewrite S4, F4; reflexivity).
  exists sf, n. rewrite Eself, Ecount.
  split; [reflexivity|].
  split; [repeat (apply elem_of_cons; first [left; reflexivity|right])|].
  split; [repeat (apply elem_of_cons; first [left; reflexivity|right])|].
  split; [rewrite S3, F3; destruct Hentry; reflexivity|].
  split; [rewrite S2, F2; destruct Hentry; reflexivity|].
  split; [exact Hov|].
  split; [rewrite Pn; reflexivity|].
  split; [exact S8|].
  split; [exact T12|].
  split.
  { rewrite !elem_of_app. do 3 right. rewrite <- Eself, S1. exact T10. }
  split.
  { intros dm Hdm. rewrite !elem_of_app. do 3 right. rewrite <- Eself, S1.
    apply T11. exact Hdm. }
  split.
  { intros R. rewrite !foldl_app, T1, (loop_trace_done_routed _ _ _ _ _ _ Hl), P1.
    rewrite (lines_ext s' sf) by exact S5. reflexivity. }
  split.
  { intros R. rewrite !foldl_app, T2, (loop_trace_done_handlers _ _ _ _ _ _ Hl), P2.
    rewrite (handler_keys_ext s' sf) by assumption. reflexivity. }
  split.
  { intros R. rewrite !foldl_app, T3, L1.
    cbn [foldl heap_step]. rewrite P0, <- Hheld.
    rewrite (held_blocks_ext s' sf) by assumption. reflexivity. }
  split.
  { intros R. rewrite !foldl_app, T4, L2, P3. reflexivity. }
  split.
  { intros R. rewrite !foldl_app, T5, L3, P4. rewrite Eself. reflexivity. }
  split.
  { intros d c. rewrite !foldl_app, T6, L4, P5. reflexivity. }
  split.
  { unfold registered_ok in *. rewrite !omap_app, P6, Lreg, T7.
    cbn [omap list_omap]. rewrite app_nil_r, S5, <- Eself, S1. reflexivity. }
  split.
  { unfold unregistered in *. rewrite !omap_app, P7, L5, T8. reflexivity. }
  unfold freed in *. rewrite !omap_app, Pfree, Lfree, T9. reflexivity.
Qed.

End ProbeSuccess.

Section ProbeTables.
Context `{Host}.

Lemma loop_entry_sized s s0 pre :
  loop_entry s s0 pre -> arrays_sized s0.
Proof.
  intros [Hn|a1 a2 a3 Hn]; unfold arrays_sized.
  - rewrite Hn. simpl. lia.
  - cbn. rewrite !length_replicate. lia.
Qed.

(** A probe that succeeds went through the loop, from the structure and the
    trace of [loop_entry]. *)
Lemma probe_to_irqs g edev tr edev' tr' :
  platform_pt_probe g edev tr = ((VMM_OK, edev'), tr') ->
  exists p n s0 pre,
    loop_entry (counted_state g edev p n) s0 pre /\
    probe_irqs s0 edev
      (tr ++ [EvZalloc sizeof_platform_pt_state (Some p);
              EvAttrlen (node edev) "host-interrupts" n] ++ pre)
    = ((VMM_OK, edev'), tr').
Proof.
  unfold platform_pt_probe. unfold bind at 1. unfold vmm_zalloc at 1. rewrite call_run.
  generalize (host_zalloc tr sizeof_platform_pt_state). intros [p|].
  2:{ unfold platform_pt_probe_fail, ret. intros E. discriminate E. }
  cbv zeta.
  destruct (sizeof_name <=? snd (probe_name g edev (zeroed_state p)))%nat eqn:Hov.
  { rewrite freestate_run. intros E. discriminate E. }
  unfold bind at 1. unfold vmm_devtree_attrlen. rewrite call_run.
  match goal with |- context [host_attrlen ?t ?a ?b] =>
    generalize (host_attrlen t a b) end.
  intros n. fold (named_state g edev p).
  change (set_host_type_irqs None (set_host_irqs None (set_guest_irqs None
            (set_irq_count
               (irq_count (set_irq_count (to_u32 n) (set_guest (Some g) (named_state g edev p)))
                / (sizeof_u32 * 2))
               (set_irq_count (to_u32 n) (set_guest (Some g) (named_state g edev p)))))))
    with (counted_state g edev p n).
  set (s := counted_state g edev p n).
  unfold probe_arrays.
  destruct (irq_count s =? 0) eqn:Hn.
  - apply Z.eqb_eq in Hn. cbn [negb]. intros E.
    exists p, n, s, []. split; [exact (LE_empty s Hn)|].
    rewrite <- E, <- !app_assoc. reflexivity.
  - apply Z.eqb_neq in Hn. cbn [negb].
    unfold bind at 1. unfold vmm_zalloc at 1. rewrite call_run.
    match goal with |- context [host_zalloc ?t ?a] => generalize (host_zalloc t a) end.
    intros [a1|].
    2:{ cbn [option_map]. rewrite freestate_run. intros E. discriminate E. }
    cbn [option_map].
    unfold bind at 1. unfold vmm_zalloc at 1. rewrite call_run.
    match goal with |- context [host_zalloc ?t ?a] => generalize (host_zalloc t a) end.
    intros [a2|].
    2:{ cbn [option_map]. rewrite freehirqs_run. intros E. discriminate E. }
    cbn [option_map].
    unfold bind at 1. unfold vmm_zalloc at 1. rewrite call_run.
    match goal with |- context [host_zalloc ?t ?a] => generalize (host_zalloc t a) end.
    intros [a3|].
    2:{ cbn [option_map]. rewrite freehtirqs_run. intros E. discriminate E. }
    cbn [option_map]. intros E.
    exists p, n, (with_arrays s a1 a2 a3),
      [EvZalloc (sizeof_u32 * irq_count s) (Some a1);
       EvZalloc (sizeof_u32 * irq_count s) (Some a2);
       EvZalloc (sizeof_u32 * irq_count s) (Some a3)].
    split; [exact (LE_arrays s a1 a2 a3 Hn)|].
    rewrite <- E, <- !app_assoc. reflexivity.
Qed.

(** The loop and what follows it, when the probe succeeds: the tables of
    the instance attached hold what was read. *)
Lemma probe_irqs_values s edev tr edev' tr' :
  dev s = None -> dom s = None -> arrays_sized s ->
  probe_irqs s edev tr = ((VMM_OK, edev'), tr') ->
  exists sf evs,
    tr' = tr ++ evs /\ edev' = attach edev sf /\
    irq_count sf = irq_count s /\ arrays_sized sf /\
    forall j, (j < Z.to_nat (irq_count sf))%nat -> triple_read (node edev) sf j evs.
Proof.
  intros Hdev Hdom (Z1 & Z2 & Z3). unfold probe_irqs, bind.
  destruct (probe_irq_loop_values (node edev) (Z.to_nat (irq_count s)) 0 s 0 tr)
    as (e & s' & m & lev & E & (Y1 & Y2 & Y3) & Hv).
  destruct (probe_irq_loop_run (node edev) (Z.to_nat (irq_count s)) 0 s 0 tr)
    as (e2 & s2 & m2 & lev2 & E2 & Hl & _ & Hnone & _ & Hf & _).
  rewrite E in E2. injection E2 as Ee Es Em Elev.
  apply app_inv_head in Elev. simpl in Em.
  symmetry in Ee, Es, Em, Elev.
  subst e2 s2 m2 lev2.
  rewrite E. cbn [Nat.add].
  destruct e as [rc|].
  - rewrite cleanupirqs_run. intros Eq.
    pose proof (loop_trace_error _ _ _ _ _ _ Hl) as Hrc.
    assert (rc = VMM_OK) by congruence. subst rc. discriminate Hrc.
  - rewrite (Hnone eq_refl) in *.
    destruct Hf as (F1 & F2 & F3 & F4 & F5 & F6 & _).
    destruct (probe_iommu_run s' (Z.to_nat (irq_count s)) edev (tr ++ lev))
      as (rc & edev2 & tail & E' & Hal).
    { rewrite F5. exact Hdev. }
    { rewrite F6. exact Hdom. }
    rewrite E'. intros Eq.
    assert (rc = VMM_OK) by congruence.
    assert (edev2 = edev') by congruence.
    assert (tr' = (tr ++ lev) ++ tail) by congruence.
    subst rc edev2 tr'.
    destruct (after_loop_success _ _ _ _ _ Hal)
      as (sf & -> & S1 & S2 & S3 & S4 & S5 & S6 & S7 & _).
    { rewrite F5. exact Hdev. }
    { rewrite F6. exact Hdom. }
    exists sf, (lev ++ tail). split; [rewrite app_assoc; reflexivity|].
    split; [reflexivity|].
    split; [rewrite S4, F4; reflexivity|].
    split.
    { unfold arrays_sized. rewrite S4, S5, S6, S7, F4, Y1, Y2, Y3. auto. }
    intros j Hj. rewrite S4, F4 in Hj.
    apply (triple_read_mono (node edev) sf j lev).
    { intros x Hx. apply elem_of_app. left. exact Hx. }
    apply (triple_read_cells (node edev) s' sf j).
    { unfold same_cells. rewrite S5, S6, S7. repeat split; reflexivity. }
    apply Hv; [reflexivity|simpl; lia|simpl; lia|simpl; lia|lia].
Qed.

End ProbeTables.

(** ** The teardown of an instance *)

Lemma teardown_effect (s : platform_pt_state) :
  (forall R, foldl routed_step R (teardown_events s)
             = R ∖ lines s 0 (Z.to_nat (irq_count s))) /\
  (forall R, foldl handler_step R (teardown_events s)
             = R ∖ handler_keys s 0 (Z.to_nat (irq_count s))) /\
  (forall R, foldl heap_step R (teardown_events s) = R ∖ held_blocks s) /\
  (forall R, foldl domain_step R (teardown_events s) = R ∖ instance_domain s) /\
  (forall R, foldl client_step R (teardown_events s) = R ∖ {[self s]}) /\
  (forall d c, foldl (ref_step d) c (teardown_events s) = c - instance_ref s d) /\
  (forall m, foldl type_step m (teardown_events s) = m) /\
  unregistered (teardown_events s)
  = map (fun j => (arr_get (host_irqs s) j, self s)) (seq 0 (Z.to_nat (irq_count s))).
Proof.
  change (teardown_events s)
    with ([EvUnregisterClient (self s)]
          ++ match dom s with Some dm => [EvDomainFree dm] | None => [] end
          ++ match dev s with Some d => [EvDrefDevice (dev_addr d)] | None => [] end
          ++ cleanup_events s (Z.to_nat (irq_count s))).
  unfold instance_domain, instance_ref.
  repeat split; intros.
  - destruct (dom s), (dev s); rewrite !foldl_app, cleanup_routed; reflexivity.
  - destruct (dom s), (dev s); rewrite !foldl_app, cleanup_handlers; reflexivity.
  - destruct (dom s), (dev s); rewrite !foldl_app, cleanup_heap; reflexivity.
  - destruct (dom s), (dev s); rewrite !foldl_app, cleanup_domains;
      cbn [foldl domain_step]; clear; set_solver.
  - destruct (dom s), (dev s); rewrite !foldl_app, cleanup_clients;
      cbn [foldl client_step]; reflexivity.
  - destruct (dom s), (dev s) as [dv|]; rewrite !foldl_app, cleanup_refs;
      cbn [foldl ref_step]; try destruct (dev_addr dv =? d)%nat; lia.
  - rewrite !foldl_app.
    rewrite (foldl_neutral type_step is_cleanup_event (cleanup_events s _));
      [|intros R' e; destruct e; simpl; try discriminate; reflexivity
       |apply cleanup_events_kind].
    destruct (dom s), (dev s); reflexivity.
  - unfold unregistered. rewrite !omap_app.
    fold (unregistered (cleanup_events s (Z.to_nat (irq_count s)))).
    rewrite cleanup_unregistered. destruct (dom s), (dev s); reflexivity.
Qed.

Lemma remove_run (edev : vmm_emudev) (s : platform_pt_state) (tr : list event) :
  priv edev = Some s ->
  platform_pt_remove edev tr
  = ((VMM_OK, {| node := node edev; priv := None |}), tr ++ teardown_events s).
Proof.
  intros Hp. unfold platform_pt_remove. rewrite Hp.
  unfold teardown_events, bind.
  unfold vmm_guest_aspace_unregister_client, emit at 1.
  destruct (dom s) as [dm|], (dev s) as [d|];
    unfold vmm_iommu_domain_free, vmm_devdrv_dref_device, emit, ret;
    rewrite unregister_irqs_run, !free_array_run; unfold vmm_free, emit;
    simpl; rewrite <- ?app_assoc; simpl; reflexivity.
Qed.

(** X13: remove of an attached instance, from any state of the host.  It
    returns success and clears the slot.  Of the routed lines, the installed
    handlers, the live blocks and domains and the subscribed clients it takes
    away exactly those of the instance; it gives back the one reference the
    instance holds on its device; it leaves the trigger type of every line as
    it is.  A second remove, on the cleared slot, returns Failure and calls
    nothing. *)
Theorem remove_releases (edev : vmm_emudev) (s : platform_pt_state) (tr : list event) :
  priv edev = Some s ->
  let r := platform_pt_remove edev tr in
  fst (fst r) = VMM_OK /\
  snd (fst r) = {| node := node edev; priv := None |} /\
  routed_lines (snd r) = routed_lines tr ∖ lines s 0 (Z.to_nat (irq_count s)) /\
  irq_handlers (snd r) = irq_handlers tr ∖ handler_keys s 0 (Z.to_nat (irq_count s)) /\
  live_blocks (snd r) = live_blocks tr ∖ held_blocks s /\
  live_domains (snd r) = live_domains tr ∖ instance_domain s /\
  aspace_clients (snd r) = aspace_clients tr ∖ {[self s]} /\
  (forall d, device_refs (snd r) d = device_refs tr d - instance_ref s d) /\
  line_types (snd r) = line_types tr /\
  platform_pt_remove (snd (fst r)) (snd r) = ((VMM_EFAIL, snd (fst r)), snd r).
Proof.
  intros Hp r. subst r. rewrite (remove_run edev s tr Hp). cbn [fst snd].
  destruct (teardown_effect s) as (T1 & T2 & T3 & T4 & T5 & T6 & T7 & _).
  split; [reflexivity|]. split; [reflexivity|].
  rewrite routed_lines_app, irq_handlers_app, live_blocks_app, live_domains_app,
    aspace_clients_app, T1, T2, T3, T4, T5.
  repeat (split; [reflexivity|]).
  split; [intros d; rewrite device_refs_app, T6; reflexivity|].
  split; [|reflexivity].
  unfold line_types. rewrite foldl_app, T7. reflexivity.
Qed.

(** ** The probe, from the configuration to the instance *)

Section ProbeAttached.
Context `{Host}.

(** X6: the instance a successful probe attaches.  The slot holds a structure
    at the block the first allocation returned; its guest is the probing
    guest, its name the name built from guest and node name, which fits the
    capacity; its count is the byte length of "host-interrupts", as a [u32],
    divided by 8; its notifier block carries the subscriber callback at
    priority 0; it has a domain exactly when it has an IOMMU device.  The
    subscription was made for the structure and succeeded, and the fault
    handler of a domain was installed with the structure as context. *)
Theorem probe_success_instance (g : vmm_guest) (edev : vmm_emudev) (tr : list event) :
  let r := platform_pt_probe g edev tr in
  let evs := events_of (platform_pt_probe g edev) tr in
  fst (fst r) = VMM_OK ->
  exists s n,
    snd (fst r) = {| node := node edev; priv := Some s |} /\
    EvZalloc sizeof_platform_pt_state (Some (self s)) ∈ evs /\
    EvAttrlen (node edev) "host-interrupts" n ∈ evs /\
    guest s = Some g /\
    name s = fst (probe_name g edev (zeroed_state (self s))) /\
    (snd (probe_name g edev (zeroed_state (self s))) < sizeof_name)%nat /\
    irq_count s = to_u32 n / (sizeof_u32 * 2) /\
    nb s = {| notifier_call := Some platform_pt_guest_aspace_notification_fn;
              priority := 0 |} /\
    (dom s = None <-> dev s = None) /\
    EvRegisterClient (self s) 0 ∈ evs /\
    (forall dm, dom s = Some dm -> EvSetFaultHandler dm (self s) ∈ evs).
Proof.
  intros r evs Hok. subst r evs.
  destruct (platform_pt_probe_run g edev tr) as (rc & edev' & evs & E & Ho).
  rewrite (events_of_app _ _ _ _ E). rewrite E in *. cbn [fst snd] in *. subst rc.
  destruct (probe_outcome_attached _ _ _ _ Ho)
    as (s & n & -> & A1 & A2 & A3 & A4 & A5 & A6 & A7 & A8 & A9 & A10 & _).
  exists s, n. unfold attach.
  split; [reflexivity|]. split; [exact A1|]. split; [exact A2|].
  split; [exact A3|]. split; [exact A4|]. split; [exact A5|].
  split; [exact A6|]. split; [exact A7|]. split; [exact A8|].
  split; [exact A9|exact A10].
Qed.

(** X7: what a successful probe holds when it returns.  Whatever the host
    held before, the probe adds to it the host lines of the table as routed,
    a handler for each of them with the instance as context, the blocks of
    the instance and of its arrays, the domain of the instance if it has one,
    the instance as subscribed client, and one reference on its IOMMU device.
    The handlers installed are those of the indices below the count, in
    order; the probe unregistered no line and freed no block. *)
Theorem probe_success_resources (g : vmm_guest) (edev : vmm_emudev) (tr : list event) :
  let r := platform_pt_probe g edev tr in
  let evs := events_of (platform_pt_probe g edev) tr in
  fst (fst r) = VMM_OK ->
  exists s,
    priv (snd (fst r)) = Some s /\
    routed_lines (snd r) = lines s 0 (Z.to_nat (irq_count s)) ∪ routed_lines tr /\
    irq_handlers (snd r) = handler_keys s 0 (Z.to_nat (irq_count s)) ∪ irq_handlers tr /\
    live_blocks (snd r) = held_blocks s ∪ live_blocks tr /\
    live_domains (snd r) = instance_domain s ∪ live_domains tr /\
    aspace_clients (snd r) = {[self s]} ∪ aspace_clients tr /\
    (forall d, device_refs (snd r) d = device_refs tr d + instance_ref s d) /\
    registered_ok evs
    = map (fun j => (arr_get (host_irqs s) j, self s)) (seq 0 (Z.to_nat (irq_count s))) /\
    unregistered evs = [] /\ freed evs = [].
Proof.
  intros r evs Hok. subst r evs.
  destruct (platform_pt_probe_run g edev tr) as (rc & edev' & evs & E & Ho).
  rewrite (events_of_app _ _ _ _ E). rewrite E in *. cbn [fst snd] in *. subst rc.
  destruct (probe_outcome_attached _ _ _ _ Ho)
    as (s & n & -> & _ & _ & _ & _ & _ & _ & _ & _ & _ & _
        & R1 & R2 & R3 & R4 & R5 & R6 & R7 & R8 & R9).
  exists s. split; [reflexivity|].
  rewrite routed_lines_app, irq_handlers_app, live_blocks_app, live_domains_app,
    aspace_clients_app, R1, R2, R3, R4, R5.
  repeat (split; [reflexivity|]).
  split; [intros d; rewrite device_refs_app, R6; reflexivity|].
  split; [exact R7|]. split; [exact R8|exact R9].
Qed.

(** X8: the tables of the instance hold the configuration.  After a
    successful probe the three arrays have a cell for every index below the
    count, and for each such index [j] the cells hold, as [u32], what three
    successful reads of this probe returned: the cells [2j] and [2j+1] of
    "host-interrupts" for the host line and its type, and the cell [j] of the
    guest interrupts for the guest line. *)
Theorem probe_tables_from_configuration (g : vmm_guest) (edev : vmm_emudev)
    (tr : list event) :
  let r := platform_pt_probe g edev tr in
  fst (fst r) = VMM_OK ->
  exists s,
    priv (snd (fst r)) = Some s /\ arrays_sized s /\
    forall j, (j < Z.to_nat (irq_count s))%nat ->
      triple_read (node edev) s j (events_of (platform_pt_probe g edev) tr).
Proof.
  intros r Hok. subst r.
  destruct (platform_pt_probe g edev tr) as [[rc edev'] tr'] eqn:E.
  cbn [fst snd] in *. subst rc.
  destruct (probe_to_irqs _ _ _ _ _ E) as (p & n & s0 & pre & Hentry & Eirqs).
  destruct (loop_entry_heap _ _ _ ∅ Hentry eq_refl eq_refl eq_refl)
    as (_&_&_&_&_&_&_&_&_&_&_& Pdev & Pdom).
  destruct (probe_irqs_values _ _ _ _ _ Pdev Pdom (loop_entry_sized _ _ _ Hentry) Eirqs)
    as (sf & evs & -> & -> & Hcount & Hsized & Hv).
  exists sf. split; [reflexivity|]. split; [exact Hsized|].
  intros j Hj.
  rewrite <- app_assoc in E. rewrite (events_of_app _ _ _ _ E).
  apply (triple_read_mono (node edev) sf j evs); [|apply Hv; exact Hj].
  intros x Hx. apply elem_of_app. right. exact Hx.
Qed.

(** X14: probe, then remove.  From a host that holds nothing, a successful
    probe followed by remove on the slot it filled returns success, clears
    the slot, and leaves nothing behind: no line routed, no handler
    installed, no block or domain live, no client subscribed, and every
    device with the references it had.  Remove unregisters exactly the
    handlers the probe installed, in the same order. *)
Theorem probe_remove_round_trip (g : vmm_guest) (edev : vmm_emudev) (tr : list event) :
  let r := platform_pt_probe g edev tr in
  no_resources tr ->
  fst (fst r) = VMM_OK ->
  let r2 := platform_pt_remove (snd (fst r)) (snd r) in
  fst (fst r2) = VMM_OK /\
  snd (fst r2) = {| node := node edev; priv := None |} /\
  no_resources (snd r2) /\
  (forall d, device_refs (snd r2) d = device_refs tr d) /\
  unregistered (events_of (platform_pt_remove (snd (fst r))) (snd r))
  = registered_ok (events_of (platform_pt_probe g edev) tr).
Proof.
  intros r (N1 & N2 & N3 & N4 & N5) Hok. subst r.
  destruct (platform_pt_probe_run g edev tr) as (rc & edev' & evs & E & Ho).
  rewrite (events_of_app _ _ _ _ E). rewrite E in *. cbn [fst snd] in *. subst rc.
  destruct (probe_outcome_attached _ _ _ _ Ho)
    as (s & n & -> & _ & _ & _ & _ & _ & _ & _ & _ & _ & _
        & R1 & R2 & R3 & R4 & R5 & R6 & R7 & _).
  pose proof (remove_run (attach edev s) s (tr ++ evs) eq_refl) as Er.
  rewrite (events_of_app _ _ _ _ Er). rewrite Er. cbn [fst snd node attach].
  destruct (teardown_effect s) as (T1 & T2 & T3 & T4 & T5 & T6 & _ & T8).
  split; [reflexivity|]. split; [reflexivity|].
  split; [|split].
  - unfold no_resources.
    rewrite !routed_lines_app, !irq_handlers_app, !live_blocks_app, !live_domains_app,
      !aspace_clients_app, T1, T2, T3, T4, T5, R1, R2, R3, R4, R5, N1, N2, N3, N4, N5.
    clear. repeat split; set_solver.
  - intros d. rewrite !device_refs_app, T6, R6. lia.
  - rewrite T8, R7. reflexivity.
Qed.

End ProbeAttached.

(** ** Failures of the probe outside the loop *)

Section ProbeFailures.
Context `{Host}.

Lemma loop_trace_no_stage nd s i m e evs x :
  loop_trace nd s i m e evs -> x ∈ evs -> is_loop_event x = true.
Proof.
  intros Hl Hx. pose proof (loop_trace_kind _ _ _ _ _ _ Hl) as Hk.
  rewrite Forall_forall in Hk. apply Hk. exact Hx.
Qed.

Lemma after_loop_elem s k edev e rc edev' tail x :
  after_loop s k edev e rc edev' tail -> x ∈ tail ->
  is_stage_event x || is_cleanup_event x = true.
Proof.
  intros Hal Hx. pose proof (after_loop_kind _ _ _ _ _ _ _ Hal) as Hk.
  rewrite Forall_forall in Hk. apply Hk. exact Hx.
Qed.

(** A subscription that fails, seen in what follows the loop. *)
Lemma after_loop_client_failure s k edev e rc0 edev' tail d rc :
  after_loop s k edev e rc0 edev' tail ->
  EvRegisterClient d rc ∈ tail -> is_err rc = true ->
  e = None /\ rc0 = rc /\ d = self s.
Proof.
  intros Hal Hx Hrc.
  assert (Hc : EvRegisterClient d rc ∈ cleanup_events s k -> False).
  { intros Hin. pose proof (cleanup_events_kind s k) as Hk.
    rewrite Forall_forall in Hk. specialize (Hk _ Hin). discriminate Hk. }
  destruct Hal as [c| |c Hr|nm|nm dv Hg|nm dv Hg|nm dv dm c Hg Hr|nm dv dm Hg];
    try (apply elem_of_app in Hx; destruct Hx as [Hx|Hx]; [|destruct (Hc Hx)]);
    try (destruct (Hc Hx));
    mem_cases Hx; injection Hx as -> ->;
    try discriminate Hrc; repeat split; reflexivity.
Qed.

(** X11: the probe is all or nothing.  From a host that holds nothing, a
    probe that does not return success leaves the slot as it was and leaves
    nothing behind: no line routed, no handler installed, no block or domain
    live, no client subscribed, every device with the references it had; the
    handlers it unregistered are the handlers it had installed, in order. *)
Theorem probe_all_or_nothing (g : vmm_guest) (edev : vmm_emudev) (tr : list event) :
  let r := platform_pt_probe g edev tr in
  let evs := events_of (platform_pt_probe g edev) tr in
  no_resources tr ->
  fst (fst r) <> VMM_OK ->
  snd (fst r) = edev /\
  no_resources (snd r) /\
  (forall d, device_refs (snd r) d = device_refs tr d) /\
  unregistered evs = registered_ok evs.
Proof.
  intros r evs Hclean Hrc. subst r evs.
  destruct (platform_pt_probe_run g edev tr) as (rc & edev' & evs & E & Ho).
  rewrite (events_of_app _ _ _ _ E). rewrite E in *. cbn [fst snd] in *.
  apply (probe_outcome_released _ _ _ _ _ tr Ho Hrc Hclean).
Qed.

(** X4: an allocation that fails.  When one of the allocations of the probe
    returns no block, the probe returns OutOfMemory and leaves the slot as it
    was; it has read no triple and registered no line; it frees the blocks
    it had obtained in the reverse order of their allocation. *)
Theorem probe_out_of_memory (g : vmm_guest) (edev : vmm_emudev) (tr : list event)
    (sz : Z) :
  let r := platform_pt_probe g edev tr in
  let evs := events_of (platform_pt_probe g edev) tr in
  EvZalloc sz None ∈ evs ->
  fst (fst r) = VMM_ENOMEM /\
  snd (fst r) = edev /\
  Forall (fun e => is_quiet e = true) evs /\
  freed evs = reverse (allocated evs).
Proof.
  intros r evs Hx. subst r evs.
  destruct (platform_pt_probe_run g edev tr) as (rc & edev' & evs & E & Ho).
  rewrite (events_of_app _ _ _ _ E) in *. rewrite E. cbn [fst snd].
  destruct Ho as [|p Hov|p n Hov Hn|p n a1 Hov Hn|p n a1 a2 Hov Hn
                  |p n s0 pre s' k e lev rc edev' tail Hov Hentry Hl Hf Hk Hnone Hsome Hal].
  2: mem_cases Hx.
  1-4: (split; [reflexivity|]); (split; [reflexivity|]);
    (split; [repeat constructor|reflexivity]).
  exfalso. rewrite !elem_of_app in Hx. destruct Hx as [Hx|[Hx|[Hx|Hx]]].
  - mem_cases Hx.
  - destruct Hentry; mem_cases Hx.
  - pose proof (loop_trace_no_stage _ _ _ _ _ _ _ Hl Hx) as Hk'. discriminate Hk'.
  - pose proof (after_loop_elem _ _ _ _ _ _ _ _ Hal Hx) as Hk'. discriminate Hk'.
Qed.

(** X10: a subscription that fails.  When the registration of the instance as
    client of the address-space events fails, every triple has been read and
    its line registered; the probe returns the error of the registration and
    leaves the slot as it was.  From a host that holds nothing it then leaves
    nothing behind: all the lines are unregistered again, the domain is
    freed and the reference on the device released. *)
Theorem probe_subscription_failure (g : vmm_guest) (edev : vmm_emudev)
    (tr : list event) (d : nat) (rc : Z) :
  let r := platform_pt_probe g edev tr in
  let evs := events_of (platform_pt_probe g edev) tr in
  no_resources tr ->
  EvRegisterClient d rc ∈ evs ->
  is_err rc = true ->
  fst (fst r) = rc /\
  snd (fst r) = edev /\
  (exists n, EvAttrlen (node edev) "host-interrupts" n ∈ evs /\
             length (registered_ok evs) = Z.to_nat (to_u32 n / (sizeof_u32 * 2))) /\
  unregistered evs = registered_ok evs /\
  (forall d', device_refs (snd r) d' = device_refs tr d') /\
  no_resources (snd r).
Proof.
  intros r evs Hclean Hx Hrc. subst r evs.
  destruct (platform_pt_probe_run g edev tr) as (rc0 & edev' & evs & E & Ho).
  rewrite (events_of_app _ _ _ _ E) in *. rewrite E. cbn [fst snd].
  assert (Hcode : rc0 = rc /\
            exists n, EvAttrlen (node edev) "host-interrupts" n ∈ evs /\
              length (registered_ok evs) = Z.to_nat (to_u32 n / (sizeof_u32 * 2))).
  { destruct Ho as [|p Hov|p n Hov Hn|p n a1 Hov Hn|p n a1 a2 Hov Hn
                    |p n s0 pre s' k e lev rc0 edev' tail Hov Hentry Hl Hf Hk Hnone Hsome Hal].
    1-5: mem_cases Hx.
    assert (Htail : EvRegisterClient d rc ∈ tail).
    { rewrite !elem_of_app in Hx. destruct Hx as [Hx|[Hx|[Hx|Hx]]].
      - mem_cases Hx.
      - destruct Hentry; mem_cases Hx.
      - pose proof (loop_trace_no_stage _ _ _ _ _ _ _ Hl Hx) as Hk'. discriminate Hk'.
      - exact Hx. }
    destruct (after_loop_client_failure _ _ _ _ _ _ _ _ _ Hal Htail Hrc)
      as (-> & -> & _).
    split; [reflexivity|]. exists n.
    split; [repeat (apply elem_of_cons; first [left; reflexivity|right])|].
    destruct (loop_entry_heap _ _ _ ∅ Hentry eq_refl eq_refl eq_refl)
      as (_&_&_&_&_&_& P6 &_&_& Pn &_).
    destruct (after_loop_failed _ _ _ _ _ _ _ Hal (is_err_true _ Hrc))
      as (_&_&_&_&_&_&_& T7 &_).
    pose proof (loop_trace_registered _ _ _ _ _ _ Hl) as Lreg.
    unfold registered_ok in *. rewrite !omap_app, P6, Lreg, T7.
    cbn [omap list_omap app]. rewrite app_nil_r, length_map, length_seq.
    rewrite (Hnone eq_refl), Pn. reflexivity. }
  destruct Hcode as (-> & Hn).
  destruct (probe_outcome_released _ _ _ _ _ tr Ho (is_err_true _ Hrc) Hclean)
    as (-> & Hres & Hrefs & Hunreg).
  split; [reflexivity|]. split; [reflexivity|]. split; [exact Hn|].
  split; [exact Hunreg|]. split; [exact Hrefs|exact Hres].
Qed.

(** X5: a configuration without a complete triple.  When the byte length of
    "host-interrupts", as a [u32], is below 8, the count is 0: the probe
    allocates the structure and no array, reads no triple, registers and
    unregisters no line; when it succeeds the instance has count 0 and its
    three arrays are [NULL]. *)
Theorem probe_without_lines (g : vmm_guest) (edev : vmm_emudev) (tr : list event)
    (n : Z) :
  let r := platform_pt_probe g edev tr in
  let evs := events_of (platform_pt_probe g edev) tr in
  EvAttrlen (node edev) "host-interrupts" n ∈ evs ->
  to_u32 n / (sizeof_u32 * 2) = 0 ->
  count_calls is_zalloc evs = 1%nat /\
  Forall (fun e => is_quiet e = true) evs /\
  unregistered evs = [] /\
  (fst (fst r) = VMM_OK ->
   exists s, priv (snd (fst r)) = Some s /\ irq_count s = 0 /\
             host_irqs s = None /\ host_type_irqs s = None /\ guest_irqs s = None).
Proof.
  intros r evs Hx Hzero. subst r evs.
  destruct (platform_pt_probe_run g edev tr) as (rc & edev' & evs & E & Ho).
  rewrite (events_of_app _ _ _ _ E) in *. rewrite E. cbn [fst snd].
  destruct Ho as [|p Hov|p n' Hov Hn|p n' a1 Hov Hn|p n' a1 a2 Hov Hn
                  |p n' s0 pre s' k e lev rc edev' tail Hov Hentry Hl Hf Hk Hnone Hsome Hal].
  1-2: mem_cases Hx.
  1-3: mem_cases Hx; injection Hx as <-; destruct (Hn Hzero).
  assert (En : n' = n).
  { rewrite !elem_of_app in Hx. destruct Hx as [Hx|[Hx|[Hx|Hx]]].
    - mem_cases Hx. injection Hx as <-. reflexivity.
    - destruct Hentry; mem_cases Hx.
    - pose proof (loop_trace_no_stage _ _ _ _ _ _ _ Hl Hx) as Hk'. discriminate Hk'.
    - pose proof (after_loop_elem _ _ _ _ _ _ _ _ Hal Hx) as Hk'. discriminate Hk'. }
  subst n'. clear Hx.
  destruct Hentry as [Hn|a1 a2 a3 Hn]; [|destruct (Hn Hzero)].
  set (s0 := counted_state g edev p n) in *.
  assert (Ek : k = 0%nat) by (rewrite Hn in Hk; simpl in Hk; lia).
  subst k.
  assert (Ee : e = None).
  { destruct e as [c|]; [|reflexivity].
    assert (Hlt : (0 < Z.to_nat (irq_count s0))%nat) by (apply Hsome; discriminate).
    rewrite Hn in Hlt. simpl in Hlt. lia. }
  subst e. rewrite (loop_trace_nil _ _ _ _ _ Hl eq_refl).
  cbn [app].
  pose proof (after_loop_quiet _ _ _ _ _ _ _ Hal) as Qt.
  pose proof (after_loop_kind _ _ _ _ _ _ _ Hal) as Kt.
  destruct Hf as (F1 & F2 & F3 & F4 & F5 & F6 & F7 & F8 & F9 & F10).
  assert (Hunreg : unregistered tail = []).
  { destruct (decide (rc = 0)) as [->|Hrc].
    - destruct (after_loop_success _ _ _ _ _ Hal)
        as (sf & _ & _ & _ & _ & _ & _ & _ & _ & _ & _ & _ & _ & _ & _ & _ & _ & T & _);
        [rewrite F5; reflexivity|rewrite F6; reflexivity|exact T].
    - destruct (after_loop_failed _ _ _ _ _ _ _ Hal Hrc) as (_&_&_&_&_&_&_&_& T).
      exact T. }
  split.
  { unfold count_calls. cbn [List.filter is_zalloc length].
    rewrite (filter_nil_forall is_zalloc tail); [reflexivity|].
    eapply Forall_impl; [exact Kt|].
    intros x. destruct x; simpl; try discriminate; reflexivity. }
  split; [repeat constructor; exact Qt|].
  split; [exact Hunreg|].
  intros ->.
  destruct (after_loop_success _ _ _ _ _ Hal)
    as (sf & -> & S1 & S2 & S3 & S4 & S5 & S6 & S7 & _);
    [rewrite F5; reflexivity|rewrite F6; reflexivity|].
  exists sf. split; [reflexivity|].
  split; [rewrite S4, F4; exact Hn|].
  rewrite S5, S6, S7.
  repeat split.
  - destruct (host_irqs s'); [discriminate F8|reflexivity].
  - destruct (host_type_irqs s'); [discriminate F9|reflexivity].
  - destruct (guest_irqs s'); [discriminate F10|reflexivity].
Qed.

(** X3: a name that does not fit.  Unless the guest name has 63 characters or
    more and the node name is empty, a guest name, "/" and node name of
    together 64 characters or more make the probe fail before it looks at the
    configuration: it returns OutOfMemory when the structure cannot be
    allocated, and else frees the structure and returns Overflow; the slot is
    as it was. *)
Theorem probe_long_name (g : vmm_guest) (edev : vmm_emudev) (tr : list event) :
  let r := platform_pt_probe g edev tr in
  let evs := events_of (platform_pt_probe g edev) tr in
  (String.length (guest_name g) <= 62)%nat \/
  (1 <= String.length (node_name (node edev)))%nat ->
  (sizeof_name <= String.length (guest_name g) + 1
                  + String.length (node_name (node edev)))%nat ->
  snd (fst r) = edev /\
  ((fst (fst r) = VMM_ENOMEM /\ evs = [EvZalloc sizeof_platform_pt_state None]) \/
   (exists p, fst (fst r) = VMM_EOVERFLOW /\
              evs = [EvZalloc sizeof_platform_pt_state (Some p); EvFree p])).
Proof.
  intros r evs Hcase Hlong. subst r evs.
  destruct (platform_pt_probe_run g edev tr) as (rc & edev' & evs & E & Ho).
  rewrite (events_of_app _ _ _ _ E). rewrite E. cbn [fst snd].
  assert (Hdet : forall p, (sizeof_name <= snd (probe_name g edev (zeroed_state p)))%nat).
  { intros p. apply (probe_name_detects g edev p Hcase). exact Hlong. }
  destruct Ho as [|p Hov|p n Hov Hn|p n a1 Hov Hn|p n a1 a2 Hov Hn
                  |p n s0 pre s' k e lev rc edev' tail Hov Hentry Hl Hf Hk Hnone Hsome Hal].
  - split; [reflexivity|]. left. split; reflexivity.
  - split; [reflexivity|]. right. exists p. split; reflexivity.
  - specialize (Hdet p). lia.
  - specialize (Hdet p). lia.
  - specialize (Hdet p). lia.
  - specialize (Hdet p). lia.
Qed.

End ProbeFailures.

(** ** The cause of each return of the probe, and the calls of a success *)

Section ProbeCauses.
Context `{Host}.

Lemma reads_failed_call nd i rc blk :
  reads nd i (Some rc) blk -> exists x, x ∈ blk /\ failure_of x rc.
Proof.
  intros Hr. inversion Hr as [rc' v Hrc|v1 rc' v Hrc|v1 v2 rc' v Hrc|]; subst.
  - exists (EvReadU32 nd "host-interrupts" (to_u32 (Z.of_nat i * 2)) rc v).
    split; [repeat (apply elem_of_cons; first [left; reflexivity|right])|].
    right. simpl. rewrite Hrc. reflexivity.
  - exists (EvReadU32 nd "host-interrupts" (to_u32 (Z.of_nat i * 2 + 1)) rc v).
    split; [repeat (apply elem_of_cons; first [left; reflexivity|right])|].
    right. simpl. rewrite Hrc. reflexivity.
  - exists (EvReadU32 nd VMM_DEVTREE_INTERRUPTS_ATTR_NAME (Z.of_nat i) rc v).
    split; [repeat (apply elem_of_cons; first [left; reflexivity|right])|].
    right. simpl. rewrite Hrc. reflexivity.
Qed.

Lemma register_failed_call h t nm d rc evs :
  register_outcome h t nm d (Some rc) evs -> exists x, x ∈ evs /\ failure_of x rc.
Proof.
  intros Hr. inversion Hr as [rc' Hrc|rc' Hrc|rc' Hrc|]; subst.
  - exists (EvSetType h t rc). split; [apply elem_of_cons; left; reflexivity|].
    left. simpl. rewrite Hrc. reflexivity.
  - exists (EvMarkRouted h rc).
    split; [repeat (apply elem_of_cons; first [left; reflexivity|right])|].
    left. simpl. rewrite Hrc. reflexivity.
  - exists (EvRegister h nm d rc).
    split; [repeat (apply elem_of_cons; first [left; reflexivity|right])|].
    left. simpl. rewrite Hrc. reflexivity.
Qed.

Lemma iteration_failed_call nd i h t nm d rc blk :
  iteration nd i h t nm d (Some rc) blk -> exists x, x ∈ blk /\ failure_of x rc.
Proof.
  intros Hit. inversion Hit as [rc' b Hr|b e' evs Hr Hreg]; subst.
  - apply (reads_failed_call _ _ _ _ Hr).
  - destruct (register_failed_call _ _ _ _ _ _ Hreg) as (x & Hx & Hf).
    exists x. split; [apply elem_of_app; right; exact Hx|exact Hf].
Qed.

Lemma loop_trace_failed_call nd s i m rc evs :
  loop_trace nd s i m (Some rc) evs -> exists x, x ∈ evs /\ failure_of x rc.
Proof.
  intros Hl. remember (Some rc) as e eqn:He.
  induction Hl as [i|i rc' blk Hit|i m e blk evs Hit _ IH].
  - discriminate.
  - injection He as ->. apply (iteration_failed_call _ _ _ _ _ _ _ _ Hit).
  - destruct (IH He) as (x & Hx & Hf). exists x.
    split; [apply elem_of_app; right; exact Hx|exact Hf].
Qed.

Lemma iteration_done_events nd i h t nm d blk :
  iteration nd i h t nm d None blk ->
  exists v1 v2 v3,
    blk = [EvReadU32 nd "host-interrupts" (to_u32 (Z.of_nat i * 2)) 0 v1;
           EvReadU32 nd "host-interrupts" (to_u32 (Z.of_nat i * 2 + 1)) 0 v2;
           EvReadU32 nd VMM_DEVTREE_INTERRUPTS_ATTR_NAME (Z.of_nat i) 0 v3;
           EvSetType h t 0; EvMarkRouted h 0; EvRegister h nm d 0].
Proof.
  intros Hit. inversion Hit as [|b e' evs' Hr Hreg]; subst.
  inversion Hr; subst. inversion Hreg; subst. eexists _, _, _. reflexivity.
Qed.

(** The calls of a loop that ended without error. *)
Lemma loop_trace_done_calls nd s i m evs :
  loop_trace nd s i m None evs ->
  count_calls is_read evs = (3 * m)%nat /\
  count_calls is_set_type evs = m /\
  count_calls is_mark evs = m /\
  count_calls is_register evs = m /\
  Forall (fun x => irq_step_failure x = None /\ read_failure x = None) evs.
Proof.
  intros Hl. remember None as e eqn:He.
  induction Hl as [i|i rc blk Hit|i m e blk evs Hit _ IH].
  - repeat split; try reflexivity. constructor.
  - discriminate.
  - destruct (IH He) as (I1 & I2 & I3 & I4 & I5). subst e.
    destruct (iteration_done_events _ _ _ _ _ _ _ Hit) as (v1 & v2 & v3 & Eb).
    rewrite Eb.
    unfold count_calls in *. rewrite !List.filter_app, !length_app, I1, I2, I3, I4.
    cbn [List.filter is_read is_set_type is_mark is_register length app].
    repeat split; try lia.
    repeat (apply Forall_cons; split; [split; reflexivity|]). exact I5.
Qed.

(** A call of the IOMMU stage or of the subscription, seen in what follows
    the loop. *)
Lemma probe_outcome_stage_elem g edev rc edev' evs x :
  probe_outcome g edev rc edev' evs -> is_stage_event x = true -> x ∈ evs ->
  exists s k tail,
    after_loop s k edev None rc edev' tail /\ x ∈ stage_events tail.
Proof.
  intros Ho Hs Hx. apply (stage_events_elem _ _ Hs) in Hx.
  destruct (probe_outcome_stage _ _ _ _ _ Ho) as [Enil|(s & k & e & tail & Hal & Estage)].
  { rewrite Enil in Hx. apply elem_of_nil in Hx. contradiction. }
  rewrite Estage in Hx.
  destruct e as [c|].
  - destruct (after_loop_stage _ _ _ _ _ _ _ Hal) as (stage & Es & ->).
    rewrite Es in Hx. apply elem_of_nil in Hx. contradiction.
  - exists s, k, tail. split; [exact Hal|exact Hx].
Qed.

(** The code the probe returns when a call of the IOMMU stage got no
    answer. *)
Lemma after_loop_stage_cause s k edev rc edev' tail :
  after_loop s k edev None rc edev' tail ->
  (forall nm, EvFindDevice nm None ∈ stage_events tail -> rc = VMM_EINVALID) /\
  (forall nm dv, EvFindDevice nm (Some dv) ∈ stage_events tail ->
                 iommu_group dv = None -> rc = VMM_EINVALID) /\
  (forall grp ty, EvDomainAlloc grp ty None ∈ stage_events tail -> rc = VMM_EFAIL) /\
  (forall d c, EvRegisterClient d c ∈ stage_events tail -> is_err c = true -> rc = c).
Proof.
  intros Hal.
  destruct (after_loop_stage _ _ _ _ _ _ _ Hal) as (stage & -> & Hcases).
  destruct Hcases as [(->&_&->)|[(c&Hc&->&->)|[(nm'&->&->)|[(nm'&dv'&Hg&->&->)
    |[(nm'&dv'&Hg&->&->)|[(nm'&dv'&dm&c&Hg&Hc&->&->)|(nm'&dv'&dm&Hg&->&_&->)]]]]]];
    repeat split; intros; 
    match goal with Hin : _ ∈ _ |- _ => mem_cases Hin end;
    try reflexivity;
    try reflexivity;
    match goal with
    | Hin : @eq event _ _ |- _ => injection Hin; intros; subst
    end;
    first [reflexivity|contradiction|discriminate].
Qed.

Lemma probe_outcome_nomem g edev rc edev' evs sz :
  probe_outcome g edev rc edev' evs -> EvZalloc sz None ∈ evs -> rc = VMM_ENOMEM.
Proof.
  intros Ho Hx.
  destruct Ho as [|p Hov|p n Hov Hn|p n a1 Hov Hn|p n a1 a2 Hov Hn
                  |p n s0 pre s' k e lev rc edev' tail Hov Hentry Hl Hf Hk Hnone Hsome Hal];
    try reflexivity.
  - mem_cases Hx.
  - exfalso. rewrite !elem_of_app in Hx. destruct Hx as [Hx|[Hx|[Hx|Hx]]].
    + mem_cases Hx.
    + destruct Hentry; mem_cases Hx.
    + pose proof (loop_trace_no_stage _ _ _ _ _ _ _ Hl Hx) as Hk'. discriminate Hk'.
    + pose proof (after_loop_elem _ _ _ _ _ _ _ _ Hal Hx) as Hk'. discriminate Hk'.
Qed.

Lemma probe_outcome_overflow g edev rc edev' evs p :
  probe_outcome g edev rc edev' evs ->
  evs = [EvZalloc sizeof_platform_pt_state (Some p); EvFree p] -> rc = VMM_EOVERFLOW.
Proof.
  intros Ho Hx.
  destruct Ho as [|p' Hov|p' n Hov Hn|p' n a1 Hov Hn|p' n a1 a2 Hov Hn
                  |p' n s0 pre s' k e lev rc edev' tail Hov Hentry Hl Hf Hk Hnone Hsome Hal];
    try reflexivity; try discriminate Hx.
Qed.

(** X12: every return of the probe has a cause among the calls the probe
    made, and the cause fixes the code returned.  Either the probe succeeds,
    with an instance attached, or its trace holds one of these: an allocation
    that returned no block; the structure freed right after its allocation;
    a lookup of the IOMMU device that found none, or found a device without
    group; a domain allocation that returned no domain; a call that failed (a
    read of the configuration, a registration step, or the subscription).  In
    the other direction: with an allocation that returned no block the probe
    returns OutOfMemory; with the structure freed right after its allocation,
    Overflow; with a lookup that found no device or no group, InvalidConfig;
    with a domain allocation that returned no domain, Failure; with a call
    that failed, the code of that call, which is not 0.  (A code alone does
    not tell the cause: a failed call can return any code.) *)
Theorem probe_return_cause (g : vmm_guest) (edev : vmm_emudev) (tr : list event) :
  let r := platform_pt_probe g edev tr in
  let evs := events_of (platform_pt_probe g edev) tr in
  let rc := fst (fst r) in
  ((rc = VMM_OK /\ exists s, priv (snd (fst r)) = Some s) \/
   (exists sz, EvZalloc sz None ∈ evs) \/
   (exists p, evs = [EvZalloc sizeof_platform_pt_state (Some p); EvFree p]) \/
   (exists nm, EvFindDevice nm None ∈ evs \/
               exists dv, EvFindDevice nm (Some dv) ∈ evs /\ iommu_group dv = None) \/
   (exists grp ty, EvDomainAlloc grp ty None ∈ evs) \/
   (exists x c, x ∈ evs /\ (failure_of x c \/ client_failure x = Some c))) /\
  (forall sz, EvZalloc sz None ∈ evs -> rc = VMM_ENOMEM) /\
  (forall p, evs = [EvZalloc sizeof_platform_pt_state (Some p); EvFree p] ->
             rc = VMM_EOVERFLOW) /\
  (forall nm, EvFindDevice nm None ∈ evs -> rc = VMM_EINVALID) /\
  (forall nm dv, EvFindDevice nm (Some dv) ∈ evs -> iommu_group dv = None ->
                 rc = VMM_EINVALID) /\
  (forall grp ty, EvDomainAlloc grp ty None ∈ evs -> rc = VMM_EFAIL) /\
  (forall x c, x ∈ evs -> failure_of x c \/ client_failure x = Some c ->
               rc = c /\ c <> VMM_OK).
Proof.
  intros r evs rc. subst r evs rc.
  destruct (platform_pt_probe_run g edev tr) as (rc & edev' & evs & E & Ho).
  rewrite (events_of_app _ _ _ _ E). rewrite E. cbn [fst snd].
  split; [|split; [|split; [|split; [|split; [|split]]]]].
  - destruct Ho as [|p Hov|p n Hov Hn|p n a1 Hov Hn|p n a1 a2 Hov Hn
                    |p n s0 pre s' k e lev rc edev' tail Hov Hentry Hl Hf Hk Hnone Hsome Hal].
    + right; left. eexists.
      repeat (apply elem_of_cons; first [left; reflexivity|right]).
    + do 2 right; left. exists p. reflexivity.
    + right; left. eexists.
      repeat (apply elem_of_cons; first [left; reflexivity|right]).
    + right; left. eexists.
      repeat (apply elem_of_cons; first [left; reflexivity|right]).
    + right; left. eexists.
      repeat (apply elem_of_cons; first [left; reflexivity|right]).
    + assert (Hin : forall x l, x ∈ l ++ cleanup_events s' k ->
                x ∈ [EvZalloc sizeof_platform_pt_state (Some p);
                     EvAttrlen (node edev) "host-interrupts" n]
                    ++ pre ++ lev ++ l ++ cleanup_events s' k).
      { intros x l Hx. rewrite !elem_of_app in *. tauto. }
      assert (Hhere : forall x (l l' : list event), x ∈ l -> x ∈ l ++ l').
      { intros x l l' Hx. apply elem_of_app. left. exact Hx. }
      destruct Hal as [c| |c Hr|nm|nm dv Hg|nm dv Hg|nm dv dm c Hg Hr|nm dv dm Hg].
      * do 5 right.
        destruct (loop_trace_failed_call _ _ _ _ _ _ Hl) as (x & Hx & Hfail).
        exists x, c. split; [|left; exact Hfail].
        rewrite !elem_of_app. do 2 right. left. exact Hx.
      * left. split; [reflexivity|]. eexists. reflexivity.
      * do 5 right. exists (EvRegisterClient (self s') c), c.
        split; [|right; simpl; rewrite Hr; reflexivity].
        apply Hin, Hhere. repeat (apply elem_of_cons; first [left; reflexivity|right]).
      * do 3 right; left. exists nm. left.
        apply Hin, Hhere. repeat (apply elem_of_cons; first [left; reflexivity|right]).
      * do 3 right; left. exists nm. right. exists dv. split; [|exact Hg].
        apply Hin, Hhere. repeat (apply elem_of_cons; first [left; reflexivity|right]).
      * do 4 right; left. eexists _, _.
        apply Hin, Hhere. repeat (apply elem_of_cons; first [left; reflexivity|right]).
      * do 5 right. exists (EvRegisterClient (self s') c), c.
        split; [|right; simpl; rewrite Hr; reflexivity].
        apply Hin, Hhere. repeat (apply elem_of_cons; first [left; reflexivity|right]).
      * left. split; [reflexivity|]. eexists. reflexivity.
  - intros sz Hx. apply (probe_outcome_nomem _ _ _ _ _ _ Ho Hx).
  - intros p Hx. apply (probe_outcome_overflow _ _ _ _ _ _ Ho Hx).
  - intros nm Hx.
    destruct (probe_outcome_stage_elem _ _ _ _ _ (EvFindDevice nm None) Ho eq_refl Hx) as (s & k & tail & Hal & Hin).
    apply (proj1 (after_loop_stage_cause _ _ _ _ _ _ Hal) nm Hin).
  - intros nm dv Hx Hg.
    destruct (probe_outcome_stage_elem _ _ _ _ _ (EvFindDevice nm (Some dv)) Ho eq_refl Hx) as (s & k & tail & Hal & Hin).
    apply (proj1 (proj2 (after_loop_stage_cause _ _ _ _ _ _ Hal)) nm dv Hin Hg).
  - intros grp ty Hx.
    destruct (probe_outcome_stage_elem _ _ _ _ _ (EvDomainAlloc grp ty None) Ho eq_refl Hx) as (s & k & tail & Hal & Hin).
    apply (proj1 (proj2 (proj2 (after_loop_stage_cause _ _ _ _ _ _ Hal))) grp ty Hin).
  - intros x c Hx [Hf|Hf].
    + destruct (probe_outcome_failure _ _ _ _ _ _ _ Ho Hx Hf)
        as (s & k & pre & lev & _ & -> & Hne & _).
      split; [reflexivity|exact Hne].
    + destruct x; try discriminate Hf. simpl in Hf.
      destruct (is_err rc0) eqn:Hc; [|discriminate Hf]. injection Hf as ->.
      destruct (probe_outcome_stage_elem _ _ _ _ _ (EvRegisterClient d c) Ho eq_refl Hx)
        as (s & k & tail & Hal & Hin).
      split; [|apply is_err_true; exact Hc].
      apply (proj2 (proj2 (proj2 (after_loop_stage_cause _ _ _ _ _ _ Hal))) d c Hin Hc).
Qed.

(** X9: the calls of a successful probe.  With count [N], the probe that
    succeeds has made exactly [3 N] reads of the configuration and exactly
    [N] calls of each registration step (type-set, routed claim, handler
    install), and none of these calls failed. *)
Theorem probe_success_calls (g : vmm_guest) (edev : vmm_emudev) (tr : list event) :
  let r := platform_pt_probe g edev tr in
  let evs := events_of (platform_pt_probe g edev) tr in
  fst (fst r) = VMM_OK ->
  exists s,
    priv (snd (fst r)) = Some s /\
    count_calls is_read evs = (3 * Z.to_nat (irq_count s))%nat /\
    count_calls is_set_type evs = Z.to_nat (irq_count s) /\
    count_calls is_mark evs = Z.to_nat (irq_count s) /\
    count_calls is_register evs = Z.to_nat (irq_count s) /\
    Forall (fun x => irq_step_failure x = None /\ read_failure x = None) evs.
Proof.
  intros r evs Hok. subst r evs.
  destruct (platform_pt_probe_run g edev tr) as (rc & edev' & evs & E & Ho).
  rewrite (events_of_app _ _ _ _ E). rewrite E in *. cbn [fst snd] in *. subst rc.
  destruct (probe_outcome_success _ _ _ _ Ho)
    as (p & n & s0 & pre & s' & lev & tail & -> & Hov & Hentry & Hl & Hf & Hal).
  destruct (loop_trace_done_calls _ _ _ _ _ Hl) as (L1 & L2 & L3 & L4 & L5).
  pose proof (loop_entry_quiet _ _ _ Hentry) as Qp.
  pose proof (after_loop_quiet _ _ _ _ _ _ _ Hal) as Qt.
  destruct (loop_entry_heap _ _ _ ∅ Hentry eq_refl eq_refl eq_refl)
    as (_&_&_&_&_&_&_&_&_&_&_& Pdev & Pdom).
  destruct Hf as (F1 & F2 & F3 & F4 & F5 & F6 & _).
  destruct (after_loop_success _ _ _ _ _ Hal) as (sf & -> & _ & _ & _ & S4 & _);
    [rewrite F5, Pdev; reflexivity|rewrite F6, Pdom; reflexivity|].
  exists sf. split; [reflexivity|]. rewrite S4, F4.
  assert (Hq : forall (P : event -> bool) l,
             (forall x, is_quiet x = true -> P x = false) ->
             Forall (fun x => is_quiet x = true) l -> List.filter P l = []).
  { intros P l HP Hall. apply filter_nil_forall.
    eapply Forall_impl; [exact Hall|]. exact HP. }
  assert (Hno : forall l, Forall (fun x => is_quiet x = true) l ->
             Forall (fun x => irq_step_failure x = None /\ read_failure x = None) l).
  { intros l Hall. eapply Forall_impl; [exact Hall|].
    intros x. unfold is_quiet. destruct x; simpl; try discriminate; auto. }
  unfold count_calls in *. rewrite !List.filter_app, !length_app, L1, L2, L3, L4.
  rewrite !(Hq _ pre), !(Hq _ tail);
    try assumption;
    try (intros x; unfold is_quiet; destruct x; simpl; try discriminate; reflexivity).
  cbn [List.filter is_read is_set_type is_mark is_register length].
  repeat split; try lia.
  rewrite !Forall_app. split; [repeat constructor|].
  split; [apply Hno; exact Qp|]. split; [exact L5|apply Hno; exact Qt].
Qed.

End ProbeCauses.

(** ** The callbacks of an instance the probe attached *)

Section ProbeCallbacks.
Context `{Host}.

(** A successful probe: the guest and the tables of the instance. *)
Lemma probe_success_facts g edev tr edev' tr' :
  platform_pt_probe g edev tr = ((VMM_OK, edev'), tr') ->
  exists s evs,
    tr' = tr ++ evs /\ edev' = attach edev s /\ guest s = Some g /\
    arrays_sized s /\
    forall j, (j < Z.to_nat (irq_count s))%nat -> triple_read (node edev) s j evs.
Proof.
  intros E.
  destruct (probe_to_irqs _ _ _ _ _ E) as (p & n & s0 & pre & Hentry & Eirqs).
  destruct (loop_entry_heap _ _ _ ∅ Hentry eq_refl eq_refl eq_refl)
    as (_&_&_&_&_&_&_&_&_&_&_& Pdev & Pdom).
  destruct (probe_irqs_values _ _ _ _ _ Pdev Pdom (loop_entry_sized _ _ _ Hentry) Eirqs)
    as (sf & evs & -> & -> & Hcount & Hsized & Hv).
  destruct (platform_pt_probe_run g edev tr) as (rc & edev2 & evs2 & E2 & Ho).
  rewrite E in E2. injection E2 as <- <- E2.
  destruct (probe_outcome_attached _ _ _ _ Ho) as (s & n' & Es & _ & _ & Hg & _).
  injection Es as ->.
  exists s, (([EvZalloc sizeof_platform_pt_state (Some p);
               EvAttrlen (node edev) "host-interrupts" n] ++ pre) ++ evs).
  split; [rewrite <- !app_assoc; reflexivity|]. split; [reflexivity|].
  split; [exact Hg|]. split; [exact Hsized|].
  intros j Hj. apply (triple_read_mono (node edev) s j evs); [|apply Hv; exact Hj].
  intros x Hx. apply elem_of_app. right. exact Hx.
Qed.

(** X15: a host line fires after a successful probe.  The handler of the
    instance either finds the line in no cell of the table and calls nothing,
    or it delivers the firing to the probing guest, at level 0 and then at
    level 1, on the guest line the probe read from the guest interrupts at an
    index whose host line, as read from "host-interrupts", is the line that
    fired. *)
Theorem probe_then_irq (g : vmm_guest) (edev : vmm_emudev) (tr : list event)
    (irq : Z) (tr2 : list event) :
  let r := platform_pt_probe g edev tr in
  let evs := events_of (platform_pt_probe g edev) tr in
  fst (fst r) = VMM_OK ->
  exists s, priv (snd (fst r)) = Some s /\
    let calls := emulate_calls (events_of (platform_pt_routed_irq irq s) tr2) in
    ((forall j, (j < Z.to_nat (irq_count s))%nat ->
                arr_get (host_irqs s) j <> to_u32 irq) /\ calls = []) \/
    (exists m v1 v3, (m < Z.to_nat (irq_count s))%nat /\
       EvReadU32 (node edev) "host-interrupts" (to_u32 (Z.of_nat m * 2)) 0 v1 ∈ evs /\
       EvReadU32 (node edev) VMM_DEVTREE_INTERRUPTS_ATTR_NAME (Z.of_nat m) 0 v3 ∈ evs /\
       to_u32 v1 = to_u32 irq /\
       calls = [(Some g, to_u32 v3, 0); (Some g, to_u32 v3, 1)]).
Proof.
  intros r evs Hok. subst r evs.
  destruct (platform_pt_probe g edev tr) as [[rc edev'] tr'] eqn:E.
  cbn [fst snd] in *. subst rc.
  destruct (probe_success_facts _ _ _ _ _ E) as (s & evs & -> & -> & Hg & _ & Hv).
  rewrite (events_of_app _ _ _ _ E).
  exists s. split; [reflexivity|]. cbv zeta.
  destruct (routed_irq_run irq s tr2) as (evs2 & E2 & Hcalls).
  rewrite (events_of_app _ _ _ _ E2).
  destruct (find_guest_irq s (to_u32 irq) (Z.to_nat (irq_count s)) 0)
    as [[|] gi] eqn:F.
  - right. apply find_guest_irq_found in F. destruct F as (m & Hm & Hh & Hgi & _).
    destruct (Hv m) as (v1 & v2 & v3 & R1 & _ & R3 & C1 & _ & C3); [lia|].
    exists m, v1, v3. split; [lia|]. split; [exact R1|]. split; [exact R3|].
    split; [rewrite <- C1; exact Hh|].
    rewrite Hcalls, Hg, Hgi, C3. reflexivity.
  - left. split; [|rewrite Hcalls; reflexivity].
    intros j Hj. apply (find_guest_irq_absent _ _ _ _ _ F). lia.
Qed.

(** The routing registrations of a matching aspace-init event. *)
Lemma aspace_init_routing (s : platform_pt_state) (edata : vmm_guest_aspace_event)
    (tr : list event) :
  guest_ptr_eqb (guest s) (Some (edata_guest edata)) = true ->
  let m := platform_pt_guest_aspace_notification s VMM_GUEST_ASPACE_EVENT_INIT edata in
  fst (m tr) = NOTIFY_OK /\
  routing_calls (events_of m tr)
  = map (fun i => (guest s, arr_get (guest_irqs s) i, arr_get (host_irqs s) i))
        (seq 0 (Z.to_nat (irq_count s))).
Proof.
  intros Hg m. subst m.
  pose proof (aspace_init_run s edata tr Hg) as E.
  rewrite (events_of_app _ _ _ _ E). rewrite E. split; [reflexivity|].
  unfold routing_calls. rewrite omap_app.
  unfold routing_events at 1. erewrite omap_map_some by (intros; reflexivity).
  destruct (dom s) as [dm|].
  - rewrite omap_app, omap_map_none by (intros; reflexivity).
    simpl. rewrite app_nil_r. reflexivity.
  - simpl. rewrite app_nil_r. reflexivity.
Qed.

(** X16: the address space of the probing guest is initialised after a
    successful probe.  The subscriber of the instance takes the event as its
    own, returns "ok", and registers one route per index below the count, in
    order, for the probing guest: from the host line to the guest line of
    that index, which are the values the probe read for the index. *)
Theorem probe_then_aspace_init (g : vmm_guest) (edev : vmm_emudev) (tr : list event)
    (tr2 : list event) :
  let r := platform_pt_probe g edev tr in
  let evs := events_of (platform_pt_probe g edev) tr in
  fst (fst r) = VMM_OK ->
  exists s, priv (snd (fst r)) = Some s /\
    let m := platform_pt_guest_aspace_notification s VMM_GUEST_ASPACE_EVENT_INIT
               {| edata_guest := g |} in
    fst (m tr2) = NOTIFY_OK /\
    routing_calls (events_of m tr2)
    = map (fun j => (Some g, arr_get (guest_irqs s) j, arr_get (host_irqs s) j))
          (seq 0 (Z.to_nat (irq_count s))) /\
    forall j, (j < Z.to_nat (irq_count s))%nat -> triple_read (node edev) s j evs.
Proof.
  intros r evs Hok. subst r evs.
  destruct (platform_pt_probe g edev tr) as [[rc edev'] tr'] eqn:E.
  cbn [fst snd] in *. subst rc.
  destruct (probe_success_facts _ _ _ _ _ E) as (s & evs & -> & -> & Hg & _ & Hv).
  rewrite (events_of_app _ _ _ _ E).
  exists s. split; [reflexivity|]. cbv zeta.
  assert (Hmatch : guest_ptr_eqb (guest s) (Some (edata_guest {| edata_guest := g |}))
                   = true).
  { rewrite Hg. simpl. apply Nat.eqb_refl. }
  destruct (aspace_init_routing s {| edata_guest := g |} tr2 Hmatch) as (Hrc & Hroute).
  split; [exact Hrc|]. split; [|exact Hv].
  rewrite Hroute, Hg. reflexivity.
Qed.

(** X17: an IOMMU fault after a successful probe.  The fault handler, called
    with the instance as context, logs the fault, halts the probing guest,
    and returns 0; it makes no other call. *)
Theorem probe_then_fault (g : vmm_guest) (edev : vmm_emudev) (tr : list event)
    (iova flags : Z) (tr2 : list event) :
  let r := platform_pt_probe g edev tr in
  fst (fst r) = VMM_OK ->
  exists s, priv (snd (fst r)) = Some s /\
    platform_pt_fault iova flags s tr2
    = (0, tr2 ++ [EvLerror flags iova; EvGuestHalt (Some g)]).
Proof.
  intros r Hok. subst r.
  destruct (platform_pt_probe g edev tr) as [[rc edev'] tr'] eqn:E.
  cbn [fst snd] in *. subst rc.
  destruct (probe_success_facts _ _ _ _ _ E) as (s & evs & -> & -> & Hg & _).
  exists s. split; [reflexivity|].
  unfold platform_pt_fault, bind, vmm_manager_guest_halt, emit, ret.
  rewrite Hg, <- app_assoc. reflexivity.
Qed.

End ProbeCallbacks.

(** ** The handler logs each failed emulate call *)

Section HandlerLog.
Context `{Host}.

(** X1: the handler calls nothing but the guest-level emulate and the log,
    and it logs once for each emulate call that failed; a failure of the
    level 0 call does not stop the level 1 call. *)
Theorem routed_irq_logs_failures (irq : Z) (s : platform_pt_state) (tr : list event) :
  let evs := events_of (platform_pt_routed_irq irq s) tr in
  Forall (fun e => is_emulate e || is_printf e = true) evs /\
  count_calls is_printf evs = count_calls is_failed_emulate evs /\
  (count_calls is_emulate evs = 0%nat \/ count_calls is_emulate evs = 2%nat).
Proof.
  intros evs. subst evs.
  assert (Hrun : exists evs, platform_pt_routed_irq irq s tr = (VMM_IRQ_HANDLED, tr ++ evs) /\
            Forall (fun e => is_emulate e || is_printf e = true) evs /\
            count_calls is_printf evs = count_calls is_failed_emulate evs /\
            (count_calls is_emulate evs = 0%nat \/ count_calls is_emulate evs = 2%nat)).
  { unfold platform_pt_routed_irq.
    destruct (find_guest_irq s (to_u32 irq) (Z.to_nat (irq_count s)) 0) as [[|] g].
    - unfold bind, vmm_devemu_emulate_irq, call, vmm_printf, emit, ret. simpl.
      generalize (host_emulate_irq tr (guest s) g 0). intros r0.
      destruct (is_err r0) eqn:E0; simpl;
        match goal with
        | |- context [host_emulate_irq ?t ?a ?b 1] =>
            generalize (host_emulate_irq t a b 1); intros r1
        end;
        destruct (is_err r1) eqn:E1; simpl;
        eexists; rewrite <- ?app_assoc; (split; [reflexivity|]);
        cbn [app]; (split; [repeat constructor|]);
        unfold count_calls;
        cbn [List.filter is_printf is_failed_emulate is_emulate];
        rewrite ?E0, ?E1; cbn [length]; auto.
    - simpl. exists []. rewrite app_nil_r. split; [reflexivity|].
      split; [constructor|]. split; [reflexivity|left; reflexivity]. }
  destruct Hrun as (evs & E & Hk & Hc & Hn).
  rewrite (events_of_app _ _ _ _ E). auto.
Qed.

End HandlerLog.

(** ** The name of the instance, when it fits *)

Lemma substring_0_all (n : nat) (s : string) :
  (String.length s <= n)%nat -> substring 0 n s = s.
Proof.
  revert s. induction n as [|n IH]; intros [|c s] Hl; simpl in *; try reflexivity.
  - lia.
  - rewrite IH by lia. reflexivity.
Qed.

(** X2: when guest name, "/" and node name together have at most 63
    characters, the name built is exactly their concatenation, the value
    tested against the capacity is its length, and no overflow is seen. *)
Theorem probe_name_fits (g : vmm_guest) (edev : vmm_emudev) (p : nat) :
  (String.length (guest_name g) + 1 + String.length (node_name (node edev))
   < sizeof_name)%nat ->
  probe_name g edev (zeroed_state p)
  = ((guest_name g +:+ "/") +:+ node_name (node edev),
     (String.length (guest_name g) + 1 + String.length (node_name (node edev)))%nat).
Proof.
  unfold sizeof_name. intros Hfit.
  unfold probe_name, strlcpy, sizeof_name. cbn [fst].
  rewrite (substring_0_all 63 (guest_name g)) by lia.
  unfold strlcat at 2. cbv zeta.
  destruct (64 <=? String.length (guest_name g))%nat eqn:Hc1;
    [apply Nat.leb_le in Hc1; lia|].
  cbn [fst]. rewrite (substring_0_all _ "/") by (simpl; lia).
  unfold strlcat. cbv zeta. rewrite append_length.
  change (String.length "/") with 1%nat.
  destruct (64 <=? String.length (guest_name g) + 1)%nat eqn:Hc2;
    [apply Nat.leb_le in Hc2; lia|].
  rewrite substring_0_all by lia. reflexivity.
Qed.

(** ** The further theorems on concrete hosts *)

(** The instance with a domain is removed. *)
Lemma remove_releases_witness :
  priv edev_attached = Some state_with_domain /\
  fst (fst (platform_pt_remove edev_attached []))
  = VMM_OK.
Proof.
  split; [reflexivity|].
  exact (proj1 (remove_releases edev_attached state_with_domain [] eq_refl)).
Defined.

(** Guest "g0" and node "eth0". *)
Lemma probe_name_fits_witness :
  (String.length (guest_name guest_g0) + 1 + String.length (node_name (node edev_eth0))
   < sizeof_name)%nat /\
  probe_name guest_g0 edev_eth0 (zeroed_state 1)
  = ((guest_name guest_g0 +:+ "/") +:+ node_name (node edev_eth0),
     (String.length (guest_name guest_g0) + 1
      + String.length (node_name (node edev_eth0)))%nat).
Proof.
  assert (Hfit : (String.length (guest_name guest_g0) + 1
                  + String.length (node_name (node edev_eth0)) < sizeof_name)%nat)
    by (vm_compute; lia).
  split; [exact Hfit|].
  exact (probe_name_fits guest_g0 edev_eth0 1 Hfit).
Defined.

(** The probe of two lines with an IOMMU device succeeds. *)
Lemma probe_success_instance_witness :
  fst (fst (platform_pt_probe (H := scenario_host sc_with_regions)
              guest_g0 edev_eth0 [])) = VMM_OK /\
  exists s, priv (snd (fst (platform_pt_probe (H := scenario_host sc_with_regions)
                              guest_g0 edev_eth0 []))) = Some s /\
            guest s = Some guest_g0.
Proof.
  assert (Hok : fst (fst (platform_pt_probe (H := scenario_host sc_with_regions)
                            guest_g0 edev_eth0 [])) = VMM_OK) by reflexivity.
  split; [exact Hok|].
  destruct (probe_success_instance (H := scenario_host sc_with_regions)
              guest_g0 edev_eth0 [] Hok) as (s & n & E & _ & _ & Hg & _).
  exists s. rewrite E. split; [reflexivity|exact Hg].
Defined.

Lemma probe_success_resources_witness :
  fst (fst (platform_pt_probe (H := scenario_host sc_with_regions)
              guest_g0 edev_eth0 [])) = VMM_OK /\
  exists s, priv (snd (fst (platform_pt_probe (H := scenario_host sc_with_regions)
                              guest_g0 edev_eth0 []))) = Some s /\
            live_domains (snd (platform_pt_probe (H := scenario_host sc_with_regions)
                                 guest_g0 edev_eth0 []))
            = instance_domain s ∪ live_domains [].
Proof.
  assert (Hok : fst (fst (platform_pt_probe (H := scenario_host sc_with_regions)
                            guest_g0 edev_eth0 [])) = VMM_OK) by reflexivity.
  split; [exact Hok|].
  destruct (probe_success_resources (H := scenario_host sc_with_regions)
              guest_g0 edev_eth0 [] Hok) as (s & E & _ & _ & _ & Hd & _).
  exists s. split; [exact E|exact Hd].
Defined.

Lemma probe_tables_from_configuration_witness :
  fst (fst (platform_pt_probe (H := scenario_host sc_two_lines)
              guest_g0 edev_eth0 [])) = VMM_OK /\
  exists s, priv (snd (fst (platform_pt_probe (H := scenario_host sc_two_lines)
                              guest_g0 edev_eth0 []))) = Some s /\
            arrays_sized s.
Proof.
  assert (Hok : fst (fst (platform_pt_probe (H := scenario_host sc_two_lines)
                            guest_g0 edev_eth0 [])) = VMM_OK) by reflexivity.
  split; [exact Hok|].
  destruct (probe_tables_from_configuration (H := scenario_host sc_two_lines)
              guest_g0 edev_eth0 [] Hok) as (s & E & Hs & _).
  exists s. split; [exact E|exact Hs].
Defined.

Lemma probe_remove_round_trip_witness :
  no_resources [] /\
  fst (fst (platform_pt_probe (H := scenario_host sc_with_regions)
              guest_g0 edev_eth0 [])) = VMM_OK /\
  no_resources
    (snd (platform_pt_remove
            (snd (fst (platform_pt_probe (H := scenario_host sc_with_regions)
                         guest_g0 edev_eth0 [])))
            (snd (platform_pt_probe (H := scenario_host sc_with_regions)
                    guest_g0 edev_eth0 [])))).
Proof.
  assert (Hok : fst (fst (platform_pt_probe (H := scenario_host sc_with_regions)
                            guest_g0 edev_eth0 [])) = VMM_OK) by reflexivity.
  split; [exact no_resources_nil|]. split; [exact Hok|].
  exact (proj1 (proj2 (proj2 (probe_remove_round_trip
                                (H := scenario_host sc_with_regions)
                                guest_g0 edev_eth0 [] no_resources_nil Hok)))).
Defined.

(** The handler install of index 1 fails. *)
Lemma probe_all_or_nothing_witness :
  no_resources [] /\
  fst (fst (platform_pt_probe (H := scenario_host sc_install_fails)
              guest_g0 edev_eth0 [])) <> VMM_OK /\
  no_resources (snd (platform_pt_probe (H := scenario_host sc_install_fails)
                       guest_g0 edev_eth0 [])).
Proof.
  assert (Hrc : fst (fst (platform_pt_probe (H := scenario_host sc_install_fails)
                            guest_g0 edev_eth0 [])) <> VMM_OK)
    by (vm_compute; discriminate).
  split; [exact no_resources_nil|]. split; [exact Hrc|].
  exact (proj1 (proj2 (probe_all_or_nothing (H := scenario_host sc_install_fails)
                         guest_g0 edev_eth0 [] no_resources_nil Hrc))).
Defined.

(** The heap is exhausted at the second array. *)
Lemma probe_out_of_memory_witness :
  EvZalloc 8 None
    ∈ events_of (platform_pt_probe (H := host_heap_exhausted 3) guest_g0 edev_eth0) [] /\
  fst (fst (platform_pt_probe (H := host_heap_exhausted 3) guest_g0 edev_eth0 []))
  = VMM_ENOMEM.
Proof.
  assert (Hx : EvZalloc 8 None
                 ∈ events_of (platform_pt_probe (H := host_heap_exhausted 3)
                                guest_g0 edev_eth0) []) by mem_compute.
  split; [exact Hx|].
  exact (proj1 (probe_out_of_memory (H := host_heap_exhausted 3)
                  guest_g0 edev_eth0 [] 8 Hx)).
Defined.

(** The subscription fails, with an IOMMU domain allocated. *)
Lemma probe_subscription_failure_witness :
  no_resources [] /\
  EvRegisterClient 1 VMM_EFAIL
    ∈ events_of (platform_pt_probe (H := scenario_host sc_client_fails)
                   guest_g0 edev_eth0) [] /\
  is_err VMM_EFAIL = true /\
  fst (fst (platform_pt_probe (H := scenario_host sc_client_fails)
              guest_g0 edev_eth0 [])) = VMM_EFAIL.
Proof.
  assert (Hx : EvRegisterClient 1 VMM_EFAIL
                 ∈ events_of (platform_pt_probe (H := scenario_host sc_client_fails)
                                guest_g0 edev_eth0) []) by mem_compute.
  split; [exact no_resources_nil|]. split; [exact Hx|]. split; [reflexivity|].
  exact (proj1 (probe_subscription_failure (H := scenario_host sc_client_fails)
                  guest_g0 edev_eth0 [] 1 VMM_EFAIL no_resources_nil Hx eq_refl)).
Defined.

(** "host-interrupts" has one cell, four bytes. *)
Lemma probe_without_lines_witness :
  EvAttrlen (node edev_eth0) "host-interrupts" 4
    ∈ events_of (platform_pt_probe (H := scenario_host sc_half_triple)
                   guest_g0 edev_eth0) [] /\
  to_u32 4 / (sizeof_u32 * 2) = 0 /\
  count_calls is_zalloc
    (events_of (platform_pt_probe (H := scenario_host sc_half_triple)
                  guest_g0 edev_eth0) []) = 1%nat.
Proof.
  assert (Hx : EvAttrlen (node edev_eth0) "host-interrupts" 4
                 ∈ events_of (platform_pt_probe (H := scenario_host sc_half_triple)
                                guest_g0 edev_eth0) []) by mem_compute.
  split; [exact Hx|]. split; [reflexivity|].
  exact (proj1 (probe_without_lines (H := scenario_host sc_half_triple)
                  guest_g0 edev_eth0 [] 4 Hx eq_refl)).
Defined.

(** A guest name of 61 characters and node "eth0". *)
Lemma probe_long_name_witness :
  ((String.length (guest_name guest_wide) <= 62)%nat \/
   (1 <= String.length (node_name (node edev_eth0)))%nat) /\
  (sizeof_name <= String.length (guest_name guest_wide) + 1
                  + String.length (node_name (node edev_eth0)))%nat /\
  snd (fst (platform_pt_probe (H := scenario_host sc_two_lines)
              guest_wide edev_eth0 [])) = edev_eth0.
Proof.
  assert (Hcase : (String.length (guest_name guest_wide) <= 62)%nat \/
                  (1 <= String.length (node_name (node edev_eth0)))%nat)
    by (left; vm_compute; lia).
  assert (Hlong : (sizeof_name <= String.length (guest_name guest_wide) + 1
                                  + String.length (node_name (node edev_eth0)))%nat)
    by (vm_compute; lia).
  split; [exact Hcase|]. split; [exact Hlong|].
  exact (proj1 (probe_long_name (H := scenario_host sc_two_lines)
                  guest_wide edev_eth0 [] Hcase Hlong)).
Defined.

(** Host line 7 fires after the probe of two lines. *)
Lemma probe_then_irq_witness :
  fst (fst (platform_pt_probe (H := scenario_host sc_two_lines)
              guest_g0 edev_eth0 [])) = VMM_OK /\
  exists s, priv (snd (fst (platform_pt_probe (H := scenario_host sc_two_lines)
                              guest_g0 edev_eth0 []))) = Some s.
Proof.
  assert (Hok : fst (fst (platform_pt_probe (H := scenario_host sc_two_lines)
                            guest_g0 edev_eth0 [])) = VMM_OK) by reflexivity.
  split; [exact Hok|].
  destruct (probe_then_irq (H := scenario_host sc_two_lines)
              guest_g0 edev_eth0 [] 7 [] Hok) as (s & E & _).
  exists s. exact E.
Defined.

Lemma probe_then_aspace_init_witness :
  fst (fst (platform_pt_probe (H := scenario_host sc_two_lines)
              guest_g0 edev_eth0 [])) = VMM_OK /\
  exists s, priv (snd (fst (platform_pt_probe (H := scenario_host sc_two_lines)
                              guest_g0 edev_eth0 []))) = Some s /\
    fst (platform_pt_guest_aspace_notification (H := scenario_host sc_two_lines) s
           (VMM_GUEST_ASPACE_EVENT_INIT (Host := scenario_host sc_two_lines))
           {| edata_guest := guest_g0 |} []) = NOTIFY_OK.
Proof.
  assert (Hok : fst (fst (platform_pt_probe (H := scenario_host sc_two_lines)
                            guest_g0 edev_eth0 [])) = VMM_OK) by reflexivity.
  split; [exact Hok|].
  destruct (probe_then_aspace_init (H := scenario_host sc_two_lines)
              guest_g0 edev_eth0 [] [] Hok) as (s & E & Hrc & _).
  exists s. split; [exact E|exact Hrc].
Defined.

Lemma probe_then_fault_witness :
  fst (fst (platform_pt_probe (H := scenario_host sc_with_regions)
              guest_g0 edev_eth0 [])) = VMM_OK /\
  exists s, priv (snd (fst (platform_pt_probe (H := scenario_host sc_with_regions)
                              guest_g0 edev_eth0 []))) = Some s /\
    platform_pt_fault 4096 1 s []
    = (0, [] ++ [EvLerror 1 4096; EvGuestHalt (Some guest_g0)]).
Proof.
  assert (Hok : fst (fst (platform_pt_probe (H := scenario_host sc_with_regions)
                            guest_g0 edev_eth0 [])) = VMM_OK) by reflexivity.
  split; [exact Hok|].
  exact (probe_then_fault (H := scenario_host sc_with_regions)
           guest_g0 edev_eth0 [] 4096 1 [] Hok).
Defined.

(** The calls of the probe of two lines. *)
Lemma probe_success_calls_witness :
  fst (fst (platform_pt_probe (H := scenario_host sc_two_lines)
              guest_g0 edev_eth0 [])) = VMM_OK /\
  exists s, priv (snd (fst (platform_pt_probe (H := scenario_host sc_two_lines)
                              guest_g0 edev_eth0 []))) = Some s /\
    count_calls is_read
      (events_of (platform_pt_probe (H := scenario_host sc_two_lines)
                    guest_g0 edev_eth0) [])
    = (3 * Z.to_nat (irq_count s))%nat.
Proof.
  assert (Hok : fst (fst (platform_pt_probe (H := scenario_host sc_two_lines)
                            guest_g0 edev_eth0 [])) = VMM_OK) by reflexivity.
  split; [exact Hok|].
  destruct (probe_success_calls (H := scenario_host sc_two_lines)
              guest_g0 edev_eth0 [] Hok) as (s & E & Hr & _).
  exists s. split; [exact E|exact Hr].
Defined.

(** The instance of a probe of two lines with an IOMMU device, computed: it
    is the instance [state_with_domain]. *)
Lemma probe_success_example :
  fst (platform_pt_probe (H := scenario_host sc_with_regions) guest_g0 edev_eth0 [])
  = (VMM_OK, edev_attached).
Proof. reflexivity. Qed.

(** The handler install of index 1 fails with Failure: the probe returns
    Failure, and no domain allocation is in its trace. *)
Lemma probe_return_code_example :
  let r := platform_pt_probe (H := scenario_host sc_install_fails) guest_g0 edev_eth0 [] in
  fst (fst r) = VMM_EFAIL /\
  failure_of (EvRegister 7 "g0/eth0" 1 VMM_EFAIL) VMM_EFAIL /\
  EvRegister 7 "g0/eth0" 1 VMM_EFAIL ∈ snd r /\
  List.filter (fun e => match e with EvDomainAlloc _ _ _ => true | _ => false end) (snd r)
  = [].
Proof.
  split; [reflexivity|]. split; [left; reflexivity|]. split; [mem_compute|reflexivity].
Qed.
